(** * Report-plotting scripts of the-one: a shallow embedding

    Three scripts are embedded:
    - [reports/bubblerap2/plot_popularity.py]      (module [Popularity]),
    - [reports/prophetcomparison/plot.py]          (module [ProphetComparison]),
    - [reports/prophetcomparison2/plot.py]         (module [ProphetComparison2]).

    A Python [str] is embedded as the [string] of its code points, one
    character per code point; the embedding covers the strs all of whose
    code points are below 256, and a str with a larger code point (a digit
    or a blank outside Latin-1, say) has no counterpart here.  The character
    classes below are Python's on that range.  Python [int] is [Z], Python
    [float] / numpy [float64] the primitive binary64 [float] (all NaNs are
    one value), numpy [int64] a [Z] with its wrap-around written out (the
    conversions between the two are those of x86-64), [dict]s are [gmap]s,
    and [print] is a list of the printed texts, oldest first.  What the
    scripts obtain from outside the repository (the file system, the result
    of [glob.glob], the frame [pandas.read_csv] returns, the series
    [pandas.to_numeric] returns, the builtin [float]) is a section variable
    or an argument.  A frame is covered when the row the script selects is
    of dtype int64 or float64 once [pandas.to_numeric] has seen it.  The
    calls that only style a figure (titles, axis labels, limits, grid) are
    left out, apart from the exceptions that leave the scripts there; what
    is kept of a figure is what is drawn over which x values.  The tick
    thinning of the popularity chart and the markers and line styles of the
    first comparison script are embedded apart from the figures. *)

From Stdlib Require Import ZArith Floats Ascii String.
From stdpp Require Import gmap strings list sorting pretty.

Open Scope Z_scope.

(** ** Python string operations *)

Module Py.

(** [str.isspace] on the code points below 256: TAB, LF, VT, FF, CR, FS,
    GS, RS, US, the space, NEL (133) and the no-break space (160).  The
    regular-expression class [\s] is the same set. *)
Definition isspace (c : ascii) : bool :=
  let n := Ascii.N_of_ascii c in
  ((9 <=? n) && (n <=? 13) || (28 <=? n) && (n <=? 32) || (n =? 133) || (n =? 160))%N.

(** The decimal digits: the regular-expression class [\d] and the digits
    [int] reads; below 256 these are 0 to 9. *)
Definition isdigit (c : ascii) : bool :=
  let n := Ascii.N_of_ascii c in ((48 <=? n) && (n <=? 57))%N.

Definition LF : ascii := Ascii.ascii_of_N 10.

Fixpoint lstrip (s : string) : string :=
  match s with
  | String c s' => if isspace c then lstrip s' else s
  | EmptyString => EmptyString
  end.

Fixpoint rstrip (s : string) : string :=
  match s with
  | String c s' =>
      match rstrip s' with
      | EmptyString => if isspace c then EmptyString else String c EmptyString
      | r => String c r
      end
  | EmptyString => EmptyString
  end.

(** [s.strip()] *)
Definition strip (s : string) : string := rstrip (lstrip s).

(** The lower-case form of a code point below 256: A to Z, and the capital
    letters of Latin-1 (192 to 222 without the multiplication sign, 215). *)
Definition lower_char (c : ascii) : ascii :=
  let n := Ascii.N_of_ascii c in
  if ((65 <=? n) && (n <=? 90) || (192 <=? n) && (n <=? 222) && negb (n =? 215))%N
  then Ascii.ascii_of_N (n + 32) else c.

(** [s.lower()] *)
Fixpoint lower (s : string) : string :=
  match s with
  | String c s' => String (lower_char c) (lower s')
  | EmptyString => EmptyString
  end.

(** [sub in s] *)
Definition contains (sub s : string) : bool :=
  match String.index 0 sub s with Some _ => true | None => false end.

Fixpoint has_char (c : ascii) (s : string) : bool :=
  match s with
  | String d s' => if Ascii.eqb c d then true else has_char c s'
  | EmptyString => false
  end.

(** [s.split(sep, 1)] for a one-character separator: [None] when [sep] does
    not occur (the split then has a single piece). *)
Fixpoint split_once (sep : ascii) (s : string) : option (string * string) :=
  match s with
  | EmptyString => None
  | String c s' =>
      if Ascii.eqb c sep then Some (EmptyString, s')
      else match split_once sep s' with
           | Some (a, b) => Some (String c a, b)
           | None => None
           end
  end.

(** [s.split(sep)] for a one-character separator. *)
Fixpoint split (sep : ascii) (s : string) : list string :=
  match s with
  | EmptyString => [EmptyString]
  | String c s' =>
      if Ascii.eqb c sep then EmptyString :: split sep s'
      else match split sep s' with
           | p :: ps => String c p :: ps
           | [] => [String c EmptyString]
           end
  end.

(** If [p] is a prefix of [s], what follows it. *)
Fixpoint strip_prefix (p s : string) : option string :=
  match p, s with
  | EmptyString, _ => Some s
  | String a p', String b s' => if Ascii.eqb a b then strip_prefix p' s' else None
  | String _ _, EmptyString => None
  end.

(** The longest run of decimal digits at the start of [s], and the rest:
    what a greedy [\d+] or [\d*] takes. *)
Fixpoint span_digits (s : string) : string * string :=
  match s with
  | String c s' =>
      if isdigit c then let '(d, r) := span_digits s' in (String c d, r)
      else (EmptyString, s)
  | EmptyString => (EmptyString, EmptyString)
  end.

Definition digit_val (c : ascii) : Z := Z.of_N (Ascii.N_of_ascii c) - 48.

Fixpoint digits_to_Z_acc (acc : Z) (s : string) : Z :=
  match s with
  | String c s' => digits_to_Z_acc (10 * acc + digit_val c) s'
  | EmptyString => acc
  end.

(** [int(s)] on a non-empty string of decimal digits, as the scripts call
    it on the digits of a file name (of fewer than [int_max_str_digits]
    digits: a file name has at most 255 characters). *)
Definition digits_to_Z (s : string) : Z := digits_to_Z_acc 0 s.

(** [os.path.basename] (POSIX): what follows the last slash. *)
Fixpoint basename_acc (cur s : string) : string :=
  match s with
  | String c s' =>
      if Ascii.eqb c "/" then basename_acc s' s' else basename_acc cur s'
  | EmptyString => cur
  end.

Definition basename (p : string) : string := basename_acc p p.

(** [os.path.isabs] and [os.path.join] (POSIX, two arguments). *)
Definition isabs (p : string) : bool :=
  match p with String "/" _ => true | _ => false end.

Definition ends_with_slash (p : string) : bool :=
  match String.rev p with String "/" _ => true | _ => false end.

Definition path_join (a b : string) : string :=
  if isabs b then b
  else if (String.eqb a "" || ends_with_slash a)%bool then a +:+ b
  else a +:+ "/" +:+ b.

Definition hex_digit (n : N) : ascii :=
  Ascii.ascii_of_N (if (n <? 10)%N then 48 + n else 87 + n).

(** [repr(s)] for a [str]: single quotes unless the text has a single quote
    and no double quote; backslash escapes as Python writes them (the code
    points below 256 that are not printable are 0 to 31, 127 to 160 and
    173). *)
Fixpoint repr_body (q : ascii) (s : string) : string :=
  match s with
  | EmptyString => EmptyString
  | String c s' =>
      let n := Ascii.N_of_ascii c in
      (if (Ascii.eqb c q || Ascii.eqb c "\")%bool then String "\" (String c EmptyString)
       else if (n =? 10)%N then "\n"
       else if (n =? 13)%N then "\r"
       else if (n =? 9)%N then "\t"
       else if ((n <? 32) || (127 <=? n) && (n <=? 160) || (n =? 173))%N then
         "\x" +:+ String (hex_digit (n / 16)) (String (hex_digit (n mod 16)) EmptyString)
       else String c EmptyString) +:+ repr_body q s'
  end.

Definition dquote : ascii := Ascii.ascii_of_N 34.

Definition repr (s : string) : string :=
  let q : ascii :=
    if (has_char "'" s && negb (has_char dquote s))%bool then dquote else "'"%char in
  String q (repr_body q s) +:+ String q EmptyString.

Definition join (sep : string) (l : list string) : string := String.concat sep l.

(** [str(l)] for a list of [str]. *)
Definition repr_list (l : list string) : string := "[" +:+ join ", " (repr <$> l) +:+ "]".

(** The blanks [int] skips at both ends of a [str]: TAB, LF, VT, FF, CR, the
    space, NEL and the no-break space (not FS to US). *)
Definition int_space (c : ascii) : bool :=
  let n := Ascii.N_of_ascii c in
  ((9 <=? n) && (n <=? 13) || (n =? 32) || (n =? 133) || (n =? 160))%N.

Fixpoint int_lstrip (s : string) : string :=
  match s with
  | String c s' => if int_space c then int_lstrip s' else s
  | EmptyString => EmptyString
  end.

Fixpoint int_rstrip (s : string) : string :=
  match s with
  | String c s' =>
      match int_rstrip s' with
      | EmptyString => if int_space c then EmptyString else String c EmptyString
      | r => String c r
      end
  | EmptyString => EmptyString
  end.

(** The run of digits and single underscores at the start of [s]: the
    number read so far, the count of digits, and what follows the run.
    [None] when the run has two underscores in a row or ends in one. *)
Fixpoint int_scan (acc digits : Z) (prev_underscore : bool) (s : string)
  : option (Z * Z * string) :=
  match s with
  | EmptyString => if prev_underscore then None else Some (acc, digits, s)
  | String c s' =>
      if isdigit c then int_scan (10 * acc + digit_val c) (digits + 1) false s'
      else if Ascii.eqb c "_" then
        if prev_underscore then None else int_scan acc digits true s'
      else if prev_underscore then None else Some (acc, digits, s)
  end.

(** [sys.get_int_max_str_digits()], at its default. *)
Definition int_max_str_digits : Z := 4300.

(** The sign of a literal, and what follows it. *)
Definition int_sign (s : string) : bool * string :=
  match s with
  | String c r =>
      if Ascii.eqb c "-" then (true, r)
      else if Ascii.eqb c "+" then (false, r)
      else (false, s)
  | EmptyString => (false, s)
  end.

(** The [ValueError] texts of [int]: the [repr] of the argument is quoted
    up to 200 characters. *)
Definition int_invalid (s : string) : string :=
  "invalid literal for int() with base 10: " +:+ String.substring 0 200 (repr s).

Definition int_too_long (digits : Z) : string :=
  "Exceeds the limit (" +:+ pretty int_max_str_digits
    +:+ " digits) for integer string conversion: value has "
    +:+ pretty digits
    +:+ " digits; use sys.set_int_max_str_digits() to increase the limit".

(** The number the text [r] after the sign of the literal [s] writes. *)
Definition int_magnitude (s r : string) : Z + string :=
  match r with
  | EmptyString => inr (int_invalid s)
  | String c _ =>
      if Ascii.eqb c "_" then inr (int_invalid s)
      else
        match int_scan 0 0 false r with
        | None => inr (int_invalid s)
        | Some (acc, digits, rest) =>
            if digits =? 0 then inr (int_invalid s)
            else if int_max_str_digits <? digits then inr (int_too_long digits)
            else
              match rest with
              | EmptyString => inl acc
              | String _ _ => inr (int_invalid s)
              end
        end
  end.

(** [int(s)] for a [str] argument in base 10: blanks at both ends, an
    optional sign, then digits that may be grouped by single underscores.
    [inr] holds the text of the [ValueError]: the literal is invalid, or
    the run has more digits than [int_max_str_digits]. *)
Definition int (s : string) : Z + string :=
  let '(negative, r) := int_sign (int_rstrip (int_lstrip s)) in
  match int_magnitude s r with
  | inl a => inl (if negative then - a else a)
  | inr e => inr e
  end.

End Py.

(** ** binary64 values *)

Module F64.

Definition isnan (x : float) : bool := PrimFloat.is_nan x.

Definition isfinite (x : float) : bool :=
  match Prim2SF x with
  | S754_zero _ | S754_finite _ _ _ => true
  | S754_infinity _ | S754_nan => false
  end.

(** The integer part of a finite value (rounding toward zero); a finite
    non-zero binary64 is [(-1)^s * m * 2^e]. *)
Definition trunc (x : float) : Z :=
  match Prim2SF x with
  | S754_finite s m e => let a := Z.shiftl (Zpos m) e in if s then - a else a
  | _ => 0
  end.

(** The C conversion of a finite [double] to [int64] as numpy performs it:
    truncation; a value outside the range gives the minimum (x86-64). *)
Definition to_int64 (x : float) : Z :=
  let t := trunc x in
  if ((- 2 ^ 63 <=? t) && (t <? 2 ^ 63))%bool then t else - 2 ^ 63.

(** The nearest binary64 to an integer. *)
Definition of_Z (z : Z) : float := SF2Prim (binary_normalize 53 1024 z 0 false).

End F64.

(** ** reports/bubblerap2/plot_popularity.py *)

Module Popularity.

(** A label of the row index of the frame [pd.read_csv] returns with
    [index_col=0].  pandas types the index by its fields: an index whose
    fields are all integers holds numbers, not texts.  [OtherLabel] is a
    label that is neither a [str] nor an [int] (a float, a bool, the NaN of
    an empty field), given by its [repr]. *)
Inductive label :=
  | StrLabel (s : string)
  | IntLabel (z : Z)
  | OtherLabel (repr : string).

(** A cell of that frame: a cell of an int64 column (a number in the range
    of int64), a cell of a float64 column (a missing field is NaN), or the
    field's text in a column that is not numeric throughout. *)
Inductive cell :=
  | Int (z : Z)
  | Num (f : float)
  | Text (s : string).

(** The column labels, and the rows in file order, each with its index
    label. *)
Record DataFrame := {
  columns : list string;
  body : list (label * list cell)
}.

Definition index (df : DataFrame) : list label := (body df).*1.

(** Whether a label of the index equals the [str] the script looks for: no
    number equals a [str]. *)
Definition label_is (node_id_to_plot : string) (l : label) : bool :=
  match l with
  | StrLabel s => String.eqb node_id_to_plot s
  | IntLabel _ | OtherLabel _ => false
  end.

(** [node_id_to_plot in df.index] *)
Definition in_index (node_id_to_plot : string) (df : DataFrame) : bool :=
  existsb (label_is node_id_to_plot) (index df).

(** [df.loc[label]]: the rows that carry the label. *)
Definition loc (df : DataFrame) (node_id_to_plot : string) : list (list cell) :=
  (filter (λ r, label_is node_id_to_plot r.1 = true) (body df)).*2.

(** [repr] of a label, and [str(list(df.index))]. *)
Definition repr_label (l : label) : string :=
  match l with
  | StrLabel s => Py.repr s
  | IntLabel z => pretty z
  | OtherLabel r => r
  end.

Definition repr_labels (ls : list label) : string :=
  "[" +:+ Py.join ", " (repr_label <$> ls) +:+ "]".

Inductive csv_result :=
  | FileNotFound
  | LoadError (e : string)
  | Loaded (df : DataFrame).

(** The series [pd.to_numeric] returns: of dtype int64 or of dtype
    float64. *)
Inductive series :=
  | Int64 (values : list Z)
  | Float64 (values : list float).

Definition size (s : series) : nat :=
  match s with
  | Int64 l => length l
  | Float64 l => length l
  end.

(** [s.isnull().all()]: an int64 series holds no NaN. *)
Definition isnull_all (s : series) : bool :=
  match s with
  | Int64 l => forallb (λ _, false) l
  | Float64 l => forallb F64.isnan l
  end.

(** The chart drawn by [ax.bar], the file name it is saved under, and
    whether saving succeeded. *)
Record bar_chart := {
  window_labels : list string;
  window_popularity : list Z;
  output_filename : string;
  saved : bool
}.

(** How a call ends: it returns (with the chart it drew and handed to
    [savefig], if any) or an exception leaves it (what was drawn until
    then is never saved). *)
Inductive outcome :=
  | Returned (chart : option bar_chart)
  | Raised (exc : string).

(** [Series.diff()] on float64: NaN first, then each element minus the one
    before. *)
Fixpoint diff_from (prev : float) (l : list float) : list float :=
  match l with
  | [] => []
  | x :: l' => (x - prev)%float :: diff_from x l'
  end.

Definition diff (l : list float) : list float :=
  match l with
  | [] => []
  | x :: l' => nan :: diff_from x l'
  end.

(** int64 arithmetic wraps around. *)
Definition wrap_int64 (z : Z) : Z := (z + 2 ^ 63) mod 2 ^ 64 - 2 ^ 63.

(** [Series.diff()] on int64: the result is float64, but each difference is
    taken in int64 and converted afterwards. *)
Fixpoint diff_int_from (prev : Z) (l : list Z) : list float :=
  match l with
  | [] => []
  | x :: l' => F64.of_Z (wrap_int64 (x - prev)) :: diff_int_from x l'
  end.

Definition diff_int (l : list Z) : list float :=
  match l with
  | [] => []
  | x :: l' => nan :: diff_int_from x l'
  end.

Definition series_diff (s : series) : list float :=
  match s with
  | Int64 l => diff_int l
  | Float64 l => diff l
  end.

(** [s.iloc[0]], as it is stored into a float64 series. *)
Definition first (s : series) : option float :=
  match s with
  | Int64 l => F64.of_Z <$> head l
  | Float64 l => head l
  end.

(** The series after lines 45 and 46, element by element: the first
    cumulative value, then each value minus the one before. *)
Definition delta (cumulative : list float) (i : nat) : option float :=
  c ← cumulative !! i;
  Some match i with
       | O => c
       | S j => (c - default nan (cumulative !! j))%float
       end.

Definition delta_int (cumulative : list Z) (i : nat) : option float :=
  c ← cumulative !! i;
  Some (F64.of_Z match i with
                 | O => c
                 | S j => wrap_int64 (c - default 0 (cumulative !! j))
                 end).

Definition series_delta (cumulative : series) (i : nat) : option float :=
  match cumulative with
  | Int64 l => delta_int l i
  | Float64 l => delta l i
  end.

(** [Series.fillna(0)] *)
Definition fill0 (x : float) : float := if F64.isnan x then 0%float else x.

Definition fillna0 (l : list float) : list float := fill0 <$> l.

(** [Series.astype(int)]: pandas refuses non-finite values. *)
Definition astype_int (l : list float) : option (list Z) :=
  if forallb F64.isfinite l then Some (F64.to_int64 <$> l) else None.

(** [int(str(col).split('@')[1])], with the exception text on failure. *)
Definition time_point (col : string) : Z + string :=
  match Py.split "@" col with
  | _ :: p :: _ =>
      Py.int p
  | _ => inr "list index out of range"
  end.

Fixpoint time_points (cols : list string) : list Z + string :=
  match cols with
  | [] => inl []
  | c :: cols' =>
      match time_point c with
      | inr e => inr e
      | inl z =>
          match time_points cols' with
          | inr e => inr e
          | inl zs => inl (z :: zs)
          end
      end
  end.

(** Lines 45-48: the cumulative series to the bar heights; [None] when the
    cast raises.  (On an empty series the assignment to position 0 would
    raise; a call never gets here with one, as line 41 takes an empty
    series for one without numbers.) *)
Definition window_of (cumulative_popularity : series) : option (list Z) :=
  match first cumulative_popularity with
  | None => None
  | Some c0 =>
      let window := series_diff cumulative_popularity in
      let window := <[0%nat := c0]> window in
      astype_int (fillna0 window)
  end.

(** Lines 58-63: the number of seconds that is divided by 3600, if there
    is a time point. *)
Definition interval_seconds (time_points : list Z) : option Z :=
  match time_points with
  | t0 :: t1 :: _ => Some (t1 - t0)
  | [t0] => Some t0
  | [] => None
  end.

(** Whether [interval_seconds / 3600] raises an OverflowError: the quotient
    of two [int]s is rounded to binary64, and is refused when it rounds
    beyond the largest binary64, [2^1024 - 2^971]. *)
Definition hours_overflow (interval_seconds : Z) : bool :=
  3600 * (2 ^ 1024 - 2 ^ 970) <=? Z.abs interval_seconds.

Section Script.

(** [pd.read_csv(filename, index_col=0)] on the file system of the run. *)
Variable read_csv : string → csv_result.
(** [pd.to_numeric(row, errors='coerce')] on a row of the frame. *)
Variable to_numeric : list cell → series.
(** [plt.savefig]: the exception text when it fails. *)
Variable savefig : string → option string.

Definition plot_node_popularity (filename node_id_to_plot : string)
  : list string * outcome :=
  match read_csv filename with
  | FileNotFound =>
      (["Error: File not found at '" +:+ filename +:+ "'"], Returned None)
  | LoadError e =>
      (["Error loading file '" +:+ filename +:+ "': " +:+ e], Returned None)
  | Loaded df =>
      if negb (in_index node_id_to_plot df) then
        (["Error: NodeID '" +:+ node_id_to_plot +:+ "' not found in the file.";
          "Available NodeIDs are: " +:+ repr_labels (index df)],
         Returned None)
      else
        match loc df node_id_to_plot with
        | [node_data] =>
            let cumulative_popularity := to_numeric node_data in
            match time_points (columns df) with
            | inr e =>
                (["Error parsing column headers or data for node "
                    +:+ node_id_to_plot +:+ ": " +:+ e;
                  "Ensure headers are like 'Pop@<number>' and data is numeric."],
                 Returned None)
            | inl tps =>
                if isnull_all cumulative_popularity then
                  (["Error: Could not convert data to numeric for node "
                      +:+ node_id_to_plot +:+ "."],
                   Returned None)
                else
                  match window_of cumulative_popularity with
                  | None => ([], Raised "ValueError")
                  | Some heights =>
                      let labels :=
                        (λ i : nat, pretty (i + 1)%nat) <$> seq 0 (length tps) in
                      if default false (hours_overflow <$> interval_seconds tps) then
                        ([], Raised "OverflowError")
                      else
                        let out :=
                          "popularity_plot_" +:+ node_id_to_plot +:+ "_3report.png" in
                        match savefig out with
                        | None =>
                            (["Plot saved as " +:+ out],
                             Returned (Some {| window_labels := labels;
                                               window_popularity := heights;
                                               output_filename := out;
                                               saved := true |}))
                        | Some e =>
                            (["Error saving plot to " +:+ out +:+ ": " +:+ e],
                             Returned (Some {| window_labels := labels;
                                               window_popularity := heights;
                                               output_filename := out;
                                               saved := false |}))
                        end
                  end
            end
        | _ => ([], Raised "TypeError")
        end
  end.

End Script.

End Popularity.


(** ** The file system the comparison scripts read *)

Module Fs.

(** What a path holds: nothing; something [open] fails on (with the
    exception text); a text file, given by the lines that [readlines] and
    iteration over the file yield; or a text file whose reading fails (with
    the exception text) after the lines [ls] have been yielded. *)
Inductive file_state :=
  | Absent
  | Unreadable (e : string)
  | Lines (ls : list string)
  | Broken (ls : list string) (e : string).

Definition exists_ (st : file_state) : bool :=
  match st with Absent => false | _ => true end.

End Fs.

(** The metric keys both comparison scripts retain. *)
Definition metric_keys : list string :=
  ["delivery_prob"; "overhead_ratio"; "latency_avg"; "latency_med";
   "buffertime_avg"; "buffertime_med"].

(** ** reports/prophetcomparison/plot.py *)

Module ProphetComparison.

Definition DATA_DIRECTORY : string := ".".
Definition FILE_PATTERN : string := "*_MessageStatsReport.txt".
Definition file_path_pattern : string := Py.path_join DATA_DIRECTORY FILE_PATTERN.

Definition metrics_to_plot : list (string * string * string) :=
  [("delivery_prob", "Delivery Probability", "");
   ("overhead_ratio", "Overhead Ratio", "");
   ("latency_avg", "Latency Average", "(time units)");
   ("latency_med", "Latency Median", "(time units)");
   ("buffertime_avg", "Buffer Time Average", "(time units)");
   ("buffertime_med", "Buffer Time Median", "(time units)")].

(** One alternative of the file-name pattern: [name], then [_scenario], a
    greedy run of at least one digit, and an underscore. *)
Definition match_alternative (name basename : string) : option (string * string) :=
  rest ← Py.strip_prefix name basename;
  rest ← Py.strip_prefix "_scenario" rest;
  let '(digits, rest) := Py.span_digits rest in
  match digits, rest with
  | String _ _, String "_" _ => Some (name, digits)
  | _, _ => None
  end.

(** [re.match] of the base name against
    "(prophetrandomtuned|prophettuned)_scenario(\d+)_": groups 1 and 2. *)
Definition match_filename (basename : string) : option (string * string) :=
  match match_alternative "prophetrandomtuned" basename with
  | Some m => Some m
  | None => match_alternative "prophettuned" basename
  end.

(** Lines 34-41: the protocol name and scenario number of a base name. *)
Definition entry_of (basename : string) : option (string * Z) :=
  '(g1, g2) ← match_filename basename;
  Some (if String.eqb g1 "prophetrandomtuned" then "Prophet Random" else "Prophet",
        Py.digits_to_Z g2).

(** What [.] can match from the start of [s]: everything up to a line feed. *)
Fixpoint until_newline (s : string) : string :=
  match s with
  | String c s' => if Ascii.eqb c Py.LF then EmptyString else String c (until_newline s')
  | EmptyString => EmptyString
  end.

(** [re.match] of the line against the key-value pattern (a non-empty run
    without colon, the colon, optional whitespace, the rest of the line):
    groups 1 and 2. *)
Definition match_kv (line : string) : option (string * string) :=
  match Py.split_once ":" line with
  | Some (String c g1, rest) => Some (String c g1, until_newline (Py.lstrip rest))
  | _ => None
  end.

(** The nested dictionary [data]: protocol, scenario, metric key. *)
Abbreviation data_t := (gmap string (gmap Z (gmap string float))).

Definition set_metric (data : data_t) (p : string) (sc : Z) (key : string) (v : float)
  : data_t :=
  <[p := <[sc := <[key := v]> ((data !!! p) !!! sc)]> (data !!! p)]> data.

(** Lines 44-47. *)
Definition init_entry (data : data_t) (p : string) (sc : Z) : data_t :=
  let data := match data !! p with Some _ => data | None => <[p := ∅]> data end in
  match (data !!! p) !! sc with
  | Some _ => data
  | None => <[p := <[sc := ∅]> (data !!! p)]> data
  end.

Definition lookup_value (data : data_t) (proto : string) (sc : Z) (metric_key : string)
  : float :=
  default nan (default ∅ (default ∅ (data !! proto) !! sc) !! metric_key).

Definition missing_warning (proto : string) (sc : Z) (metric_key : string) : string :=
  "Warning: Missing data for Protocol='" +:+ proto +:+ "', Scenario='" +:+ pretty sc
    +:+ "', Metric='" +:+ metric_key +:+ "'".

(** A line drawn by [ax.plot]. *)
Record line := { label : string; xs : list Z; ys : list float }.

(** One of the six axes. *)
Record axis := { metric : string; lines : list line; xticks : list Z }.

Record figure := {
  protocols : list string;
  scenarios : list Z;
  plot_data : gmap string (gmap string (list float));
  axes : list axis
}.

(** How the script ends: [exit()] before any plot, or the figure shown. *)
Inductive outcome :=
  | Exited
  | Plotted (fig : figure).

Section Script.

(** The builtin [float] on a [str]; [None] stands for [ValueError]. *)
Variable py_float : string → option float.
Variable fs : string → Fs.file_state.

(** Lines 58-74, one line of the file. *)
Definition parse_line (basename p : string) (sc : Z)
    (st : data_t * list string) (line : string) : data_t * list string :=
  let '(data, out) := st in
  let line := Py.strip line in
  if Py.has_char ":" line then
    match match_kv line with
    | Some (g1, g2) =>
        let key := Py.strip g1 in
        let value_str := Py.strip g2 in
        if bool_decide (key ∈ metric_keys) then
          match py_float value_str with
          | Some x => (set_metric data p sc key x, out)
          | None =>
              (set_metric data p sc key nan,
               out ++ ["    Warning: Could not convert value '" +:+ value_str
                         +:+ "' for key '" +:+ key +:+ "' in " +:+ basename
                         +:+ " to float. Storing as NaN."])
          end
        else st
    | None => st
    end
  else st.

(** Lines 29-74, one file. *)
Definition process_file (st : data_t * list string) (filename : string)
  : data_t * list string :=
  let '(data, out) := st in
  let basename := Py.basename filename in
  let out := out ++ ["  - Processing: " +:+ basename] in
  match entry_of basename with
  | None =>
      (data, out ++ ["    Warning: Could not parse protocol/scenario from filename: "
                       +:+ basename +:+ ". Skipping this file."])
  | Some (protocol_name, scenario_num) =>
      let data := init_entry data protocol_name scenario_num in
      match fs filename with
      | Fs.Lines lines =>
          foldl (parse_line basename protocol_name scenario_num) (data, out) lines
      | Fs.Unreadable e | Fs.Broken _ e =>
          (data, out ++ ["    Error reading file " +:+ filename +:+ ": " +:+ e
                           +:+ ". Skipping this file."])
      | Fs.Absent =>
          (data, out ++ ["    Error reading file " +:+ filename
                           +:+ ": [Errno 2] No such file or directory: "
                           +:+ Py.repr filename +:+ ". Skipping this file."])
      end
  end.

(** Lines 26-74: the sorted files, one after the other. *)
Definition parse_all (glob_result : list string) : data_t * list string :=
  let out := ["Found " +:+ pretty (length glob_result) +:+ " report files to process:"] in
  let report_files := merge_sort (≤)%string glob_result in
  foldl process_file (∅, out) report_files.

(** Lines 120-127, one scenario. *)
Definition add_value (data : data_t) (proto metric_key : string)
    (st : list float * list string) (sc : Z) : list float * list string :=
  let '(metric_values, missing_data_warnings) := st in
  let value := lookup_value data proto sc metric_key in
  let missing_data_warnings :=
    if F64.isnan value then
      let warning_msg := missing_warning proto sc metric_key in
      if bool_decide (warning_msg ∈ missing_data_warnings) then missing_data_warnings
      else missing_data_warnings ++ [warning_msg]
    else missing_data_warnings in
  (metric_values ++ [value], missing_data_warnings).

(** Lines 118-128, one metric of one protocol. *)
Definition add_metric (data : data_t) (proto : string) (scenarios : list Z)
    (st : gmap string (gmap string (list float)) * list string)
    (m : string * string * string) : gmap string (gmap string (list float)) * list string :=
  let '(plot_data, missing_data_warnings) := st in
  let '(metric_key, _, _) := m in
  let '(metric_values, missing_data_warnings) :=
    foldl (add_value data proto metric_key) ([], missing_data_warnings) scenarios in
  (<[proto := <[metric_key := metric_values]> (plot_data !!! proto)]> plot_data,
   missing_data_warnings).

(** Lines 116-128, one protocol. *)
Definition add_protocol (data : data_t) (scenarios : list Z)
    (st : gmap string (gmap string (list float)) * list string)
    (proto : string) : gmap string (gmap string (list float)) * list string :=
  let '(plot_data, missing_data_warnings) := st in
  foldl (add_metric data proto scenarios)
        (<[proto := ∅]> plot_data, missing_data_warnings) metrics_to_plot.

(** Lines 114-128. *)
Definition prepare (data : data_t) (protocols : list string) (scenarios : list Z)
  : gmap string (gmap string (list float)) * list string :=
  foldl (add_protocol data scenarios) (∅, []) protocols.

(** Lines 148-165. *)
Definition draw (protocols : list string) (scenarios : list Z)
    (plot_data : gmap string (gmap string (list float))) : list axis :=
  (λ '(metric_key, _, _),
     {| metric := metric_key;
        lines := (λ proto, {| label := proto; xs := scenarios;
                              ys := (plot_data !!! proto) !!! metric_key |}) <$> protocols;
        xticks := scenarios |}) <$> metrics_to_plot.

(** Lines 79-171: from the parsed [data] to the figure. *)
Definition plot (data : data_t) : list string * outcome :=
  if bool_decide (data = ∅) then
    ([String Py.LF "Error: No data was successfully parsed from the files. Cannot generate plots."],
     Exited)
  else
    let protocols := merge_sort (≤)%string (map_to_list data).*1 in
    match protocols with
    | [] => (["Error: Could not determine scenarios from the parsed data."], Exited)
    | p0 :: _ =>
        let first_proto_scenarios := (map_to_list (data !!! p0)).*1 in
        match first_proto_scenarios with
        | [] =>
            (["Error: No scenarios found for the first protocol '" +:+ p0
                +:+ "'. Cannot proceed."], Exited)
        | _ =>
            let scenarios := merge_sort Z.le first_proto_scenarios in
            let out := [String Py.LF ("Protocols found: " +:+ Py.repr_list protocols);
                        "Scenarios found: [" +:+ Py.join ", " (pretty <$> scenarios) +:+ "]"] in
            let '(plot_data, warnings) := prepare data protocols scenarios in
            let out :=
              match warnings with
              | [] => out
              | _ => out ++ [String Py.LF "--- Data Warnings ---"] ++ warnings
                       ++ ["NaN values will be used in plots where data is missing.";
                           String.append "---------------------" (String Py.LF EmptyString)]
              end in
            (out, Plotted {| protocols := protocols; scenarios := scenarios;
                             plot_data := plot_data;
                             axes := draw protocols scenarios plot_data |})
        end
    end.

(** The whole script, given what [glob.glob(file_path_pattern)] returned. *)
Definition main (glob_result : list string) : list string * outcome :=
  match glob_result with
  | [] =>
      (["Error: No files found matching '" +:+ file_path_pattern +:+ "'.";
        "Please check the DATA_DIRECTORY and FILE_PATTERN variables."], Exited)
  | _ =>
      let '(data, out) := parse_all glob_result in
      let '(out', result) := plot data in
      (out ++ out', result)
  end.

End Script.

End ProphetComparison.


(** ** reports/prophetcomparison2/plot.py *)

Module ProphetComparison2.

Definition METRICS_TO_PLOT : list (string * string) :=
  [("delivery_prob", "Delivery Probability");
   ("overhead_ratio", "Overhead Ratio");
   ("latency_avg", "Latency Average (s)");
   ("latency_med", "Latency Median (s)");
   ("buffertime_avg", "Buffer Time Average (s)");
   ("buffertime_med", "Buffer Time Median (s)")].

Definition DATA_FILES : list string :=
  ["HaggleProphet100_MessageStatsReport.txt";
   "HaggleProphet300_MessageStatsReport.txt";
   "HaggleProphet500_MessageStatsReport.txt";
   "HaggleRandomProphet100_MessageStatsReport.txt";
   "HaggleRandomProphet300_MessageStatsReport.txt";
   "HaggleRandomProphet500_MessageStatsReport.txt";
   "RealityProphet100_MessageStatsReport.txt";
   "RealityProphet300_MessageStatsReport.txt";
   "RealityProphet500_MessageStatsReport.txt";
   "RealityRandomProphet100_MessageStatsReport.txt";
   "RealityRandomProphet300_MessageStatsReport.txt";
   "RealityRandomProphet500_MessageStatsReport.txt"].

(** What [parse_message_stats_file] returns for a file it accepts. *)
Record parsed := {
  prophet_type : string;
  scenario_number : Z;
  metrics : gmap string float
}.

(** If the lower-case text [p] is a prefix of [s] up to letter case, what
    follows it. *)
Fixpoint strip_prefix_ci (p s : string) : option string :=
  match p, s with
  | EmptyString, _ => Some s
  | String a p', String b s' =>
      if Ascii.eqb a (Py.lower_char b) then strip_prefix_ci p' s' else None
  | String _ _, EmptyString => None
  end.

(** One alternative of the scenario pattern at the start of [s]: the name,
    a greedy run of at least one digit, an underscore.  Gives group 1. *)
Definition scenario_alternative (name s : string) : option string :=
  rest ← strip_prefix_ci name s;
  let '(digits, rest) := Py.span_digits rest in
  match digits, rest with
  | String _ _, String "_" _ => Some digits
  | _, _ => None
  end.

Definition scenario_at (s : string) : option string :=
  match scenario_alternative "randomprophet" s with
  | Some d => Some d
  | None => scenario_alternative "prophet" s
  end.

(** [re.search] of the file name against "(?:RandomProphet|Prophet)(\d+)_"
    with [re.IGNORECASE]: group 1 of the leftmost match. *)
Fixpoint match_scenario (filename : string) : option string :=
  match scenario_at filename with
  | Some d => Some d
  | None =>
      match filename with
      | String _ s' => match_scenario s'
      | EmptyString => None
      end
  end.

(** The dictionary [plotting_data]: prophet type, metric key, the points. *)
Abbreviation plotting_t := (gmap string (gmap string (list (Z * float)))).

(** [plotting_data[prophet_type][metric_key].append(point)] on the
    [defaultdict] of [defaultdict(list)]. *)
Definition append_point (pd : plotting_t) (pt mk : string) (point : Z * float)
  : plotting_t :=
  <[pt := <[mk := ((pd !!! pt) !!! mk) ++ [point]]> (pd !!! pt)]> pd.

(** Lines 130-134, one item. *)
Definition add_item (pd : plotting_t) (item : parsed) : plotting_t :=
  map_fold (λ mk v pd, append_point pd (prophet_type item) mk (scenario_number item, v))
           pd (metrics item).

(** [l.sort(key=lambda x: x[0])]: the stable sort on the first component. *)
Fixpoint insert_by_key (x : Z * float) (l : list (Z * float)) : list (Z * float) :=
  match l with
  | [] => [x]
  | y :: l' => if y.1 <=? x.1 then y :: insert_by_key x l' else x :: l
  end.

Definition sort_by_key (l : list (Z * float)) : list (Z * float) :=
  foldl (λ acc x, insert_by_key x acc) [] l.

(** Lines 128-138. *)
Definition reshape (all_parsed_data : list parsed) : plotting_t :=
  let plotting_data : plotting_t := foldl add_item ∅ all_parsed_data in
  (λ by_metric : gmap string (list (Z * float)), sort_by_key <$> by_metric) <$> plotting_data.

Record line := { label : string; xs : list Z; ys : list float }.

Record figure := {
  metric : string;
  title : string;
  lines : list line;
  xticks : list Z
}.

(** Lines 149-153 and 165-168: the line of a prophet type for a metric. *)
Definition line_of (plotting_data : plotting_t) (metric_key prophet_type : string)
  : option line :=
  match (plotting_data !!! prophet_type) !! metric_key with
  | Some (p :: l) =>
      Some {| label := prophet_type; xs := (p :: l).*1; ys := (p :: l).*2 |}
  | _ => None
  end.

(** Lines 145-176, one metric: the figure, or the message that there is
    none. *)
Definition plot_metric (plotting_data : plotting_t) (prophet_types_present : list string)
    (m : string * string) : figure + string :=
  let '(metric_key, metric_label) := m in
  match omap (line_of plotting_data metric_key) prophet_types_present with
  | [] => inr ("No data found for metric: " +:+ metric_label +:+ ". Skipping plot.")
  | ls =>
      let all_scenarios_for_metric : gset Z := list_to_set (mjoin (xs <$> ls)) in
      inl {| metric := metric_key;
             title := metric_label +:+ " Comparison";
             lines := ls;
             xticks := merge_sort Z.le (elements all_scenarios_for_metric) |}
  end.

(** [plt.plot] and [plt.xticks] take scenario numbers below 2^64; with a
    larger one among the ticks of a figure an exception of matplotlib (the
    [TypeError] of [plt.xticks]) leaves the script before the figure is
    shown. *)
Definition ticks_accepted (fig : figure) : bool :=
  forallb (λ sc, sc <? 2 ^ 64) (xticks fig).

(** Lines 145-176 over the metrics in order: what is printed and which
    figures are shown, up to the first figure whose ticks are not accepted;
    [true] when there is none. *)
Fixpoint show_figures (results : list (figure + string))
  : list string * list figure * bool :=
  match results with
  | [] => ([], [], true)
  | inr msg :: results' =>
      let '(out, figures, completed) := show_figures results' in
      (msg :: out, figures, completed)
  | inl fig :: results' =>
      if ticks_accepted fig then
        let '(out, figures, completed) := show_figures results' in
        (out, fig :: figures, completed)
      else ([], [], false)
  end.

(** How the script ends: [exit()] before any plot, all figures shown, or
    an exception after the figures [shown]. *)
Inductive outcome :=
  | Exited
  | Plotted (plotting_data : plotting_t) (prophet_types_present : list string)
            (figures : list figure)
  | Raised (shown : list figure).

Section Script.

Variable py_float : string → option float.
Variable fs : string → Fs.file_state.

(** Lines 68-79, one line of the file. *)
Definition parse_line (filename : string) (st : gmap string float * list string)
    (line : string) : gmap string float * list string :=
  let '(data, out) := st in
  let line := Py.strip line in
  if Py.has_char ":" line then
    match Py.split_once ":" line with
    | Some (key, value) =>
        let key := Py.strip key in
        let value := Py.strip value in
        if bool_decide (key ∈ METRICS_TO_PLOT.*1) then
          match py_float value with
          | Some x => (<[key := x]> data, out)
          | None =>
              (<[key := nan]> data,
               out ++ ["Warning: Could not convert value '" +:+ value +:+ "' for key '"
                         +:+ key +:+ "' in " +:+ filename +:+ " to float. Skipping."])
          end
        else st
    | None => st
    end
  else st.

(** The prophet type of a file name (lines 39-59), or the warning. *)
Definition prophet_type_of (filename : string) : string + string :=
  let fn_lower := Py.lower filename in
  let base_type_str :=
    if Py.contains "haggle" fn_lower then Some "Haggle"
    else if Py.contains "reality" fn_lower then Some "Reality"
    else None in
  match base_type_str with
  | None => inr ("Warning: Could not determine base type (Haggle/Reality) for " +:+ filename)
  | Some base_type_str =>
      let prophet_variant_str :=
        if Py.contains "randomprophet" fn_lower then Some "Random Prophet"
        else if Py.contains "prophet" fn_lower then Some "Prophet"
        else None in
      match prophet_variant_str with
      | None => inr ("Warning: Could not determine prophet variant for " +:+ filename)
      | Some prophet_variant_str => inl (base_type_str +:+ " " +:+ prophet_variant_str)
      end
  end.

Definition parse_message_stats_file (filepath : string) : option parsed * list string :=
  let filename := Py.basename filepath in
  match prophet_type_of filename with
  | inr w => (None, [w])
  | inl prophet_type =>
      match match_scenario filename with
      | None =>
          (None, ["Warning: Could not extract scenario number from " +:+ filename
                    +:+ " (e.g., Prophet100_)."])
      | Some digits =>
          let scenario_number := Py.digits_to_Z digits in
          match fs filepath with
          | Fs.Absent => (None, ["Error: File not found at " +:+ filepath])
          | Fs.Unreadable e => (None, ["Error parsing file " +:+ filepath +:+ ": " +:+ e])
          | Fs.Broken ls e =>
              let '(_, out) := foldl (parse_line filename) (∅, []) ls in
              (None, out ++ ["Error parsing file " +:+ filepath +:+ ": " +:+ e])
          | Fs.Lines ls =>
              let '(data, out) := foldl (parse_line filename) (∅, []) ls in
              if bool_decide (data = ∅) then
                (None, out ++ ["Warning: No relevant metrics found in " +:+ filename])
              else
                (Some {| prophet_type := prophet_type;
                         scenario_number := scenario_number;
                         metrics := data |}, out)
          end
      end
  end.

(** Lines 110-113. *)
Definition resolve (script_dir file_entry : string) : string :=
  if Py.isabs file_entry then file_entry else Py.path_join script_dir file_entry.

(** Lines 109-122, one entry of the list. *)
Definition locate_and_parse (script_dir : string) (st : list parsed * list string)
    (file_entry : string) : list parsed * list string :=
  let '(all_parsed_data, out) := st in
  let filepath := resolve script_dir file_entry in
  if negb (Fs.exists_ (fs filepath)) then
    (all_parsed_data,
     out ++ ["File '" +:+ file_entry +:+ "' (resolved to '" +:+ filepath
               +:+ "') not found. Skipping."])
  else
    let out := out ++ ["Processing file: " +:+ filepath] in
    match parse_message_stats_file filepath with
    | (Some parsed_file_data, out') => (all_parsed_data ++ [parsed_file_data], out ++ out')
    | (None, out') => (all_parsed_data, out ++ out')
    end.

(** Lines 99-122: [all_parsed_data] and what has been printed so far. *)
Definition locate_all (script_dir : string) (data_files : list string)
  : list parsed * list string :=
  let out := ["Script is running from: " +:+ script_dir; "Looking for data files..."] in
  foldl (locate_and_parse script_dir) ([], out) data_files.

(** Lines 124-178: from [all_parsed_data] to the figures. *)
Definition plot (all_parsed_data : list parsed) : list string * outcome :=
  match all_parsed_data with
  | [] => (["No data successfully parsed. Exiting."], Exited)
  | _ =>
      let plotting_data := reshape all_parsed_data in
      let prophet_types_present := merge_sort (≤)%string (map_to_list plotting_data).*1 in
      match prophet_types_present with
      | [] => (["No valid prophet types found in the parsed data. Cannot plot."], Exited)
      | _ =>
          let results := plot_metric plotting_data prophet_types_present <$> METRICS_TO_PLOT in
          let '(out, figures, completed) := show_figures results in
          if completed then
            (out ++ ["Plotting complete."],
             Plotted plotting_data prophet_types_present figures)
          else (out, Raised figures)
      end
  end.

(** The script, for the directory it runs from and a list of data files
    (the script's own is [DATA_FILES]). *)
Definition main_with (script_dir : string) (data_files : list string)
  : list string * outcome :=
  let '(all_parsed_data, out) := locate_all script_dir data_files in
  let '(out', result) := plot all_parsed_data in
  (out ++ out', result).

Definition main (script_dir : string) : list string * outcome :=
  main_with script_dir DATA_FILES.

End Script.

End ProphetComparison2.


(** ** Vocabulary of the statements about report lines *)

(** A text of whitespace only (the empty text included). *)
Definition blank (ws : string) : Prop := Py.lstrip ws = EmptyString.

(** A text with no whitespace at either end. *)
Definition trimmed (v : string) : Prop := Py.lstrip v = v ∧ Py.rstrip v = v.

(** A well-formed [key: value] line: the key, a colon and the value text,
    with optional whitespace around each; the value text is trimmed and
    holds no line feed (it may be empty or hold further colons). *)
Definition kv_line (key value raw : string) : Prop :=
  trimmed value ∧ Py.has_char Py.LF value = false ∧
  ∃ ws1 ws2 ws3 ws4,
    blank ws1 ∧ blank ws2 ∧ blank ws3 ∧ blank ws4 ∧
    raw = ws1 +:+ key +:+ ws2 +:+ ":" +:+ ws3 +:+ value +:+ ws4.

(** The metric key under which a line's value is stored, if the line sets
    one (the same in both comparison scripts). *)
Definition assigned_key (raw : string) : option string :=
  match Py.split_once ":" (Py.strip raw) with
  | Some (k, _) =>
      if bool_decide (Py.strip k ∈ metric_keys) then Some (Py.strip k) else None
  | None => None
  end.

(** [data[p][sc][key]] of the first comparison script, if present. *)
Definition lookup3 (data : gmap string (gmap Z (gmap string float)))
    (p : string) (sc : Z) (key : string) : option float :=
  by_sc ← data !! p; m ← by_sc !! sc; m !! key.

(** What one entry of the file list adds to [all_parsed_data] in the
    second script: the record of the resolved path, if the path exists and
    the parser accepts the file. *)
Definition parsed_item (py_float : string → option float) (fs : string → Fs.file_state)
    (script_dir file_entry : string) : option ProphetComparison2.parsed :=
  let filepath := ProphetComparison2.resolve script_dir file_entry in
  if Fs.exists_ (fs filepath) then
    (ProphetComparison2.parse_message_stats_file py_float fs filepath).1
  else None.

(** The paths the second script hands to its parser, in call order: the
    resolved entries of the file list that exist. *)
Definition resolved_files (fs : string → Fs.file_state) (script_dir : string)
    (data_files : list string) : list string :=
  filter (λ filepath, Fs.exists_ (fs filepath) = true)
         (ProphetComparison2.resolve script_dir <$> data_files).

(** The values the first script plots for a protocol and a metric: one per
    scenario of the x-axis, NaN where [data] has none. *)
Definition plotted_values (data : gmap string (gmap Z (gmap string float)))
    (proto metric_key : string) (scenarios : list Z) : list float :=
  (λ sc, ProphetComparison.lookup_value data proto sc metric_key) <$> scenarios.

(** A missing-data warning of the first script is the warning of a
    protocol of the plot, a scenario of the x-axis and a metric whose value
    there is NaN. *)
Definition missing_data_warning (data : gmap string (gmap Z (gmap string float)))
    (protocols : list string) (scenarios : list Z) (w : string) : Prop :=
  ∃ proto sc metric_key,
    proto ∈ protocols ∧ sc ∈ scenarios ∧ metric_key ∈ metric_keys ∧
    F64.isnan (ProphetComparison.lookup_value data proto sc metric_key) = true ∧
    w = ProphetComparison.missing_warning proto sc metric_key.

(** [plotting_data[pt][mk]] of the second script, if present. *)
Definition lookup2 (pd : gmap string (gmap string (list (Z * float))))
    (pt mk : string) : option (list (Z * float)) :=
  (pd !!! pt) !! mk.

(** The points the items contribute to a prophet type and a metric, in the
    order of the items. *)
Definition points_of (items : list ProphetComparison2.parsed) (pt mk : string)
  : list (Z * float) :=
  omap (λ item,
          if decide (ProphetComparison2.prophet_type item = pt) then
            (λ v, (ProphetComparison2.scenario_number item, v))
              <$> ProphetComparison2.metrics item !! mk
          else None) items.

(** What identifies an item of the second script. *)
Definition item_key (item : ProphetComparison2.parsed) : string * Z :=
  (ProphetComparison2.prophet_type item, ProphetComparison2.scenario_number item).

(** The order of the stable sort: by scenario number. *)
Definition key_le (a b : Z * float) : Prop := a.1 ≤ b.1.

(** What of a figure of the second script does not depend on the metric
    values: the metric, the label and the scenario numbers of each line, and
    the ticks. *)
Definition line_shape (ln : ProphetComparison2.line) : string * list Z :=
  (ProphetComparison2.label ln, ProphetComparison2.xs ln).

Definition figure_shape (fig : ProphetComparison2.figure)
  : string * string * list (string * list Z) * list Z :=
  (ProphetComparison2.metric fig, ProphetComparison2.title fig,
   line_shape <$> ProphetComparison2.lines fig, ProphetComparison2.xticks fig).

Definition outcome_shape (result : ProphetComparison2.outcome)
  : option (list string * list (string * string * list (string * list Z) * list Z)) :=
  match result with
  | ProphetComparison2.Exited => None
  | ProphetComparison2.Plotted _ prophet_types_present figures =>
      Some (prophet_types_present, figure_shape <$> figures)
  | ProphetComparison2.Raised shown => Some ([], figure_shape <$> shown)
  end.

(** The first y value of the first line of the first figure. *)
Definition first_value (result : ProphetComparison2.outcome) : option float :=
  match result with
  | ProphetComparison2.Exited => None
  | ProphetComparison2.Plotted _ _ figures | ProphetComparison2.Raised figures =>
      fig ← head figures;
      ln ← head (ProphetComparison2.lines fig);
      head (ProphetComparison2.ys ln)
  end.

(** ** Inputs for the closed examples *)

Module Examples.

(** A stand-in for the builtin [float] in closed examples: unsigned decimal
    literals (digits with at most one point), converted by one correctly
    rounded division.  It agrees with [float] on such literals of up to 15
    significant digits, and on the texts without digits used below, which
    [float] rejects too. *)
Definition decimal_float (s : string) : option float :=
  let '(ip, r) := Py.span_digits s in
  match r with
  | EmptyString =>
      match ip with
      | EmptyString => None
      | _ => Some (F64.of_Z (Py.digits_to_Z ip))
      end
  | String "." r' =>
      let '(fp, r'') := Py.span_digits r' in
      match r'', ip +:+ fp with
      | EmptyString, String _ _ =>
          Some (F64.of_Z (Py.digits_to_Z (ip +:+ fp))
                / F64.of_Z (10 ^ Z.of_nat (String.length fp)))%float
      | _, _ => None
      end
  | _ => None
  end.

(** The matrix file of the specification: header [Pop@3600,Pop@7200] and
    the row [A1,10,15], as [read_csv] returns it (both columns are int64). *)
Definition spec_frame : Popularity.DataFrame :=
  {| Popularity.columns := ["Pop@3600"; "Pop@7200"];
     Popularity.body :=
       [(Popularity.StrLabel "A1", [Popularity.Int 10; Popularity.Int 15])] |}.

(** The file with the rows [A1,0.5,2.25,4.0] and [A2,10,,15.0]: a row whose
    cumulative values are not whole numbers, and a row with an empty field
    (the three columns are float64). *)
Definition fractional_frame : Popularity.DataFrame :=
  {| Popularity.columns := ["Pop@3600"; "Pop@7200"; "Pop@10800"];
     Popularity.body :=
       [(Popularity.StrLabel "A1",
         [Popularity.Num 0.5; Popularity.Num 2.25; Popularity.Num 4]);
        (Popularity.StrLabel "A2",
         [Popularity.Num 10; Popularity.Num nan; Popularity.Num 15])] |}.

Definition read_frame (df : Popularity.DataFrame) (filename : string)
  : Popularity.csv_result :=
  if String.eqb filename "report.txt" then Popularity.Loaded df
  else Popularity.FileNotFound.

(** A stand-in for [pd.to_numeric] with [errors='coerce'] in closed
    examples: a row of int64 cells is an int64 series; any other row is a
    float64 series, an int64 cell giving the nearest binary64 and a text
    NaN.  It agrees with [pd.to_numeric] on the rows used below, none of
    whose texts writes a number. *)
Definition int_cells (row : list Popularity.cell) : option (list Z) :=
  mapM (λ c, match c with Popularity.Int z => Some z | _ => None end) row.

Definition to_numeric (row : list Popularity.cell) : Popularity.series :=
  match int_cells row with
  | Some zs => Popularity.Int64 zs
  | None =>
      Popularity.Float64
        ((λ c, match c with
               | Popularity.Int z => F64.of_Z z
               | Popularity.Num f => f
               | Popularity.Text _ => nan
               end) <$> row)
  end.

Definition savefig_ok (s : string) : option string := None.

(** The report files of the examples: among them a report that gives
    [delivery_prob] twice, reports with a value text that is not a number,
    reports without any metric line, and two reports with metric lines
    whose names the scripts do not recognise. *)
Definition report_fs (path : string) : Fs.file_state :=
  if String.eqb path "/d/HaggleProphet100_MessageStatsReport.txt" then
    Fs.Lines ["sim_time: 274883.0"; "delivery_prob: 0.5"; "delivery_prob: 0.25"]
  else if String.eqb path "./prophettuned_scenario1_MessageStatsReport.txt" then
    Fs.Lines ["sim_time: 274883.0"; "delivery_prob: 0.5"; "latency_avg: 12"]
  else if String.eqb path "/d/HaggleProphet300_MessageStatsReport.txt" then
    Fs.Lines ["delivery_prob: 0.5"; "latency_avg: NaN%"; "overhead_ratio: 12"]
  else if String.eqb path "./prophettuned_scenario3_MessageStatsReport.txt" then
    Fs.Lines ["delivery_prob: 0.5"; "latency_avg: NaN%"; "overhead_ratio: 12"]
  else if String.eqb path "./prophettuned_scenario7_MessageStatsReport.txt" then
    Fs.Lines ["sim_time: 274883.0"; "created: 1426"]
  else if String.eqb path "/d/HaggleProphet500_MessageStatsReport.txt" then
    Fs.Lines ["sim_time: 274883.0"; "created: 1426"]
  else if String.eqb path "/d/RealityProphet100_MessageStatsReport.txt" then
    Fs.Lines ["delivery_prob: 0.75"]
  else if String.eqb path "/d/run2/HaggleProphet100_MessageStatsReport.txt" then
    Fs.Lines ["delivery_prob: 0.125"]
  else if String.eqb path "./prophetrandomtuned_scenario1_MessageStatsReport.txt" then
    Fs.Lines ["delivery_prob: 0.25"]
  else if String.eqb path "./prophetrandomtuned_scenario2_MessageStatsReport.txt" then
    Fs.Lines ["delivery_prob: 0.75"]
  else if String.eqb path "./notes_MessageStatsReport.txt" then
    Fs.Lines ["delivery_prob: 0.9"; "latency_avg: 3"]
  else if String.eqb path "/d/Prophet100_MessageStatsReport.txt" then
    Fs.Lines ["delivery_prob: 0.9"; "latency_avg: 3"]
  else Fs.Absent.

(** A glob result in which scenario 2 exists for the later-sorted protocol
    only, and scenario 3 for the first protocol only. *)
Definition comparison_glob : list string :=
  ["./prophetrandomtuned_scenario2_MessageStatsReport.txt";
   "./prophettuned_scenario3_MessageStatsReport.txt";
   "./prophetrandomtuned_scenario1_MessageStatsReport.txt";
   "./prophettuned_scenario1_MessageStatsReport.txt"].

Definition comparison_run : list string * ProphetComparison.outcome :=
  ProphetComparison.main decimal_float report_fs comparison_glob.

Definition comparison_figure : ProphetComparison.figure :=
  match comparison_run.2 with
  | ProphetComparison.Plotted fig => fig
  | ProphetComparison.Exited =>
      {| ProphetComparison.protocols := []; ProphetComparison.scenarios := [];
         ProphetComparison.plot_data := ∅; ProphetComparison.axes := [] |}
  end.

(** The delta series as the specification words it: the first cumulative
    value, then each value minus the one before, a missing value counting
    as zero; the bar heights, read as numbers, are to equal it. *)
Definition spec_zero_if_missing (x : float) : float := Popularity.fill0 x.

Definition spec_delta (cumulative : list float) (i : nat) : float :=
  match i with
  | O => spec_zero_if_missing (default nan (cumulative !! 0%nat))
  | S j => (spec_zero_if_missing (default nan (cumulative !! i))
            - spec_zero_if_missing (default nan (cumulative !! j)))%float
  end.

Definition spec_delta_series (cumulative : list float) (window : list Z) : Prop :=
  length window = length cumulative ∧
  ∀ i w, window !! i = Some w → F64.of_Z w = spec_delta cumulative i.

(** The bar heights as the specification words them: every per-window
    delta, NaN replaced by 0, truncated to an integer. *)
Definition spec_truncated (deltas : list float) (heights : list Z) : Prop :=
  length heights = length deltas ∧
  ∀ i d, deltas !! i = Some d → heights !! i = Some (F64.trunc (Popularity.fill0 d)).

End Examples.

(** ** Further parts of the scripts *)

(** reports/bubblerap2/plot_popularity.py: the tick thinning of lines 70-76
    and the command line of lines 94-105. *)
Module PopularityMain.

Definition DEFAULT_FILENAME : string := "connection-Bubble_GlobalPopularity3Report.txt".
Definition DEFAULT_NODE_ID : string := "A28".

Definition max_ticks_display : Z := 30.

(** The spacing handed to [MultipleLocator], when the locator is set. *)
Definition tick_spacing (window_labels : list string) : option Z :=
  let n := Z.of_nat (length window_labels) in
  if max_ticks_display <? n then Some (Z.max 1 (n / max_ticks_display)) else None.

(** Whether the tick labels are turned by 45 degrees. *)
Definition ticks_rotated (window_labels : list string) : bool :=
  let n := Z.of_nat (length window_labels) in
  if max_ticks_display <? n then true else 15 <? n.

Section Script.

Variable read_csv : string → Popularity.csv_result.
Variable to_numeric : list Popularity.cell → Popularity.series.
Variable savefig : string → option string.

(** Lines 94-105, for [sys.argv]. *)
Definition main (argv : list string) : list string * Popularity.outcome :=
  let filename_to_use := DEFAULT_FILENAME in
  let node_id_to_use := DEFAULT_NODE_ID in
  let '(node_id_to_use, out) :=
    match argv with
    | _ :: arg :: _ => (arg, ["Using NodeID from command line: " +:+ arg])
    | _ => (node_id_to_use, [])
    end in
  let '(filename_to_use, out) :=
    match argv with
    | _ :: _ :: arg :: _ => (arg, out ++ ["Using filename from command line: " +:+ arg])
    | _ => (filename_to_use, out)
    end in
  let '(out', result) :=
    Popularity.plot_node_popularity read_csv to_numeric savefig
      filename_to_use node_id_to_use in
  (out ++ out', result).

End Script.

End PopularityMain.

(** reports/prophetcomparison/plot.py, lines 145-156: the marker and the
    line style of the lines drawn on an axis. *)
Module ProphetComparisonStyle.

Definition markers : list string := ["o"; "s"; "^"; "d"; "v"; "*"].
Definition linestyles : list string := ["-"; "--"; ":"; "-."].

(** The marker and line style of the [j]-th protocol. *)
Definition line_style (j : nat) : string * string :=
  (markers !!! (j mod length markers)%nat, linestyles !!! (j mod length linestyles)%nat).

(** The label, marker and line style of the lines of one axis. *)
Definition styled_lines (protocols : list string) : list (string * (string * string)) :=
  imap (λ j proto, (proto, line_style j)) protocols.

End ProphetComparisonStyle.

(** ** Vocabulary of the further statements *)

Fixpoint all_digits (s : string) : bool :=
  match s with
  | String c s' => Py.isdigit c && all_digits s'
  | EmptyString => true
  end.

(** A non-empty text of decimal digits. *)
Definition digit_text (d : string) : Prop := d ≠ EmptyString ∧ all_digits d = true.

(** The column header [h] parses to a time point. *)
Definition header_ok (h : string) : Prop := ∃ z, Popularity.time_point h = inl z.

(** How many labels of a row index equal the node id. *)
Definition occurrences (node : string) (index : list Popularity.label) : nat :=
  length (filter (λ l, Popularity.label_is node l = true) index).

(** The number of seconds the script divides by 3600 for the axis label,
    when the column headers parse and there is one. *)
Definition window_seconds (columns : list string) : option Z :=
  match Popularity.time_points columns with
  | inl tps => Popularity.interval_seconds tps
  | inr _ => None
  end.

(** The least magnitude whose quotient by 3600 is beyond binary64. *)
Definition hours_limit : Z := 3600 * (2 ^ 1024 - 2 ^ 970).

(** The series after lines 45 and 46, as a list. *)
Definition patched_window (s : Popularity.series) : list float :=
  match Popularity.first s with
  | Some c0 => <[0%nat := c0]> (Popularity.series_diff s)
  | None => []
  end.

(** The bar drawn for a delta: 0 for NaN; otherwise the integer part when
    it fits int64, and the least int64 when it does not. *)
Definition bar_height (d : float) : Z :=
  if F64.isnan d then 0
  else if bool_decide (- 2 ^ 63 ≤ F64.trunc d < 2 ^ 63) then F64.trunc d
  else - 2 ^ 63.

(** The points of a series at scenario number [k], in the order of the series. *)
Definition at_scenario (k : Z) (l : list (Z * float)) : list (Z * float) :=
  filter (λ p, p.1 = k) l.

(** [data[p][sc]] of the first comparison script, empty when absent. *)
Definition metrics_at (data : gmap string (gmap Z (gmap string float)))
    (p : string) (sc : Z) : gmap string float :=
  default ∅ (data !! p ≫= (λ by_sc, by_sc !! sc)).

(** The protocol names the first comparison script gives to files. *)
Definition protocol_names : list string := ["Prophet"; "Prophet Random"].

(** The prophet types the second comparison script gives to files. *)
Definition prophet_types : list string :=
  ["Haggle Prophet"; "Haggle Random Prophet"; "Reality Prophet"; "Reality Random Prophet"].

(** Some record of the second comparison script holds the metric. *)
Definition holds_metric (records : list ProphetComparison2.parsed) (metric_key : string)
  : Prop :=
  Exists (λ item, is_Some (ProphetComparison2.metrics item !! metric_key)) records.

#[global] Instance holds_metric_dec records metric_key :
  Decision (holds_metric records metric_key) := Exists_dec _ _.

(** The line the second comparison script prints for a metric without
    data. *)
Definition no_data_message (m : string * string) : string :=
  "No data found for metric: " +:+ m.2 +:+ ". Skipping plot.".

(** The shape of the dictionary [data] of the first comparison script:
    every protocol is one of the two names and has at least one scenario,
    no scenario number is negative, and every metric key is one of the six
    retained. *)
Definition well_keyed (data : gmap string (gmap Z (gmap string float))) : Prop :=
  ∀ p by_sc, data !! p = Some by_sc →
    p ∈ protocol_names ∧ by_sc ≠ ∅ ∧
    ∀ sc m, by_sc !! sc = Some m → 0 ≤ sc ∧ ∀ k, is_Some (m !! k) → k ∈ metric_keys.

(** ** Inputs for the further closed examples *)

Module MoreExamples.

(** A frame whose second header has no at sign, and a frame whose only row
    holds no number. *)
Definition bad_header_frame : Popularity.DataFrame :=
  {| Popularity.columns := ["Pop@3600"; "Popularity"];
     Popularity.body :=
       [(Popularity.StrLabel "A1", [Popularity.Int 10; Popularity.Int 15])] |}.

Definition text_frame : Popularity.DataFrame :=
  {| Popularity.columns := ["Pop@3600"; "Pop@7200"];
     Popularity.body :=
       [(Popularity.StrLabel "A1", [Popularity.Text "unknown"; Popularity.Num nan])] |}.


(** The file with the row [A1,0.5,1e19]: the second delta is finite and
    its integer part does not fit int64. *)
Definition huge_frame : Popularity.DataFrame :=
  {| Popularity.columns := ["Pop@3600"; "Pop@7200"];
     Popularity.body :=
       [(Popularity.StrLabel "A1", [Popularity.Num 0.5; Popularity.Num 1e19])] |}.

(** A header whose time point has 313 digits, in a file with the row
    [A1,10]. *)
Fixpoint zeros (n : nat) : string :=
  match n with
  | O => EmptyString
  | S n' => String "0" (zeros n')
  end.

Definition late_frame : Popularity.DataFrame :=
  {| Popularity.columns := ["Pop@1" +:+ zeros 312];
     Popularity.body := [(Popularity.StrLabel "A1", [Popularity.Int 10])] |}.

(** The chart of the row A1 of [Examples.fractional_frame]. *)
Definition fractional_chart : Popularity.bar_chart :=
  {| Popularity.window_labels := ["1"; "2"; "3"];
     Popularity.window_popularity := [0; 1; 1];
     Popularity.output_filename := "popularity_plot_A1_3report.png";
     Popularity.saved := true |}.

(** A file system on which two reports exist but cannot be opened, and
    two more break off after their second line. *)
Definition locked_fs (path : string) : Fs.file_state :=
  if String.eqb path "./prophettuned_scenario2_MessageStatsReport.txt" then
    Fs.Unreadable "[Errno 13] Permission denied"
  else if String.eqb path "/d/HaggleProphet100_MessageStatsReport.txt" then
    Fs.Unreadable "[Errno 13] Permission denied"
  else if String.eqb path "./prophettuned_scenario4_MessageStatsReport.txt" then
    Fs.Broken ["delivery_prob: 0.5"; "latency_avg: NaN%"] "[Errno 5] Input/output error"
  else if String.eqb path "/d/HaggleProphet300_MessageStatsReport.txt" then
    Fs.Broken ["delivery_prob: 0.5"; "latency_avg: NaN%"] "[Errno 5] Input/output error"
  else Fs.Absent.

(** The record the second comparison script builds from the first Haggle
    report of the examples. *)
Definition haggle_item : ProphetComparison2.parsed :=
  default {| ProphetComparison2.prophet_type := EmptyString;
             ProphetComparison2.scenario_number := 0;
             ProphetComparison2.metrics := ∅ |}
    (ProphetComparison2.parse_message_stats_file Examples.decimal_float Examples.report_fs
       "/d/HaggleProphet100_MessageStatsReport.txt").1.

(** A run of the second comparison script over three reports. *)
Definition stats_files : list string :=
  ["HaggleProphet100_MessageStatsReport.txt";
   "HaggleProphet300_MessageStatsReport.txt";
   "RealityProphet100_MessageStatsReport.txt"].

Definition stats_run : list string * ProphetComparison2.outcome :=
  ProphetComparison2.main_with Examples.decimal_float Examples.report_fs "/d" stats_files.

Definition stats_plotting : gmap string (gmap string (list (Z * float))) :=
  match stats_run.2 with
  | ProphetComparison2.Plotted plotting_data _ _ => plotting_data
  | _ => ∅
  end.

Definition stats_present : list string :=
  match stats_run.2 with
  | ProphetComparison2.Plotted _ prophet_types_present _ => prophet_types_present
  | _ => []
  end.

Definition stats_figures : list ProphetComparison2.figure :=
  match stats_run.2 with
  | ProphetComparison2.Plotted _ _ figures => figures
  | _ => []
  end.

(** A report whose scenario number is 2^64. *)
Definition far_fs (path : string) : Fs.file_state :=
  if String.eqb path "/d/HaggleProphet18446744073709551616_MessageStatsReport.txt" then
    Fs.Lines ["delivery_prob: 0.5"]
  else Fs.Absent.

Definition far_files : list string :=
  ["HaggleProphet18446744073709551616_MessageStatsReport.txt"].

End MoreExamples.

(** ** Tactics for closed examples *)

(** Two binary64 values with different decompositions are different. *)
Ltac float_discriminate H :=
  apply (f_equal Prim2SF) in H; vm_compute in H; discriminate H.

(** A concrete line is well formed: the four runs of whitespace are given. *)
Ltac kv_line_with ws1 ws2 ws3 ws4 :=
  split; [split; exact eq_refl |];
  split; [exact eq_refl |];
  exists ws1, ws2, ws3, ws4; repeat split; exact eq_refl.

(** * Properties *)

(** ** Facts about the string operations *)

Section StringFacts.

Import Py.

#[local] Arguments String.append !_ _ / : assert.

Lemma string_app_nil_r (s : string) : s +:+ "" = s.
Proof. induction s as [|c s IH]; simpl; [done|]. by rewrite IH. Qed.

Lemma string_app_assoc (a b c : string) : (a +:+ b) +:+ c = a +:+ b +:+ c.
Proof. induction a as [|x a IH]; simpl; [done|]. by rewrite IH. Qed.

Lemma lstrip_length (s : string) : (String.length (lstrip s) <= String.length s)%nat.
Proof. induction s as [|c s IH]; simpl; [done|]. destruct (isspace c); simpl; lia. Qed.

Lemma lstrip_fixed_head c s : lstrip (String c s) = String c s → isspace c = false.
Proof.
  simpl. destruct (isspace c); [|done]. intros H.
  pose proof (lstrip_length s) as Hl. rewrite H in Hl. simpl in Hl. lia.
Qed.

Lemma lstrip_blank_app ws s : blank ws → lstrip (ws +:+ s) = lstrip s.
Proof.
  unfold blank. induction ws as [|c ws IH]; simpl; [done|].
  destruct (isspace c); [done|discriminate].
Qed.

Lemma lstrip_trimmed_app v s : lstrip v = v → v ≠ "" → lstrip (v +:+ s) = v +:+ s.
Proof.
  destruct v as [|c v]; [done|]. intros H _.
  apply lstrip_fixed_head in H. simpl. by rewrite H.
Qed.

Lemma rstrip_blank ws : blank ws → rstrip ws = "".
Proof.
  unfold blank. induction ws as [|c ws IH]; simpl; [done|].
  destruct (isspace c) eqn:Hc; [|discriminate]. intros H. by rewrite (IH H).
Qed.

Lemma rstrip_app_blank s ws : blank ws → rstrip (s +:+ ws) = rstrip s.
Proof.
  intros Hws. induction s as [|c s IH]; simpl.
  - by apply rstrip_blank.
  - by rewrite IH.
Qed.

Lemma rstrip_app_keep a b : rstrip b ≠ "" → rstrip (a +:+ b) = a +:+ rstrip b.
Proof.
  intros Hb. induction a as [|c a IH]; simpl; [done|].
  rewrite IH. destruct (a +:+ rstrip b) eqn:Heq; [|done].
  destruct a; simpl in Heq; [done|discriminate].
Qed.

Lemma rstrip_cons_nonspace c s : isspace c = false → rstrip (String c s) = String c (rstrip s).
Proof. intros Hc. simpl. destruct (rstrip s); [by rewrite Hc|done]. Qed.

Lemma has_char_app c a b : has_char c (a +:+ b) = has_char c a || has_char c b.
Proof. induction a as [|x a IH]; simpl; [done|]. by destruct (Ascii.eqb c x). Qed.

Lemma has_char_blank c ws : isspace c = false → blank ws → has_char c ws = false.
Proof.
  unfold blank. intros Hc. induction ws as [|x ws IH]; simpl; [done|].
  destruct (isspace x) eqn:Hx; [|discriminate]. intros H.
  destruct (Ascii.eqb_spec c x) as [->|]; [congruence|auto].
Qed.

Lemma split_once_app sep a b :
  has_char sep a = false → split_once sep (a +:+ String sep b) = Some (a, b).
Proof.
  induction a as [|x a IH]; simpl.
  - by rewrite Ascii.eqb_refl.
  - rewrite (Ascii.eqb_sym sep x). destruct (Ascii.eqb x sep); [done|].
    intros H. by rewrite (IH H).
Qed.

(** Stripping a trimmed text wrapped in whitespace gives the text back. *)
Lemma strip_wrapped ws v ws' : blank ws → blank ws' → trimmed v → strip (ws +:+ v +:+ ws') = v.
Proof.
  intros Hws Hws' [Hl Hr]. unfold strip. rewrite lstrip_blank_app by done.
  destruct (decide (v = "")) as [->|Hv].
  - simpl. rewrite Hws'. done.
  - rewrite lstrip_trimmed_app by done. by rewrite rstrip_app_blank.
Qed.

Lemma strip_trimmed v : trimmed v → strip v = v.
Proof.
  intros [Hl Hr]. unfold strip. by rewrite Hl, Hr.
Qed.

End StringFacts.

(** ** Lines of a report *)

Section LineFacts.

Import Py.

#[local] Arguments String.append !_ _ / : assert.

Lemma metric_key_facts k :
  k ∈ metric_keys → trimmed k ∧ k ≠ "" ∧ has_char ":" k = false.
Proof.
  unfold metric_keys. rewrite !elem_of_cons, elem_of_nil.
  intros H. destruct_or!; subst; try done;
    (split; [split; reflexivity | split; [discriminate | reflexivity]]).
Qed.

(** The stripped form of a well-formed line: the key, whitespace, the colon,
    and a rest whose left-stripped form is the value text. *)
Lemma kv_line_strip k v raw :
  k ∈ metric_keys → kv_line k v raw →
  ∃ ws2 t, blank ws2 ∧ strip raw = (k +:+ ws2) +:+ String ":" t ∧ lstrip t = v ∧ strip t = v.
Proof.
  intros Hk (Hv & _ & ws1 & ws2 & ws3 & ws4 & H1 & H2 & H3 & H4 & ->).
  destruct (metric_key_facts k Hk) as ([Hkl Hkr] & Hk0 & _).
  exists ws2, (rstrip (ws3 +:+ v +:+ ws4)). split; [done|].
  assert (Ht : lstrip (rstrip (ws3 +:+ v +:+ ws4)) = v).
  { rewrite <-string_app_assoc, rstrip_app_blank by done. destruct Hv as [Hvl Hvr].
    destruct (decide (v = "")) as [->|Hv0].
    - by rewrite string_app_nil_r, rstrip_blank.
    - rewrite rstrip_app_keep by congruence. rewrite Hvr.
      by rewrite lstrip_blank_app. }
  split_and!; [|done|].
  - unfold strip. rewrite lstrip_blank_app, lstrip_trimmed_app by done.
    change (":" +:+ ws3 +:+ v +:+ ws4) with (String ":" (ws3 +:+ v +:+ ws4)).
    rewrite <-string_app_assoc. rewrite rstrip_app_keep.
    + by rewrite rstrip_cons_nonspace.
    + by rewrite rstrip_cons_nonspace.
  - unfold strip. rewrite Ht. by destruct Hv.
Qed.

Lemma kv_line_split k v raw :
  k ∈ metric_keys → kv_line k v raw →
  has_char ":" (strip raw) = true ∧
  ∃ g1 t, split_once ":" (strip raw) = Some (g1, t) ∧ g1 ≠ "" ∧ strip g1 = k
          ∧ lstrip t = v ∧ strip t = v.
Proof.
  intros Hk Hline. destruct (kv_line_strip k v raw Hk Hline) as (ws2 & t & Hws & -> & Ht & Ht').
  destruct (metric_key_facts k Hk) as (Hkt & Hk0 & Hkc).
  assert (Hc : has_char ":" (k +:+ ws2) = false).
  { by rewrite has_char_app, Hkc, (has_char_blank ":" ws2). }
  split.
  - rewrite has_char_app. simpl. by rewrite orb_true_r.
  - exists (k +:+ ws2), t. split_and!; [by apply split_once_app| |
      by apply (strip_wrapped "" k ws2)|done..].
    destruct k; [done|discriminate].
Qed.

Lemma assigned_key_kv k v raw :
  k ∈ metric_keys → kv_line k v raw → assigned_key raw = Some k.
Proof.
  intros Hk Hline.
  destruct (kv_line_split k v raw Hk Hline) as (_ & g1 & t & Hs & _ & Hg & _).
  unfold assigned_key. rewrite Hs, Hg. by rewrite bool_decide_true.
Qed.

Lemma until_newline_id v : has_char LF v = false → ProphetComparison.until_newline v = v.
Proof.
  induction v as [|c v IH]; [done|].
  cbn [has_char ProphetComparison.until_newline].
  rewrite (Ascii.eqb_sym LF c). destruct (Ascii.eqb c LF); [done|].
  intros H. by rewrite (IH H).
Qed.

Section Script2.

Variable py_float : string → option float.

(** What the second script does on a well-formed line of a metric key. *)
Lemma parse_line2_kv filename data out k v raw :
  k ∈ metric_keys → kv_line k v raw →
  ProphetComparison2.parse_line py_float filename (data, out) raw
  = match py_float v with
    | Some x => (<[k := x]> data, out)
    | None =>
        (<[k := nan]> data,
         out ++ ["Warning: Could not convert value '" +:+ v +:+ "' for key '"
                   +:+ k +:+ "' in " +:+ filename +:+ " to float. Skipping."])
    end.
Proof.
  intros Hk Hline.
  destruct (kv_line_split k v raw Hk Hline) as (Hc & g1 & t & Hs & _ & Hg & _ & Ht).
  unfold ProphetComparison2.parse_line. rewrite Hc, Hs, Hg, Ht.
  by rewrite bool_decide_true.
Qed.

(** A line that does not set [k] leaves the entry of [k] as it is. *)
Lemma parse_line2_other filename data out k raw :
  assigned_key raw ≠ Some k →
  (ProphetComparison2.parse_line py_float filename (data, out) raw).1 !! k = data !! k.
Proof.
  unfold assigned_key, ProphetComparison2.parse_line. intros H.
  destruct (has_char ":" (strip raw)); [|done].
  destruct (split_once ":" (strip raw)) as [[g1 t]|]; [|done].
  change (ProphetComparison2.METRICS_TO_PLOT.*1) with metric_keys.
  case_bool_decide; [|done].
  destruct (py_float (strip t)); simpl; rewrite lookup_insert_ne; congruence.
Qed.

Lemma parse_lines2_other filename lines data out k :
  Forall (λ raw, assigned_key raw ≠ Some k) lines →
  (foldl (ProphetComparison2.parse_line py_float filename) (data, out) lines).1 !! k
  = data !! k.
Proof.
  intros H. revert data out. induction H as [|raw lines Hraw _ IH]; intros data out; [done|].
  cbn [foldl].
  destruct (ProphetComparison2.parse_line py_float filename (data, out) raw)
    as [data' out'] eqn:Heq.
  rewrite IH. by rewrite <-(parse_line2_other filename data out k raw Hraw), Heq.
Qed.




End Script2.

Section Script1.

Import ProphetComparison.

Variable py_float : string → option float.
Variable fs : string → Fs.file_state.

Lemma lookup3_set_metric (data : data_t) p' sc' k' v p sc k :
  lookup3 (set_metric data p' sc' k' v) p sc k
  = if decide (p = p' ∧ sc = sc' ∧ k = k') then Some v else lookup3 data p sc k.
Proof.
  unfold lookup3, set_metric.
  destruct (decide (p = p')) as [->|Hp].
  2:{ rewrite lookup_insert_ne by done. rewrite decide_False; [done|]. by intros []. }
  rewrite lookup_insert_eq. simpl.
  destruct (decide (sc = sc')) as [->|Hsc].
  2:{ rewrite lookup_insert_ne by done. rewrite decide_False by (by intros (? & ? & ?)).
      rewrite lookup_total_alt. by destruct (data !! p'). }
  rewrite lookup_insert_eq. simpl.
  destruct (decide (k = k')) as [->|Hk].
  { rewrite lookup_insert_eq. by rewrite decide_True. }
  rewrite lookup_insert_ne by done. rewrite decide_False by (by intros (? & ? & ?)).
  rewrite !lookup_total_alt. destruct (data !! p') as [by_sc|]; simpl; [|done].
  by destruct (by_sc !! sc').
Qed.

Lemma lookup3_init_entry (data : data_t) p' sc' p sc k :
  lookup3 (init_entry data p' sc') p sc k = lookup3 data p sc k.
Proof.
  unfold lookup3, init_entry.
  destruct (data !! p') as [by_sc|] eqn:Hp'.
  - rewrite lookup_total_alt, Hp'. simpl.
    destruct (by_sc !! sc') eqn:Hsc'; [done|].
    destruct (decide (p = p')) as [->|]; [|by rewrite lookup_insert_ne].
    rewrite lookup_insert_eq, Hp'. simpl.
    destruct (decide (sc = sc')) as [->|]; [|by rewrite lookup_insert_ne].
    by rewrite lookup_insert_eq, Hsc'.
  - rewrite lookup_total_alt, lookup_insert_eq. simpl. rewrite lookup_empty.
    destruct (decide (p = p')) as [->|].
    + rewrite lookup_insert_eq, Hp'. simpl.
      destruct (decide (sc = sc')) as [->|]; [by rewrite lookup_insert_eq|].
      by rewrite lookup_insert_ne.
    + by rewrite !lookup_insert_ne.
Qed.

(** What the first script does on a well-formed line of a metric key. *)
Lemma parse_line1_kv basename p sc data out k v raw :
  k ∈ metric_keys → kv_line k v raw →
  parse_line py_float basename p sc (data, out) raw
  = match py_float v with
    | Some x => (set_metric data p sc k x, out)
    | None =>
        (set_metric data p sc k nan,
         out ++ ["    Warning: Could not convert value '" +:+ v +:+ "' for key '"
                   +:+ k +:+ "' in " +:+ basename +:+ " to float. Storing as NaN."])
    end.
Proof.
  intros Hk Hline.
  destruct (kv_line_split k v raw Hk Hline) as (Hc & g1 & t & Hs & Hg0 & Hg & Ht & _).
  unfold parse_line, match_kv. rewrite Hc, Hs.
  destruct g1 as [|c g1]; [done|]. rewrite Hg, Ht.
  destruct Hline as (Hv & Hlf & _). rewrite (until_newline_id v Hlf).
  rewrite (strip_trimmed v Hv). by rewrite bool_decide_true.
Qed.

(** A line leaves [data[p][sc][k]] as it is unless it is processed for
    that protocol and scenario and sets that key. *)
Lemma parse_line1_other basename p' sc' data out raw p sc k :
  (p', sc') ≠ (p, sc) ∨ assigned_key raw ≠ Some k →
  lookup3 (parse_line py_float basename p' sc' (data, out) raw).1 p sc k
  = lookup3 data p sc k.
Proof.
  unfold assigned_key, parse_line, match_kv. intros H.
  destruct (has_char ":" (strip raw)); [|done].
  destruct (split_once ":" (strip raw)) as [[[|c g1] t]|]; [done| |done].
  case_bool_decide; [|done].
  destruct (py_float _); simpl; rewrite lookup3_set_metric;
    (rewrite decide_False; [done|]; intros (-> & -> & ->); by destruct H).
Qed.

Lemma parse_lines1_other basename p' sc' lines data out p sc k :
  (p', sc') ≠ (p, sc) ∨ Forall (λ raw, assigned_key raw ≠ Some k) lines →
  lookup3 (foldl (parse_line py_float basename p' sc') (data, out) lines).1 p sc k
  = lookup3 data p sc k.
Proof.
  intros H. revert data out. induction lines as [|raw lines IH]; intros data out; [done|].
  cbn [foldl].
  destruct (parse_line py_float basename p' sc' (data, out) raw) as [data' out'] eqn:Heq.
  rewrite IH.
  - pose proof (parse_line1_other basename p' sc' data out raw p sc k) as H'.
    rewrite Heq in H'. apply H'. destruct H as [H|H]; [by left|right].
    by inversion H.
  - destruct H as [H|H]; [by left|right]. by inversion H.
Qed.

(** A file with another protocol or scenario, or an unrecognised name,
    leaves [data[p][sc][k]] as it is. *)
Lemma process_file_other data out filename p sc k :
  entry_of (basename filename) ≠ Some (p, sc) →
  lookup3 (process_file py_float fs (data, out) filename).1 p sc k = lookup3 data p sc k.
Proof.
  unfold process_file. intros H.
  destruct (entry_of (basename filename)) as [[p' sc']|]; [|done].
  destruct (fs filename); simpl; try apply lookup3_init_entry.
  rewrite parse_lines1_other; [apply lookup3_init_entry|]. left. congruence.
Qed.

Lemma process_files_other files data out p sc k :
  Forall (λ f, entry_of (basename f) ≠ Some (p, sc)) files →
  lookup3 (foldl (process_file py_float fs) (data, out) files).1 p sc k
  = lookup3 data p sc k.
Proof.
  intros H. revert data out. induction H as [|f files Hf _ IH]; intros data out; [done|].
  cbn [foldl].
  destruct (process_file py_float fs (data, out) f) as [data' out'] eqn:Heq.
  rewrite IH. pose proof (process_file_other data out f p sc k Hf) as H'.
  by rewrite Heq in H'.
Qed.

(** Lines only add to what has been printed. *)
Lemma parse_lines1_out basename p sc lines data out :
  out `prefix_of` (foldl (parse_line py_float basename p sc) (data, out) lines).2.
Proof.
  revert data out. induction lines as [|raw lines IH]; intros data out; [done|].
  cbn [foldl].
  destruct (parse_line py_float basename p sc (data, out) raw) as [data' out'] eqn:Heq.
  etrans; [|apply IH].
  unfold parse_line in Heq.
  repeat case_match; simplify_eq; try done; by apply prefix_app_r.
Qed.

End Script1.

End LineFacts.

(** ** Sorting *)

Section SortFacts.

(** Python's [sorted] and [list.sort] on texts and on integers: the result
    depends on the elements only, not on their order. *)
Lemma sort_strings_perm (l1 l2 : list string) :
  l1 ≡ₚ l2 → merge_sort (≤)%string l1 = merge_sort (≤)%string l2.
Proof.
  intros H. apply (Sorted_unique (≤)%string); [apply Sorted_merge_sort, _..|].
  by rewrite !merge_sort_Permutation.
Qed.

Lemma sort_Z_perm (l1 l2 : list Z) :
  l1 ≡ₚ l2 → merge_sort Z.le l1 = merge_sort Z.le l2.
Proof.
  intros H. apply (Sorted_unique Z.le); [apply Sorted_merge_sort, _..|].
  by rewrite !merge_sort_Permutation.
Qed.

(** Sorting a list with one more element puts that element somewhere into
    the sorted rest. *)
Lemma sort_strings_insert (f : string) (pre post : list string) :
  ∃ l1 l2, merge_sort (≤)%string (pre ++ f :: post) = l1 ++ f :: l2 ∧
           merge_sort (≤)%string (pre ++ post) = l1 ++ l2.
Proof.
  assert (Hin : f ∈ merge_sort (≤)%string (pre ++ f :: post)).
  { rewrite merge_sort_Permutation. apply elem_of_app; right; constructor. }
  apply list_elem_of_split in Hin as (l1 & l2 & Heq). exists l1, l2. split; [done|].
  apply (Sorted_unique (≤)%string).
  - apply Sorted_merge_sort, _.
  - apply StronglySorted_Sorted.
    assert (Hs : StronglySorted (≤)%string (l1 ++ f :: l2)).
    { rewrite <-Heq. apply StronglySorted_merge_sort; apply _. }
    apply StronglySorted_app in Hs as (H12 & H1 & H2).
    apply StronglySorted_app. split_and!; [|done|by inversion H2].
    intros x1 x2 Hx1 Hx2. apply H12; [done|by right].
  - rewrite merge_sort_Permutation.
    apply (Permutation_cons_inv (a := f)).
    rewrite !Permutation_middle, <-Heq. by rewrite merge_sort_Permutation.
Qed.

End SortFacts.

(** ** What is printed does not influence what is parsed *)

Section DataFacts.

Variable py_float : string → option float.
Variable fs : string → Fs.file_state.

Lemma parse_line1_data basename p sc data out out' raw :
  (ProphetComparison.parse_line py_float basename p sc (data, out) raw).1
  = (ProphetComparison.parse_line py_float basename p sc (data, out') raw).1.
Proof. unfold ProphetComparison.parse_line. by repeat case_match. Qed.

Lemma parse_lines1_data basename p sc lines data out out' :
  (foldl (ProphetComparison.parse_line py_float basename p sc) (data, out) lines).1
  = (foldl (ProphetComparison.parse_line py_float basename p sc) (data, out') lines).1.
Proof.
  revert data out out'. induction lines as [|raw lines IH]; intros data out out'; [done|].
  cbn [foldl].
  pose proof (parse_line1_data basename p sc data out out' raw) as H.
  destruct (ProphetComparison.parse_line py_float basename p sc (data, out) raw) as [d1 o1].
  destruct (ProphetComparison.parse_line py_float basename p sc (data, out') raw) as [d2 o2].
  simpl in H. subst d2. apply IH.
Qed.

Lemma process_file_data data out out' filename :
  (ProphetComparison.process_file py_float fs (data, out) filename).1
  = (ProphetComparison.process_file py_float fs (data, out') filename).1.
Proof.
  unfold ProphetComparison.process_file.
  destruct (ProphetComparison.entry_of _) as [[p sc]|]; [|done].
  destruct (fs filename); try done. apply parse_lines1_data.
Qed.

Lemma process_files_data files data out out' :
  (foldl (ProphetComparison.process_file py_float fs) (data, out) files).1
  = (foldl (ProphetComparison.process_file py_float fs) (data, out') files).1.
Proof.
  revert data out out'. induction files as [|f files IH]; intros data out out'; [done|].
  cbn [foldl].
  pose proof (process_file_data data out out' f) as H.
  destruct (ProphetComparison.process_file py_float fs (data, out) f) as [d1 o1].
  destruct (ProphetComparison.process_file py_float fs (data, out') f) as [d2 o2].
  simpl in H. subst d2. apply IH.
Qed.

(** The files only add to what has been printed. *)
Lemma process_files_out files data out :
  out `prefix_of` (foldl (ProphetComparison.process_file py_float fs) (data, out) files).2.
Proof.
  revert data out. induction files as [|f files IH]; intros data out; [done|].
  cbn [foldl].
  destruct (ProphetComparison.process_file py_float fs (data, out) f) as [d1 o1] eqn:Heq.
  etrans; [|apply IH].
  unfold ProphetComparison.process_file in Heq.
  destruct (ProphetComparison.entry_of _) as [[p sc]|].
  - etrans; [apply (prefix_app_r out out ["  - Processing: " +:+ Py.basename f]); done|].
    destruct (fs f); simplify_eq; try (by apply prefix_app_r).
    pose proof (parse_lines1_out py_float (Py.basename f) p sc ls
                  (ProphetComparison.init_entry data p sc)
                  (out ++ ["  - Processing: " +:+ Py.basename f])) as H.
    by rewrite Heq in H.
  - simplify_eq. rewrite <-(assoc_L (++)). by apply prefix_app_r.
Qed.

(** The second script's loop collects the records of the entries, in the
    order of the list. *)
Lemma locate_items script_dir files all_parsed_data out :
  (foldl (ProphetComparison2.locate_and_parse py_float fs script_dir)
         (all_parsed_data, out) files).1
  = all_parsed_data ++ omap (parsed_item py_float fs script_dir) files.
Proof.
  revert all_parsed_data out.
  induction files as [|e files IH]; intros all_parsed_data out.
  { simpl. by rewrite app_nil_r. }
  cbn [foldl omap list_omap]. unfold ProphetComparison2.locate_and_parse at 2.
  unfold parsed_item at 1.
  destruct (Fs.exists_ (fs (ProphetComparison2.resolve script_dir e))); simpl.
  - destruct (ProphetComparison2.parse_message_stats_file py_float fs _) as [[item|] out'];
      simpl; rewrite IH; [|done]. by rewrite <-(assoc_L (++)).
  - apply IH.
Qed.

Lemma locate_all_items script_dir files :
  (ProphetComparison2.locate_all py_float fs script_dir files).1
  = omap (parsed_item py_float fs script_dir) files.
Proof. unfold ProphetComparison2.locate_all. by rewrite locate_items. Qed.

End DataFacts.

(** ** Conversions between integers and binary64 *)

Section FloatFacts.

Lemma digits2_pos_iter p k :
  Z.pos (digits2_pos (Pos.iter xO p k)) = Z.pos (digits2_pos p) + Z.pos k.
Proof.
  revert p. induction k as [|k IH] using Pos.peano_ind; intros p.
  - simpl. lia.
  - rewrite Pos.iter_succ. simpl. rewrite Pos2Z.inj_succ, IH. lia.
Qed.

Lemma digits2_pos_le p n : 0 ≤ n → Z.pos p < 2 ^ n → Z.pos (digits2_pos p) ≤ n.
Proof.
  revert n. induction p as [p IH|p IH|]; intros n Hn H; simpl digits2_pos.
  - rewrite Pos2Z.inj_succ. assert (n ≠ 0) by (intros ->; simpl in H; lia).
    specialize (IH (n - 1) ltac:(lia)).
    replace n with (Z.succ (n - 1)) in H by lia. rewrite Z.pow_succ_r in H by lia.
    lia.
  - rewrite Pos2Z.inj_succ. assert (n ≠ 0) by (intros ->; simpl in H; lia).
    specialize (IH (n - 1) ltac:(lia)).
    replace n with (Z.succ (n - 1)) in H by lia. rewrite Z.pow_succ_r in H by lia.
    lia.
  - assert (n ≠ 0) by (intros ->; simpl in H; lia). lia.
Qed.

(** A mantissa of 53 bits with an exponent in range is not rounded. *)
Lemma binary_round_aux_exact s m e :
  Z.pos (digits2_pos m) = 53 → -1074 ≤ e ≤ 971 →
  binary_round_aux 53 1024 s (Z.pos m) e loc_Exact = S754_finite s m e.
Proof.
  intros Hd He. unfold binary_round_aux, shr_fexp. cbn [Zdigits2 shr_record_of_loc].
  rewrite Hd.
  assert (Hfexp : fexp 53 1024 (53 + e) - e = 0) by (unfold fexp, emin; lia).
  rewrite Hfexp. cbn [shr shr_m loc_of_shr_record round_nearest_even Zdigits2].
  rewrite Hd, Hfexp. cbn [shr shr_m].
  destruct (Z.leb_spec e (1024 - 53)); [done|lia].
Qed.

Lemma binary_round_small s p :
  Z.pos p < 2 ^ 53 →
  ∃ m e, binary_round 53 1024 s p 0 = S754_finite s m e ∧ -52 ≤ e ≤ 0 ∧
         Z.pos m = Z.pos p * 2 ^ (- e) ∧ bounded 53 1024 m e = true.
Proof.
  intros Hp. pose proof (digits2_pos_le p 53 ltac:(lia) Hp) as Hd.
  unfold binary_round.
  set (d := Z.pos (digits2_pos p)) in *.
  assert (0 < d) by (unfold d; lia).
  assert (Hfexp : fexp 53 1024 (d + 0) = d - 53) by (unfold fexp, emin; lia).
  rewrite Hfexp. unfold shl_align.
  destruct (d - 53 - 0) as [|q|q] eqn:Hq; [| lia |].
  - exists p, 0. rewrite binary_round_aux_exact by (fold d; lia).
    split_and!; [done|lia|lia|simpl; lia|].
    unfold bounded, canonical_mantissa. fold d. replace d with 53 by lia. done.
  - assert (Hdq : Z.pos (digits2_pos (Pos.iter xO p q)) = 53)
      by (rewrite digits2_pos_iter; fold d; lia).
    exists (Pos.iter xO p q), (d - 53). rewrite binary_round_aux_exact by (done || lia).
    split_and!; [done|lia|lia| |].
    + change (Pos.iter xO p q) with (shift_pos q p). rewrite shift_pos_correct.
      rewrite Z.pow_pos_fold. replace (- (d - 53)) with (Z.pos q) by lia. lia.
    + unfold bounded, canonical_mantissa. rewrite Hdq.
      unfold fexp, emin. apply andb_true_intro. split; [apply Z.eqb_eq|apply Z.leb_le]; lia.
Qed.

Lemma shiftl_back m p e : e ≤ 0 → m = p * 2 ^ (- e) → m ≪ e = p.
Proof.
  intros He ->. rewrite <-(Z.opp_involutive e) at 2. rewrite Z.shiftl_opp_r.
  rewrite Z.shiftr_div_pow2 by lia. apply Z.div_mul. apply Z.pow_nonzero; lia.
Qed.

Lemma isnan_finite x s m e : Prim2SF x = S754_finite s m e → F64.isnan x = false.
Proof.
  intros H. unfold F64.isnan, is_nan. rewrite FloatAxioms.eqb_spec, H. unfold SFeqb, SFcompare.
  rewrite Z.compare_refl. change (Pos.compare_cont Eq m m) with (Pos.compare m m).
  rewrite Pos.compare_refl. by destruct s.
Qed.

(** An integer below [2^53] in magnitude is a binary64, and converting it
    there and back gives it again. *)
Lemma of_Z_exact z :
  Z.abs z < 2 ^ 53 → F64.isnan (F64.of_Z z) = false ∧ F64.trunc (F64.of_Z z) = z.
Proof.
  intros Hz. unfold F64.trunc, F64.of_Z, binary_normalize.
  destruct z as [|p|p].
  - split; reflexivity.
  - destruct (binary_round_small false p) as (m & e & -> & He & Hm & Hb); [lia|].
    split.
    + apply (isnan_finite _ false m e). by rewrite Prim2SF_SF2Prim.
    + rewrite Prim2SF_SF2Prim by done. cbv zeta. apply shiftl_back; [lia|done].
  - destruct (binary_round_small true p) as (m & e & -> & He & Hm & Hb); [lia|].
    split.
    + apply (isnan_finite _ true m e). by rewrite Prim2SF_SF2Prim.
    + rewrite Prim2SF_SF2Prim by done. cbv zeta. f_equal.
      rewrite (shiftl_back _ (Z.pos p)); [done|lia|done].
Qed.

Lemma to_int64_fill0 d : F64.to_int64 (Popularity.fill0 d) = bar_height d.
Proof.
  unfold Popularity.fill0, bar_height. destruct (F64.isnan d); [reflexivity|].
  unfold F64.to_int64. cbv zeta.
  case_bool_decide as Hr; destruct (Z.leb_spec (- 2 ^ 63) (F64.trunc d)),
    (Z.ltb_spec (F64.trunc d) (2 ^ 63)); simpl; lia.
Qed.

Lemma bar_height_of_Z z : Z.abs z < 2 ^ 53 → bar_height (F64.of_Z z) = z.
Proof.
  intros Hz. destruct (of_Z_exact z Hz) as [Hnan Ht]. unfold bar_height.
  rewrite Hnan, Ht. rewrite bool_decide_true; [done|]. lia.
Qed.

Lemma wrap_int64_small z : - 2 ^ 63 ≤ z < 2 ^ 63 → Popularity.wrap_int64 z = z.
Proof. intros Hz. unfold Popularity.wrap_int64. rewrite Z.mod_small; lia. Qed.

End FloatFacts.

(** ** The popularity bar chart *)

Section PopularityFacts.

Import Popularity.

Variable read_csv : string → csv_result.
Variable to_numeric : list cell → series.
Variable savefig : string → option string.

Lemma diff_from_length prev l : length (diff_from prev l) = length l.
Proof. revert prev. induction l as [|x l IH]; intros prev; simpl; [done|]. by rewrite IH. Qed.

Lemma diff_from_lookup prev l i c :
  l !! i = Some c →
  diff_from prev l !! i
  = Some (c - match i with O => prev | S j => default nan (l !! j) end)%float.
Proof.
  revert prev i. induction l as [|x l IH]; intros prev i Hi; [done|].
  destruct i as [|i]; simpl in *.
  - by simplify_eq.
  - rewrite (IH x i Hi). by destruct i.
Qed.

Lemma patched_diff_lookup c0 l i :
  <[0%nat := c0]> (diff (c0 :: l)) !! i = delta (c0 :: l) i.
Proof.
  unfold delta. destruct i as [|i]; simpl; [done|].
  destruct (l !! i) as [c|] eqn:Hi; simpl.
  - rewrite (diff_from_lookup _ _ _ _ Hi). by destruct i.
  - apply lookup_ge_None. rewrite diff_from_length. by apply lookup_ge_None.
Qed.

Lemma diff_int_from_length prev l : length (diff_int_from prev l) = length l.
Proof. revert prev. induction l as [|x l IH]; intros prev; simpl; [done|]. by rewrite IH. Qed.

Lemma diff_int_from_lookup prev l i c :
  l !! i = Some c →
  diff_int_from prev l !! i
  = Some (F64.of_Z (wrap_int64
                      (c - match i with O => prev | S j => default 0 (l !! j) end))).
Proof.
  revert prev i. induction l as [|x l IH]; intros prev i Hi; [done|].
  destruct i as [|i]; simpl in *.
  - by simplify_eq.
  - rewrite (IH x i Hi). by destruct i.
Qed.

Lemma patched_diff_int_lookup c0 l i :
  <[0%nat := F64.of_Z c0]> (diff_int (c0 :: l)) !! i = delta_int (c0 :: l) i.
Proof.
  unfold delta_int. destruct i as [|i]; simpl; [done|].
  destruct (l !! i) as [c|] eqn:Hi; simpl.
  - rewrite (diff_int_from_lookup _ _ _ _ Hi). by destruct i.
  - apply lookup_ge_None. rewrite diff_int_from_length. by apply lookup_ge_None.
Qed.

Lemma series_diff_length s : length (series_diff s) = size s.
Proof.
  destruct s as [[|c0 l]|[|c0 l]]; simpl; [done| |done|].
  - by rewrite diff_int_from_length.
  - by rewrite diff_from_length.
Qed.

Lemma patched_series_lookup s c0 i :
  first s = Some c0 → <[0%nat := c0]> (series_diff s) !! i = series_delta s i.
Proof.
  destruct s as [[|z l]|[|z l]]; simpl; try done; intros [= <-].
  - apply patched_diff_int_lookup.
  - apply patched_diff_lookup.
Qed.

Lemma first_is_Some s : is_Some (first s) ↔ size s ≠ 0%nat.
Proof.
  destruct s as [[|z l]|[|z l]]; simpl; split; try done; try (by intros [? ?]);
    by eexists.
Qed.

Lemma patched_window_lookup s i : patched_window s !! i = series_delta s i.
Proof.
  unfold patched_window. destruct (first s) as [c0|] eqn:Hf.
  - by apply patched_series_lookup.
  - destruct s as [[|z l]|[|z l]]; simpl in *; try done.
Qed.

Lemma window_of_eq s window :
  window_of s = Some window → window = bar_height <$> patched_window s.
Proof.
  unfold window_of, patched_window, astype_int. destruct (first s) as [c0|]; [|done].
  cbv zeta. case_match; [|done]. intros [= <-]. unfold fillna0.
  rewrite <-list_fmap_compose. apply list_fmap_ext. intros _ d _. simpl.
  apply to_int64_fill0.
Qed.

Lemma window_of_spec s window :
  window_of s = Some window →
  ∀ i, window !! i = bar_height <$> series_delta s i.
Proof.
  intros H i. rewrite (window_of_eq _ _ H), list_lookup_fmap.
  by rewrite patched_window_lookup.
Qed.

Lemma window_of_length s window :
  window_of s = Some window → length window = size s.
Proof.
  unfold window_of, astype_int. destruct (first s) as [c0|]; [|done].
  cbv zeta. case_match; [|done]. intros [= <-]. unfold fillna0.
  by rewrite !length_fmap, length_insert, series_diff_length.
Qed.

Lemma in_index_loc df node : in_index node df = true ↔ loc df node ≠ [].
Proof.
  unfold in_index, loc, index. induction (body df) as [|[l r] b IH]; [done|].
  rewrite fmap_cons. cbn [existsb fst]. rewrite filter_cons. cbn [fst].
  destruct (label_is node l) eqn:Hl; simpl; [done|exact IH].
Qed.

(** What a call that returns a chart went through. *)
Lemma plot_node_popularity_chart filename node out chart :
  plot_node_popularity read_csv to_numeric savefig filename node
    = (out, Returned (Some chart)) →
  ∃ df node_data,
    read_csv filename = Loaded df ∧ loc df node = [node_data] ∧
    window_of (to_numeric node_data) = Some (window_popularity chart).
Proof.
  unfold plot_node_popularity. intros H.
  destruct (read_csv filename) as [| |df]; [done..|].
  destruct (in_index node df); simpl in H; [|done].
  destruct (loc df node) as [|node_data [|]] eqn:Hloc; [done| |done].
  destruct (time_points (columns df)); [|done].
  destruct (isnull_all _); [done|].
  destruct (window_of _) as [heights|] eqn:Hw; [|done].
  destruct (default false _); [done|].
  exists df, node_data. split_and!; [done..|].
  destruct (savefig _); by simplify_eq/=.
Qed.

End PopularityFacts.



(** C1, as stated, fails on a row with fractional cumulative values: for
    the row 0.5, 2.25, 4 the chart's heights are 0, 1, 1, which is not the
    series 0.5, 1.75, 1.75 of the specification. *)
Lemma delta_series_not_exact_on_fractions :
  ∃ chart,
    Popularity.plot_node_popularity (Examples.read_frame Examples.fractional_frame)
      Examples.to_numeric Examples.savefig_ok "report.txt" "A1"
    = (["Plot saved as popularity_plot_A1_3report.png"],
       Popularity.Returned (Some chart)) ∧
    Popularity.window_popularity chart = [0; 1; 1] ∧
    ¬ Examples.spec_delta_series [0.5; 2.25; 4]%float (Popularity.window_popularity chart).
Proof.
  eexists. split; [vm_compute; reflexivity|]. split; [reflexivity|].
  intros [_ H]. specialize (H 0%nat 0 eq_refl). float_discriminate H.
Qed.

(** C1 (amended): whenever a call returns a chart, the bar heights have one
    entry per cumulative value of the selected row.  On a row pandas holds
    as float64, entry 0 is the bar of the first cumulative value and entry
    i > 0 the bar of cumulative[i] - cumulative[i-1] in binary64; the bar
    of a NaN (a missing or unparseable sample on either side) is 0, the bar
    of any other value is its integer part when that fits int64 and -2^63
    when it does not.  On a row pandas holds as int64 the difference is
    taken in int64, wrapping around, and converted to binary64 before the
    same cast; entry i is then exactly cumulative[i] - cumulative[i-1]
    (entry 0 exactly cumulative[0]) whenever that number is below 2^53 in
    magnitude.  For the file with header Pop@3600,Pop@7200 and row A1,10,15
    the heights are [10, 5]. *)
Theorem window_popularity_truncated_deltas :
  (∀ (read_csv : string → Popularity.csv_result)
     (to_numeric : list Popularity.cell → Popularity.series)
     (savefig : string → option string)
     (filename node : string) (out : list string) (chart : Popularity.bar_chart),
     Popularity.plot_node_popularity read_csv to_numeric savefig filename node
       = (out, Popularity.Returned (Some chart)) →
     ∃ df node_data,
       read_csv filename = Popularity.Loaded df ∧
       Popularity.loc df node = [node_data] ∧
       let heights := Popularity.window_popularity chart in
       match to_numeric node_data with
       | Popularity.Float64 cumulative =>
           length heights = length cumulative ∧
           ∀ (i : nat) (c : float),
             cumulative !! i = Some c →
             heights !! i
             = Some (bar_height
                       match i with
                       | O => c
                       | S j => (c - default nan (cumulative !! j))%float
                       end)
       | Popularity.Int64 cumulative =>
           length heights = length cumulative ∧
           ∀ (i : nat) (c : Z),
             cumulative !! i = Some c →
             let d :=
               match i with
               | O => c
               | S j => Popularity.wrap_int64 (c - default 0 (cumulative !! j))
               end in
             heights !! i = Some (bar_height (F64.of_Z d)) ∧
             (Z.abs d < 2 ^ 53 → heights !! i = Some d)
       end) ∧
  (∀ z, - 2 ^ 63 ≤ z < 2 ^ 63 → Popularity.wrap_int64 z = z) ∧
  Popularity.plot_node_popularity (Examples.read_frame Examples.spec_frame)
    Examples.to_numeric Examples.savefig_ok "report.txt" "A1"
  = (["Plot saved as popularity_plot_A1_3report.png"],
     Popularity.Returned
       (Some {| Popularity.window_labels := ["1"; "2"];
                Popularity.window_popularity := [10; 5];
                Popularity.output_filename := "popularity_plot_A1_3report.png";
                Popularity.saved := true |})).
Proof.
  split_and!; [|apply wrap_int64_small|vm_compute; reflexivity].
  intros read_csv to_numeric savefig filename node out chart H.
  destruct (plot_node_popularity_chart _ _ _ _ _ _ _ H)
    as (df & node_data & Hload & Hloc & Hw).
  exists df, node_data. split; [done|]. split; [done|]. cbv zeta.
  pose proof (window_of_length _ _ Hw) as Hlen.
  pose proof (window_of_spec _ _ Hw) as Hspec.
  destruct (to_numeric node_data) as [cumulative|cumulative]; simpl in Hlen, Hspec.
  - split; [done|]. intros i c Hi.
    assert (Popularity.window_popularity chart !! i
            = Some (bar_height
                      (F64.of_Z match i with
                                | O => c
                                | S j => Popularity.wrap_int64
                                           (c - default 0 (cumulative !! j))
                                end))) as Hh.
    { rewrite Hspec. unfold Popularity.delta_int. by rewrite Hi. }
    split; [done|]. intros Hd. by rewrite Hh, bar_height_of_Z.
  - split; [done|]. intros i c Hi. rewrite Hspec. unfold Popularity.delta.
    by rewrite Hi.
Qed.

(** The heights of the row with an empty field: 10, 0, 0. *)
Lemma window_popularity_truncated_deltas_witness :
  Popularity.plot_node_popularity (Examples.read_frame Examples.fractional_frame)
    Examples.to_numeric Examples.savefig_ok "report.txt" "A2"
  = (["Plot saved as popularity_plot_A2_3report.png"],
     Popularity.Returned
       (Some {| Popularity.window_labels := ["1"; "2"; "3"];
                Popularity.window_popularity := [10; 0; 0];
                Popularity.output_filename := "popularity_plot_A2_3report.png";
                Popularity.saved := true |})) ∧
  ∃ df node_data,
    Examples.read_frame Examples.fractional_frame "report.txt" = Popularity.Loaded df ∧
    Popularity.loc df "A2" = [node_data] ∧
    let heights := [10; 0; 0] in
    match Examples.to_numeric node_data with
    | Popularity.Float64 cumulative =>
        length heights = length cumulative ∧
        ∀ (i : nat) (c : float),
          cumulative !! i = Some c →
          heights !! i
          = Some (bar_height
                    match i with
                    | O => c
                    | S j => (c - default nan (cumulative !! j))%float
                    end)
    | Popularity.Int64 cumulative =>
        length heights = length cumulative ∧
        ∀ (i : nat) (c : Z),
          cumulative !! i = Some c →
          let d :=
            match i with
            | O => c
            | S j => Popularity.wrap_int64 (c - default 0 (cumulative !! j))
            end in
          heights !! i = Some (bar_height (F64.of_Z d)) ∧
          (Z.abs d < 2 ^ 53 → heights !! i = Some d)
    end.
Proof.
  split; [vm_compute; reflexivity|].
  exact (proj1 window_popularity_truncated_deltas
           (Examples.read_frame Examples.fractional_frame)
           Examples.to_numeric Examples.savefig_ok "report.txt" "A2" _ _ eq_refl).
Defined.

(** C10, as stated, fails on a delta whose integer part does not fit int64:
    for the row 0.5, 1e19 the deltas are 0.5 and 1e19, and the second bar
    is -2^63, which is not the integer part of 1e19. *)
Lemma bar_heights_not_truncated_beyond_int64 :
  ∃ chart,
    Popularity.plot_node_popularity (Examples.read_frame MoreExamples.huge_frame)
      Examples.to_numeric Examples.savefig_ok "report.txt" "A1"
    = (["Plot saved as popularity_plot_A1_3report.png"],
       Popularity.Returned (Some chart)) ∧
    Popularity.window_popularity chart = [0; - 2 ^ 63] ∧
    Popularity.delta [0.5; 1e19]%float <$> [0; 1]%nat = [Some 0.5; Some 1e19]%float ∧
    F64.trunc 1e19 = 10 ^ 19 ∧
    ¬ Examples.spec_truncated [0.5; 1e19]%float (Popularity.window_popularity chart).
Proof.
  eexists. split; [vm_compute; reflexivity|]. split; [reflexivity|].
  split; [vm_compute; reflexivity|]. split; [vm_compute; reflexivity|].
  intros [_ H]. specialize (H 1%nat _ eq_refl). vm_compute in H. discriminate H.
Qed.

(** C10 (amended): whenever a call returns a chart, every bar height is the
    per-window delta of the selected row cast to an integer: 0 for a NaN
    delta, the delta without its fractional part when that integer fits
    int64, and -2^63 when it does not.  So the row 0.5, 2.25, 4, whose
    deltas are 0.5, 1.75, 1.75, is drawn with the heights 0, 1, 1. *)
Theorem bar_heights_are_integer_truncations :
  (∀ (read_csv : string → Popularity.csv_result)
     (to_numeric : list Popularity.cell → Popularity.series)
     (savefig : string → option string)
     (filename node : string) (out : list string) (chart : Popularity.bar_chart),
     Popularity.plot_node_popularity read_csv to_numeric savefig filename node
       = (out, Popularity.Returned (Some chart)) →
     ∃ df node_data deltas,
       read_csv filename = Popularity.Loaded df ∧
       Popularity.loc df node = [node_data] ∧
       (∀ i, deltas !! i = Popularity.series_delta (to_numeric node_data) i) ∧
       Popularity.window_popularity chart
       = (λ d, if F64.isnan d then 0
               else if bool_decide (- 2 ^ 63 ≤ F64.trunc d < 2 ^ 63) then F64.trunc d
               else - 2 ^ 63) <$> deltas) ∧
  F64.trunc 1.75 = 1 ∧ F64.trunc (-1.75) = -1 ∧ F64.trunc 0.5 = 0 ∧
  (∃ chart,
     Popularity.plot_node_popularity (Examples.read_frame Examples.fractional_frame)
       Examples.to_numeric Examples.savefig_ok "report.txt" "A1"
     = (["Plot saved as popularity_plot_A1_3report.png"],
        Popularity.Returned (Some chart)) ∧
     Popularity.window_popularity chart = [0; 1; 1] ∧
     Popularity.delta [0.5; 2.25; 4]%float <$> [0; 1; 2]%nat
     = [Some 0.5; Some 1.75; Some 1.75]%float).
Proof.
  split_and!; [|reflexivity..|].
  - intros read_csv to_numeric savefig filename node out chart H.
    destruct (plot_node_popularity_chart _ _ _ _ _ _ _ H)
      as (df & node_data & Hload & Hloc & Hw).
    exists df, node_data, (patched_window (to_numeric node_data)).
    split_and!; [done..| |].
    + intros i. apply patched_window_lookup.
    + apply (window_of_eq _ _ Hw).
  - eexists. split; [vm_compute; reflexivity|]. split; reflexivity.
Qed.

(** The heights of the row with an empty field, whose second and third
    deltas are NaN: 10, 0, 0. *)
Lemma bar_heights_are_integer_truncations_witness :
  Popularity.plot_node_popularity (Examples.read_frame Examples.fractional_frame)
    Examples.to_numeric Examples.savefig_ok "report.txt" "A2"
  = (["Plot saved as popularity_plot_A2_3report.png"],
     Popularity.Returned
       (Some {| Popularity.window_labels := ["1"; "2"; "3"];
                Popularity.window_popularity := [10; 0; 0];
                Popularity.output_filename := "popularity_plot_A2_3report.png";
                Popularity.saved := true |})) ∧
  (F64.isnan <$> omap (Popularity.delta [10; nan; 15]%float) [0; 1; 2]%nat)
  = [false; true; true] ∧
  (∃ df node_data deltas,
     Examples.read_frame Examples.fractional_frame "report.txt" = Popularity.Loaded df ∧
     Popularity.loc df "A2" = [node_data] ∧
     (∀ i, deltas !! i = Popularity.series_delta (Examples.to_numeric node_data) i) ∧
     [10; 0; 0]
     = (λ d, if F64.isnan d then 0
             else if bool_decide (- 2 ^ 63 ≤ F64.trunc d < 2 ^ 63) then F64.trunc d
             else - 2 ^ 63) <$> deltas).
Proof.
  split; [vm_compute; reflexivity|]. split; [vm_compute; reflexivity|].
  exact (proj1 bar_heights_are_integer_truncations
           (Examples.read_frame Examples.fractional_frame)
           Examples.to_numeric Examples.savefig_ok "report.txt" "A2" _ _ eq_refl).
Defined.

(** ** Parsed metric values *)


(** C2, as stated, fails when a report gives a key twice: the first
    [delivery_prob] line is well formed and its value text reads 0.5, but
    the parsed result holds 0.25, the value of the later line. *)
Lemma later_line_overrides_value :
  ∃ item out,
    ProphetComparison2.parse_message_stats_file Examples.decimal_float Examples.report_fs
      "/d/HaggleProphet100_MessageStatsReport.txt" = (Some item, out) ∧
    Examples.report_fs "/d/HaggleProphet100_MessageStatsReport.txt"
      = Fs.Lines (["sim_time: 274883.0"] ++ "delivery_prob: 0.5" :: ["delivery_prob: 0.25"]) ∧
    "delivery_prob" ∈ metric_keys ∧
    kv_line "delivery_prob" "0.5" "delivery_prob: 0.5" ∧
    Examples.decimal_float "0.5" = Some 0.5%float ∧
    ProphetComparison2.metrics item !! "delivery_prob" = Some 0.25%float ∧
    ProphetComparison2.metrics item !! "delivery_prob" ≠ Some 0.5%float.
Proof.
  eexists _, _. split; [vm_compute; reflexivity|].
  split_and!; [reflexivity | compute_done | | reflexivity | reflexivity |].
  - kv_line_with "" "" " " "".
  - intros H. apply (inj Some) in H. float_discriminate H.
Qed.

(** C2 (amended): the value stored for a metric key is the float parsed
    from the value text of the last well-formed line that sets that key.
    In the second script: when the file name is recognised and no later
    line of the file sets the key, the file's record holds that float.
    In the first script: when, moreover, no file sorted after this one has
    the same protocol and scenario, [data] holds that float after the
    parsing loop. *)
Theorem stored_value_is_parsed_literal :
  (∀ (py_float : string → option float) (fs : string → Fs.file_state)
     (filepath pt digits : string) (pre post : list string) (raw k v : string) (x : float),
     ProphetComparison2.prophet_type_of (Py.basename filepath) = inl pt →
     ProphetComparison2.match_scenario (Py.basename filepath) = Some digits →
     fs filepath = Fs.Lines (pre ++ raw :: post) →
     k ∈ metric_keys → kv_line k v raw → py_float v = Some x →
     Forall (λ l, assigned_key l ≠ Some k) post →
     ∃ item out,
       ProphetComparison2.parse_message_stats_file py_float fs filepath = (Some item, out) ∧
       ProphetComparison2.metrics item !! k = Some x) ∧
  (∀ (py_float : string → option float) (fs : string → Fs.file_state)
     (glob_result fpre fpost : list string) (f p : string) (sc : Z)
     (pre post : list string) (raw k v : string) (x : float),
     merge_sort (≤)%string glob_result = fpre ++ f :: fpost →
     ProphetComparison.entry_of (Py.basename f) = Some (p, sc) →
     Forall (λ f', ProphetComparison.entry_of (Py.basename f') ≠ Some (p, sc)) fpost →
     fs f = Fs.Lines (pre ++ raw :: post) →
     k ∈ metric_keys → kv_line k v raw → py_float v = Some x →
     Forall (λ l, assigned_key l ≠ Some k) post →
     lookup3 (ProphetComparison.parse_all py_float fs glob_result).1 p sc k = Some x).
Proof.
  split.
  - intros py_float fs filepath pt digits pre post raw k v x Hpt Hsc Hfs Hk Hline Hx Hpost.
    unfold ProphetComparison2.parse_message_stats_file. rewrite Hpt, Hsc, Hfs.
    rewrite foldl_app. cbn [foldl].
    destruct (foldl _ (∅, []) pre) as [d o].
    rewrite (parse_line2_kv py_float _ d o k v raw Hk Hline), Hx.
    pose proof (parse_lines2_other py_float (Py.basename filepath) post (<[k:=x]> d) o k Hpost)
      as Hlook.
    destruct (foldl _ (<[k:=x]> d, o) post) as [d' o']. simpl in Hlook.
    rewrite lookup_insert_eq in Hlook.
    rewrite bool_decide_false by (intros ->; by rewrite lookup_empty in Hlook).
    by eexists _, _.
  - intros py_float fs glob_result fpre fpost f p sc pre post raw k v x
      Hsort Hf Hfpost Hfs Hk Hline Hx Hpost.
    unfold ProphetComparison.parse_all. rewrite Hsort, foldl_app. cbn [foldl].
    destruct (foldl _ (∅, _) fpre) as [d o].
    destruct (ProphetComparison.process_file py_float fs (d, o) f) as [d1 o1] eqn:Hproc.
    rewrite process_files_other by done.
    unfold ProphetComparison.process_file in Hproc. rewrite Hf, Hfs in Hproc.
    rewrite foldl_app in Hproc. cbn [foldl] in Hproc.
    destruct (foldl _ (ProphetComparison.init_entry d p sc, _) pre) as [d2 o2].
    rewrite (parse_line1_kv py_float _ p sc d2 o2 k v raw Hk Hline), Hx in Hproc.
    pose proof (parse_lines1_other py_float (Py.basename f) p sc post
                  (ProphetComparison.set_metric d2 p sc k x) o2 p sc k (or_intror Hpost))
      as Hlook.
    rewrite Hproc in Hlook. simpl in Hlook. rewrite Hlook, lookup3_set_metric.
    by rewrite decide_True.
Qed.

(** The last [delivery_prob] line of a report with two, and a report of the first
    script. *)
Lemma stored_value_is_parsed_literal_witness :
  (∃ item out,
     ProphetComparison2.parse_message_stats_file Examples.decimal_float Examples.report_fs
       "/d/HaggleProphet100_MessageStatsReport.txt" = (Some item, out) ∧
     ProphetComparison2.metrics item !! "delivery_prob" = Some 0.25%float) ∧
  lookup3 (ProphetComparison.parse_all Examples.decimal_float Examples.report_fs
             ["./prophettuned_scenario1_MessageStatsReport.txt"]).1
    "Prophet" 1 "delivery_prob" = Some 0.5%float.
Proof.
  split.
  - apply (proj1 stored_value_is_parsed_literal Examples.decimal_float Examples.report_fs
             "/d/HaggleProphet100_MessageStatsReport.txt" "Haggle Prophet" "100"
             ["sim_time: 274883.0"; "delivery_prob: 0.5"] [] "delivery_prob: 0.25"
             "delivery_prob" "0.25" 0.25%float);
      [reflexivity | reflexivity | reflexivity | compute_done
      | kv_line_with "" "" " " "" | reflexivity | constructor].
  - apply (proj2 stored_value_is_parsed_literal Examples.decimal_float Examples.report_fs
             ["./prophettuned_scenario1_MessageStatsReport.txt"] [] []
             "./prophettuned_scenario1_MessageStatsReport.txt" "Prophet" 1
             ["sim_time: 274883.0"] ["latency_avg: 12"] "delivery_prob: 0.5"
             "delivery_prob" "0.5" 0.5%float);
      [reflexivity | reflexivity | constructor | reflexivity | compute_done
      | kv_line_with "" "" " " "" | reflexivity
      | repeat constructor; vm_compute; discriminate].
Defined.



(** ** Files whose names are not recognised *)

Lemma main_outcome py_float fs glob_result :
  (ProphetComparison.main py_float fs glob_result).2
  = (ProphetComparison.plot (ProphetComparison.parse_all py_float fs glob_result).1).2.
Proof.
  unfold ProphetComparison.main. destruct glob_result as [|f l]; [done|].
  destruct (ProphetComparison.parse_all _ _ _) as [data out]. simpl.
  by destruct (ProphetComparison.plot data).
Qed.

Lemma main_with_outcome py_float fs script_dir data_files :
  (ProphetComparison2.main_with py_float fs script_dir data_files).2
  = (ProphetComparison2.plot
       (ProphetComparison2.locate_all py_float fs script_dir data_files).1).2.
Proof.
  unfold ProphetComparison2.main_with.
  destruct (ProphetComparison2.locate_all _ _ _ _) as [all_parsed_data out]. simpl.
  by destruct (ProphetComparison2.plot all_parsed_data).
Qed.

Lemma prophet_type_warning filename w :
  ProphetComparison2.prophet_type_of filename = inr w →
  ∃ rest, w = "Warning: Could not " +:+ rest.
Proof.
  unfold ProphetComparison2.prophet_type_of. intros H.
  repeat case_match; simplify_eq; by eexists.
Qed.

(** C6: a file whose name does not match the naming convention is skipped
    with a warning.  First script: the file changes nothing in [data] and
    adds its two lines to the output; with or without it in the glob result
    the parsed [data] and the outcome are the same.  Second script: the
    parser returns no record and one warning line; with or without the entry
    in the file list, [all_parsed_data] and the outcome are the same. *)
Theorem unrecognised_file_is_skipped :
  (∀ (py_float : string → option float) (fs : string → Fs.file_state) (f : string),
     ProphetComparison.entry_of (Py.basename f) = None →
     let warning := "    Warning: Could not parse protocol/scenario from filename: "
                      +:+ Py.basename f +:+ ". Skipping this file." in
     (∀ data out,
        ProphetComparison.process_file py_float fs (data, out) f
        = (data, (out ++ ["  - Processing: " +:+ Py.basename f]) ++ [warning])) ∧
     (∀ pre post,
        (ProphetComparison.parse_all py_float fs (pre ++ f :: post)).1
        = (ProphetComparison.parse_all py_float fs (pre ++ post)).1 ∧
        warning ∈ (ProphetComparison.parse_all py_float fs (pre ++ f :: post)).2 ∧
        (ProphetComparison.main py_float fs (pre ++ f :: post)).2
        = (ProphetComparison.main py_float fs (pre ++ post)).2)) ∧
  (∀ (py_float : string → option float) (fs : string → Fs.file_state) (filepath : string),
     (∃ w, ProphetComparison2.prophet_type_of (Py.basename filepath) = inr w) ∨
     ProphetComparison2.match_scenario (Py.basename filepath) = None →
     (∃ rest,
        ProphetComparison2.parse_message_stats_file py_float fs filepath
        = (None, ["Warning: Could not " +:+ rest])) ∧
     (∀ script_dir pre file_entry post,
        ProphetComparison2.resolve script_dir file_entry = filepath →
        (ProphetComparison2.locate_all py_float fs script_dir (pre ++ file_entry :: post)).1
        = (ProphetComparison2.locate_all py_float fs script_dir (pre ++ post)).1 ∧
        (ProphetComparison2.main_with py_float fs script_dir (pre ++ file_entry :: post)).2
        = (ProphetComparison2.main_with py_float fs script_dir (pre ++ post)).2)).
Proof.
  split.
  - intros py_float fs f Hf warning.
    assert (Hstep : ∀ data out,
      ProphetComparison.process_file py_float fs (data, out) f
      = (data, (out ++ ["  - Processing: " +:+ Py.basename f]) ++ [warning])).
    { intros data out. unfold ProphetComparison.process_file. by rewrite Hf. }
    split; [done|]. intros pre post.
    assert (Hdata : (ProphetComparison.parse_all py_float fs (pre ++ f :: post)).1
                    = (ProphetComparison.parse_all py_float fs (pre ++ post)).1).
    { unfold ProphetComparison.parse_all.
      destruct (sort_strings_insert f pre post) as (l1 & l2 & -> & ->).
      rewrite !foldl_app. cbn [foldl].
      pose proof (process_files_data py_float fs l1 ∅
        ["Found " +:+ pretty (length (pre ++ f :: post)) +:+ " report files to process:"]
        ["Found " +:+ pretty (length (pre ++ post)) +:+ " report files to process:"]) as Hd.
      destruct (foldl _ (∅, [_]) l1) as [d o].
      destruct (foldl _ (∅, [_]) l1) as [d' o'].
      simpl in Hd. subst d'. rewrite Hstep. apply process_files_data. }
    split_and!; [done| |by rewrite !main_outcome, Hdata].
    unfold ProphetComparison.parse_all.
    destruct (sort_strings_insert f pre post) as (l1 & l2 & -> & _).
    rewrite foldl_app. cbn [foldl].
    destruct (foldl _ (∅, [_]) l1) as [d o]. rewrite Hstep.
    destruct (process_files_out py_float fs l2 d
                ((o ++ ["  - Processing: " +:+ Py.basename f]) ++ [warning]))
      as [extra ->].
    apply elem_of_app; left. apply elem_of_app; right. constructor.
  - intros py_float fs filepath Hun.
    assert (Hparse : ∃ rest,
      ProphetComparison2.parse_message_stats_file py_float fs filepath
      = (None, ["Warning: Could not " +:+ rest])).
    { unfold ProphetComparison2.parse_message_stats_file.
      destruct (ProphetComparison2.prophet_type_of _) as [pt|w] eqn:Hpt.
      - destruct Hun as [[w Hw]|Hsc]; [done|]. rewrite Hsc. by eexists.
      - destruct (prophet_type_warning _ _ Hpt) as [rest ->]. by eexists. }
    split; [done|]. intros script_dir pre file_entry post Hres.
    assert (Hitems :
      (ProphetComparison2.locate_all py_float fs script_dir (pre ++ file_entry :: post)).1
      = (ProphetComparison2.locate_all py_float fs script_dir (pre ++ post)).1).
    { rewrite !locate_all_items, !omap_app. f_equal. cbn [omap list_omap].
      unfold parsed_item at 1. rewrite Hres. destruct Hparse as [rest ->].
      by destruct (Fs.exists_ _). }
    split; [done|]. by rewrite !main_with_outcome, Hitems.
Qed.

(** Two reports that hold metric lines under names that are not
    recognised: a file named [notes_...] next to a recognised one for the
    first script, and a name without Haggle or Reality next to a
    recognised one for the second. *)
Lemma unrecognised_file_is_skipped_witness :
  Examples.report_fs "./notes_MessageStatsReport.txt"
  = Fs.Lines ["delivery_prob: 0.9"; "latency_avg: 3"] ∧
  Examples.report_fs "/d/Prophet100_MessageStatsReport.txt"
  = Fs.Lines ["delivery_prob: 0.9"; "latency_avg: 3"] ∧
  ((ProphetComparison.parse_all Examples.decimal_float Examples.report_fs
      (["./prophettuned_scenario1_MessageStatsReport.txt"]
         ++ "./notes_MessageStatsReport.txt" :: [])).1
   = (ProphetComparison.parse_all Examples.decimal_float Examples.report_fs
        (["./prophettuned_scenario1_MessageStatsReport.txt"] ++ [])).1 ∧
   "    Warning: Could not parse protocol/scenario from filename: notes_MessageStatsReport.txt. Skipping this file."
     ∈ (ProphetComparison.parse_all Examples.decimal_float Examples.report_fs
          (["./prophettuned_scenario1_MessageStatsReport.txt"]
             ++ "./notes_MessageStatsReport.txt" :: [])).2 ∧
   (ProphetComparison.main Examples.decimal_float Examples.report_fs
      (["./prophettuned_scenario1_MessageStatsReport.txt"]
         ++ "./notes_MessageStatsReport.txt" :: [])).2
   = (ProphetComparison.main Examples.decimal_float Examples.report_fs
        (["./prophettuned_scenario1_MessageStatsReport.txt"] ++ [])).2) ∧
  (∃ rest,
     ProphetComparison2.parse_message_stats_file Examples.decimal_float Examples.report_fs
       "/d/Prophet100_MessageStatsReport.txt"
     = (None, ["Warning: Could not " +:+ rest])) ∧
  (ProphetComparison2.locate_all Examples.decimal_float Examples.report_fs "/d"
     (["HaggleProphet100_MessageStatsReport.txt"]
        ++ "Prophet100_MessageStatsReport.txt" :: [])).1
  = (ProphetComparison2.locate_all Examples.decimal_float Examples.report_fs "/d"
       (["HaggleProphet100_MessageStatsReport.txt"] ++ [])).1 ∧
  (ProphetComparison2.main_with Examples.decimal_float Examples.report_fs "/d"
     (["HaggleProphet100_MessageStatsReport.txt"]
        ++ "Prophet100_MessageStatsReport.txt" :: [])).2
  = (ProphetComparison2.main_with Examples.decimal_float Examples.report_fs "/d"
       (["HaggleProphet100_MessageStatsReport.txt"] ++ [])).2.
Proof.
  split; [reflexivity|]. split; [reflexivity|]. split; [|split].
  - exact (proj2 (proj1 unrecognised_file_is_skipped
                    Examples.decimal_float Examples.report_fs
                    "./notes_MessageStatsReport.txt" eq_refl)
             ["./prophettuned_scenario1_MessageStatsReport.txt"] []).
  - exact (proj1 (proj2 unrecognised_file_is_skipped
                    Examples.decimal_float Examples.report_fs
                    "/d/Prophet100_MessageStatsReport.txt"
                    (or_introl (ex_intro _ _ eq_refl)))).
  - exact (proj2 (proj2 unrecognised_file_is_skipped
                    Examples.decimal_float Examples.report_fs
                    "/d/Prophet100_MessageStatsReport.txt"
                    (or_introl (ex_intro _ _ eq_refl)))
             "/d" ["HaggleProphet100_MessageStatsReport.txt"]
             "Prophet100_MessageStatsReport.txt" [] eq_refl).
Defined.

(** ** Runs that parse nothing *)

(** C5 fails in the first script: with one file whose name is recognised
    and whose lines hold no metric, nothing is parsed ([data] holds no
    value), yet the script does not stop at its check of [data]: it draws
    the six axes with the single value NaN.  The other cases of the claim
    hold: an empty glob result ends the first script with its message, and
    the second script, given a file with the same content, ends with its
    message that no data was parsed. *)
Theorem no_metrics_parsed_still_plots :
  let glob_result := ["./prophettuned_scenario7_MessageStatsReport.txt"] in
  let run := ProphetComparison.main Examples.decimal_float Examples.report_fs glob_result in
  (∀ p sc k,
     lookup3 (ProphetComparison.parse_all Examples.decimal_float Examples.report_fs
                glob_result).1 p sc k = None) ∧
  (∃ fig,
     run.2 = ProphetComparison.Plotted fig ∧
     ProphetComparison.protocols fig = ["Prophet"] ∧
     ProphetComparison.scenarios fig = [7] ∧
     ProphetComparison.axes fig
     = (λ m, {| ProphetComparison.metric := m;
                ProphetComparison.lines :=
                  [{| ProphetComparison.label := "Prophet";
                      ProphetComparison.xs := [7];
                      ProphetComparison.ys := [nan] |}];
                ProphetComparison.xticks := [7] |}) <$> metric_keys) ∧
  (∀ py_float fs,
     ProphetComparison.main py_float fs []
     = (["Error: No files found matching './*_MessageStatsReport.txt'.";
         "Please check the DATA_DIRECTORY and FILE_PATTERN variables."],
        ProphetComparison.Exited)) ∧
  ProphetComparison2.main_with Examples.decimal_float Examples.report_fs "/d"
    ["HaggleProphet500_MessageStatsReport.txt"]
  = (["Script is running from: /d"; "Looking for data files...";
      "Processing file: /d/HaggleProphet500_MessageStatsReport.txt";
      "Warning: No relevant metrics found in HaggleProphet500_MessageStatsReport.txt";
      "No data successfully parsed. Exiting."],
     ProphetComparison2.Exited).
Proof.
  cbv zeta. split_and!.
  - intros p sc k.
    assert (Hdata :
      (ProphetComparison.parse_all Examples.decimal_float Examples.report_fs
         ["./prophettuned_scenario7_MessageStatsReport.txt"]).1
      = {["Prophet" := {[7 := ∅]}]}) by (vm_compute; reflexivity).
    rewrite Hdata. unfold lookup3.
    destruct (decide (p = "Prophet")) as [->|];
      [|by rewrite lookup_singleton_ne].
    rewrite lookup_singleton_eq. simpl.
    destruct (decide (sc = 7)) as [->|]; [|by rewrite lookup_singleton_ne].
    by rewrite lookup_singleton_eq.
  - eexists. split; [vm_compute; reflexivity|]. by split_and!.
  - done.
  - vm_compute. reflexivity.
Qed.

(** ** The files handed to the parser *)

Section LocatorFacts.

#[local] Arguments String.append !_ _ / : assert.

Lemma compare_app_prefix (p a b : string) :
  String.compare (p +:+ a) (p +:+ b) = String.compare a b.
Proof.
  induction p as [|c p IH]; simpl; [done|].
  assert (Ascii.compare c c = Eq) as -> by (unfold Ascii.compare; apply N.compare_refl).
  done.
Qed.

Lemma le_app_prefix (p a b : string) : (a ≤ b)%string → (p +:+ a ≤ p +:+ b)%string.
Proof. unfold String.le, String.leb. by rewrite compare_app_prefix. Qed.

Lemma StronglySorted_filter {A} (R : relation A) (P : A → Prop) `{∀ x, Decision (P x)}
    (l : list A) :
  StronglySorted R l → StronglySorted R (filter P l).
Proof.
  induction 1 as [|x l Hl IH Hx]; [constructor|].
  rewrite filter_cons. case_decide; [|done].
  constructor; [done|]. apply Forall_forall. intros y Hy.
  apply list_elem_of_filter in Hy as [_ Hy]. revert y Hy. by apply Forall_forall.
Qed.

(** A relative entry is resolved by putting one fixed text in front. *)
Lemma resolve_relative script_dir :
  ∃ prefix, ∀ e, Py.isabs e = false →
    ProphetComparison2.resolve script_dir e = prefix +:+ e.
Proof.
  exists (if String.eqb script_dir "" || Py.ends_with_slash script_dir
          then script_dir else script_dir +:+ "/").
  intros e He. unfold ProphetComparison2.resolve, Py.path_join. rewrite He.
  destruct (_ || _); [done|]. by rewrite string_app_assoc.
Qed.

Variable py_float : string → option float.
Variable fs : string → Fs.file_state.

Lemma locate_all_resolved script_dir data_files :
  (ProphetComparison2.locate_all py_float fs script_dir data_files).1
  = omap (λ filepath, (ProphetComparison2.parse_message_stats_file py_float fs filepath).1)
         (resolved_files fs script_dir data_files).
Proof.
  rewrite locate_all_items. unfold resolved_files.
  induction data_files as [|e l IH]; [done|].
  cbn [omap list_omap fmap list_fmap]. rewrite filter_cons. unfold parsed_item at 1.
  destruct (Fs.exists_ (fs _)) eqn:He.
  - rewrite decide_True by done. cbn [omap list_omap]. by rewrite IH.
  - rewrite decide_False by done. apply IH.
Qed.

(** The script's own list gives a sorted list of distinct paths. *)
Lemma shipped_files_sorted script_dir :
  Sorted (≤)%string (resolved_files fs script_dir ProphetComparison2.DATA_FILES) ∧
  NoDup (resolved_files fs script_dir ProphetComparison2.DATA_FILES).
Proof.
  destruct (resolve_relative script_dir) as [prefix Hres].
  assert (Heq : ProphetComparison2.resolve script_dir <$> ProphetComparison2.DATA_FILES
                = (λ e, prefix +:+ e) <$> ProphetComparison2.DATA_FILES).
  { apply Forall_fmap_ext_1, Forall_forall. intros e He. apply Hres.
    revert e He. apply Forall_forall. compute_done. }
  unfold resolved_files. rewrite Heq. split.
  - apply StronglySorted_Sorted, StronglySorted_filter, Sorted_StronglySorted; [apply _|].
    apply (Sorted_fmap _ (≤)%string (≤)%string); [intros ??; apply le_app_prefix|].
    compute_done.
  - apply NoDup_filter, NoDup_fmap_2; [apply _|]. compute_done.
Qed.

End LocatorFacts.

(** C4, as stated, fails for the explicit file list of the second script:
    a list that names a file twice and is not in order is handed to the
    parser as it is, entry by entry. *)
Lemma listed_files_kept_as_listed :
  let data_files := ["RealityProphet100_MessageStatsReport.txt";
                     "HaggleProphet100_MessageStatsReport.txt";
                     "RealityProphet100_MessageStatsReport.txt"] in
  resolved_files Examples.report_fs "/d" data_files
  = ["/d/RealityProphet100_MessageStatsReport.txt";
     "/d/HaggleProphet100_MessageStatsReport.txt";
     "/d/RealityProphet100_MessageStatsReport.txt"] ∧
  ¬ NoDup (resolved_files Examples.report_fs "/d" data_files) ∧
  ¬ Sorted (≤)%string (resolved_files Examples.report_fs "/d" data_files) ∧
  ProphetComparison2.prophet_type
    <$> (ProphetComparison2.locate_all Examples.decimal_float Examples.report_fs
           "/d" data_files).1
  = ["Reality Prophet"; "Haggle Prophet"; "Reality Prophet"].
Proof.
  cbv zeta. split_and!; [reflexivity | compute_done | compute_done | reflexivity].
Qed.

(** C4 (amended): the first script processes the glob result sorted
    ascending, a permutation of it (so free of duplicates when the glob
    result is), and skips a file it cannot open with a message.  The second
    script hands to its parser the resolved entries of its list that exist,
    in list order and with repetitions kept, and skips a missing entry with
    a message; for the script's own [DATA_FILES] that list is sorted and
    free of duplicates. *)
Theorem files_handed_to_the_parser :
  (∀ (py_float : string → option float) (fs : string → Fs.file_state)
     (glob_result : list string),
     let report_files := merge_sort (≤)%string glob_result in
     ProphetComparison.parse_all py_float fs glob_result
     = foldl (ProphetComparison.process_file py_float fs)
         (∅, ["Found " +:+ pretty (length glob_result) +:+ " report files to process:"])
         report_files ∧
     Sorted (≤)%string report_files ∧
     report_files ≡ₚ glob_result ∧
     (NoDup glob_result → NoDup report_files)) ∧
  (∀ (py_float : string → option float) (fs : string → Fs.file_state)
     (f p : string) (sc : Z) data out,
     ProphetComparison.entry_of (Py.basename f) = Some (p, sc) →
     fs f = Fs.Absent →
     ProphetComparison.process_file py_float fs (data, out) f
     = (ProphetComparison.init_entry data p sc,
        (out ++ ["  - Processing: " +:+ Py.basename f])
          ++ ["    Error reading file " +:+ f
                +:+ ": [Errno 2] No such file or directory: "
                +:+ Py.repr f +:+ ". Skipping this file."])) ∧
  (∀ (py_float : string → option float) (fs : string → Fs.file_state)
     (script_dir : string) (data_files : list string),
     (ProphetComparison2.locate_all py_float fs script_dir data_files).1
     = omap (λ filepath,
               (ProphetComparison2.parse_message_stats_file py_float fs filepath).1)
            (resolved_files fs script_dir data_files) ∧
     resolved_files fs script_dir data_files
       `sublist_of` (ProphetComparison2.resolve script_dir <$> data_files) ∧
     ∀ filepath,
       filepath ∈ resolved_files fs script_dir data_files ↔
       Fs.exists_ (fs filepath) = true ∧
       filepath ∈ ProphetComparison2.resolve script_dir <$> data_files) ∧
  (∀ (py_float : string → option float) (fs : string → Fs.file_state)
     (script_dir file_entry : string) all_parsed_data out,
     Fs.exists_ (fs (ProphetComparison2.resolve script_dir file_entry)) = false →
     ProphetComparison2.locate_and_parse py_float fs script_dir
       (all_parsed_data, out) file_entry
     = (all_parsed_data,
        out ++ ["File '" +:+ file_entry +:+ "' (resolved to '"
                  +:+ ProphetComparison2.resolve script_dir file_entry
                  +:+ "') not found. Skipping."])) ∧
  (∀ (fs : string → Fs.file_state) (script_dir : string),
     Sorted (≤)%string (resolved_files fs script_dir ProphetComparison2.DATA_FILES) ∧
     NoDup (resolved_files fs script_dir ProphetComparison2.DATA_FILES)).
Proof.
  split_and!.
  - intros py_float fs glob_result report_files. split_and!.
    + done.
    + apply Sorted_merge_sort, _.
    + apply merge_sort_Permutation.
    + intros H. unfold report_files. by rewrite merge_sort_Permutation.
  - intros py_float fs f p sc data out Hf Hfs.
    unfold ProphetComparison.process_file. by rewrite Hf, Hfs.
  - intros py_float fs script_dir data_files. split_and!.
    + apply locate_all_resolved.
    + apply sublist_filter.
    + intros filepath. unfold resolved_files. by rewrite list_elem_of_filter.
  - intros py_float fs script_dir file_entry all_parsed_data out H.
    unfold ProphetComparison2.locate_and_parse. by rewrite H.
  - intros fs script_dir. apply shipped_files_sorted.
Qed.

(** A glob result out of order, a recognised file that is gone when opened,
    and a missing entry of the file list. *)
Lemma files_handed_to_the_parser_witness :
  (NoDup ["./b_MessageStatsReport.txt"; "./a_MessageStatsReport.txt"] →
   NoDup (merge_sort (≤)%string
            ["./b_MessageStatsReport.txt"; "./a_MessageStatsReport.txt"])) ∧
  ProphetComparison.process_file Examples.decimal_float Examples.report_fs (∅, [])
    "./prophettuned_scenario9_MessageStatsReport.txt"
  = (ProphetComparison.init_entry ∅ "Prophet" 9,
     ([] ++ ["  - Processing: prophettuned_scenario9_MessageStatsReport.txt"])
       ++ ["    Error reading file ./prophettuned_scenario9_MessageStatsReport.txt: [Errno 2] No such file or directory: './prophettuned_scenario9_MessageStatsReport.txt'. Skipping this file."]) ∧
  ProphetComparison2.locate_and_parse Examples.decimal_float Examples.report_fs "/d"
    ([], []) "HaggleRandomProphet100_MessageStatsReport.txt"
  = ([], [] ++ ["File 'HaggleRandomProphet100_MessageStatsReport.txt' (resolved to '/d/HaggleRandomProphet100_MessageStatsReport.txt') not found. Skipping."]).
Proof.
  split_and!.
  - exact (proj2 (proj2 (proj2 (proj1 files_handed_to_the_parser
             Examples.decimal_float Examples.report_fs
             ["./b_MessageStatsReport.txt"; "./a_MessageStatsReport.txt"])))).
  - exact (proj1 (proj2 files_handed_to_the_parser)
             Examples.decimal_float Examples.report_fs
             "./prophettuned_scenario9_MessageStatsReport.txt" "Prophet" 9 ∅ []
             eq_refl eq_refl).
  - exact (proj1 (proj2 (proj2 (proj2 files_handed_to_the_parser)))
             Examples.decimal_float Examples.report_fs "/d"
             "HaggleRandomProphet100_MessageStatsReport.txt" [] [] eq_refl).
Defined.

(** ** The x-axis of the first comparison script *)

Section PrepareFacts.

Import ProphetComparison.

Variable data : data_t.

Lemma add_values_spec proto metric_key scenarios vals ws :
  ∃ ws',
    foldl (add_value data proto metric_key) (vals, ws) scenarios
    = (vals ++ plotted_values data proto metric_key scenarios, ws') ∧
    (∀ w, w ∈ ws → w ∈ ws') ∧
    (∀ w, w ∈ ws' →
          w ∈ ws ∨ ∃ sc, sc ∈ scenarios ∧
                         F64.isnan (lookup_value data proto sc metric_key) = true ∧
                         w = missing_warning proto sc metric_key) ∧
    (∀ sc, sc ∈ scenarios →
           F64.isnan (lookup_value data proto sc metric_key) = true →
           missing_warning proto sc metric_key ∈ ws').
Proof.
  revert vals ws. induction scenarios as [|sc scenarios IH]; intros vals ws.
  { exists ws. simpl. rewrite app_nil_r. split_and!; [done|done|by left|].
    intros sc Hsc. by apply elem_of_nil in Hsc. }
  cbn [foldl]. unfold add_value at 2.
  set (ws1 := if F64.isnan (lookup_value data proto sc metric_key)
              then if bool_decide (missing_warning proto sc metric_key ∈ ws) then ws
                   else ws ++ [missing_warning proto sc metric_key]
              else ws).
  assert (H1 : ∀ w, w ∈ ws → w ∈ ws1).
  { intros w Hw. unfold ws1. repeat case_match; try done. apply elem_of_app. by left. }
  assert (H2 : ∀ w, w ∈ ws1 →
             w ∈ ws ∨ (F64.isnan (lookup_value data proto sc metric_key) = true ∧
                       w = missing_warning proto sc metric_key)).
  { intros w. unfold ws1. repeat case_match; try (by left).
    rewrite elem_of_app, list_elem_of_singleton. intros [?| ->]; [by left|by right]. }
  assert (H3 : F64.isnan (lookup_value data proto sc metric_key) = true →
               missing_warning proto sc metric_key ∈ ws1).
  { intros Hnan. unfold ws1. rewrite Hnan. case_bool_decide; [done|].
    apply elem_of_app. right. constructor. }
  destruct (IH (vals ++ [lookup_value data proto sc metric_key]) ws1)
    as (ws' & -> & Hsub & Hfrom & Hall).
  exists ws'. split_and!.
  - unfold plotted_values. cbn [fmap list_fmap]. by rewrite <-(assoc_L (++)).
  - auto.
  - intros w Hw. destruct (Hfrom w Hw) as [Hw1|(sc' & Hsc' & Hnan & ->)].
    + destruct (H2 w Hw1) as [?|[Hnan ->]]; [by left|].
      right. exists sc. split_and!; [by left|done..].
    + right. exists sc'. split_and!; [by right|done..].
  - intros sc' Hsc' Hnan. apply elem_of_cons in Hsc' as [->|Hsc']; auto.
Qed.

Lemma add_metrics_spec proto scenarios ms pd ws :
  ∃ pd' ws',
    foldl (add_metric data proto scenarios) (pd, ws) ms = (pd', ws') ∧
    (∀ proto', proto' ≠ proto → pd' !! proto' = pd !! proto') ∧
    (∀ m, m ∈ ms →
          (pd' !!! proto) !! m.1.1 = Some (plotted_values data proto m.1.1 scenarios)) ∧
    (∀ w, w ∈ ws → w ∈ ws') ∧
    (∀ w, w ∈ ws' →
          w ∈ ws ∨ ∃ m sc, m ∈ ms ∧ sc ∈ scenarios ∧
                           F64.isnan (lookup_value data proto sc m.1.1) = true ∧
                           w = missing_warning proto sc m.1.1) ∧
    (∀ m sc, m ∈ ms → sc ∈ scenarios →
             F64.isnan (lookup_value data proto sc m.1.1) = true →
             missing_warning proto sc m.1.1 ∈ ws').
Proof.
  induction ms as [|m ms IH] using rev_ind.
  { exists pd, ws. split_and!; [done|done| |done|by left|].
    - intros m Hm. by apply elem_of_nil in Hm.
    - intros m sc Hm. by apply elem_of_nil in Hm. }
  destruct IH as (pd1 & ws1 & Hfold & Hother & Hvals & Hsub & Hfrom & Hall).
  rewrite foldl_app, Hfold. cbn [foldl]. unfold add_metric.
  destruct m as [[k label] unit]. cbn [fst snd] in *.
  destruct (add_values_spec proto k scenarios [] ws1) as (ws' & -> & Hsub' & Hfrom' & Hall').
  eexists _, ws'. split; [reflexivity|]. split_and!.
  - intros proto' Hne. rewrite lookup_insert_ne by done. by apply Hother.
  - intros m Hm. rewrite lookup_total_insert_eq.
    destruct (decide (m.1.1 = k)) as [->|Hk]; [by rewrite lookup_insert_eq|].
    rewrite lookup_insert_ne by done. apply Hvals.
    apply elem_of_app in Hm as [Hm|Hm]; [done|].
    apply list_elem_of_singleton in Hm. by subst m.
  - auto.
  - intros w Hw. destruct (Hfrom' w Hw) as [Hw1|(sc & Hsc & Hnan & ->)].
    + destruct (Hfrom w Hw1) as [?|(m & sc & Hm & Hsc & Hnan & ->)]; [by left|].
      right. exists m, sc. split_and!; [apply elem_of_app; by left|done..].
    + right. exists (k, label, unit), sc.
      split_and!; [apply elem_of_app; right; constructor|done..].
  - intros m sc Hm Hsc Hnan. apply elem_of_app in Hm as [Hm|Hm].
    + apply Hsub'. by apply (Hall m sc).
    + apply list_elem_of_singleton in Hm. subst m. by apply Hall'.
Qed.

Lemma metric_keys_plotted mk :
  mk ∈ metric_keys ↔ ∃ m, m ∈ metrics_to_plot ∧ m.1.1 = mk.
Proof.
  change metric_keys with ((λ m : string * string * string, m.1.1) <$> metrics_to_plot).
  rewrite list_elem_of_fmap. split.
  - intros (m & -> & Hm). by exists m.
  - intros (m & Hm & <-). by exists m.
Qed.

Lemma prepare_spec protocols scenarios :
  ∃ plot_data warnings,
    prepare data protocols scenarios = (plot_data, warnings) ∧
    (∀ proto mk, proto ∈ protocols → mk ∈ metric_keys →
       (plot_data !!! proto) !! mk = Some (plotted_values data proto mk scenarios)) ∧
    (∀ w, w ∈ warnings ↔ missing_data_warning data protocols scenarios w).
Proof.
  unfold prepare. induction protocols as [|p protocols IH] using rev_ind.
  { exists ∅, []. split_and!; [done| |].
    - intros proto mk H. by apply elem_of_nil in H.
    - intros w. split; [intros H; by apply elem_of_nil in H|].
      intros (proto & ? & ? & H & _). by apply elem_of_nil in H. }
  destruct IH as (pd1 & ws1 & Hfold & Hvals & Hws).
  rewrite foldl_app, Hfold. cbn [foldl]. unfold add_protocol.
  destruct (add_metrics_spec p scenarios metrics_to_plot (<[p:=∅]> pd1) ws1)
    as (pd' & ws' & -> & Hother & Hvals' & Hsub & Hfrom & Hall).
  exists pd', ws'. split; [done|]. split.
  - intros proto mk Hproto Hmk.
    destruct (decide (proto = p)) as [->|Hne].
    + apply metric_keys_plotted in Hmk as (m & Hm & <-). by apply Hvals'.
    + rewrite lookup_total_alt, (Hother proto Hne), lookup_insert_ne by done.
      rewrite <-lookup_total_alt. apply Hvals; [|done].
      apply elem_of_app in Hproto as [?|Hp]; [done|].
      apply list_elem_of_singleton in Hp. by subst.
  - intros w. split.
    + intros Hw. destruct (Hfrom w Hw) as [Hw1|(m & sc & Hm & Hsc & Hnan & ->)].
      * apply Hws in Hw1 as (proto & sc & mk & Hproto & ?).
        exists proto, sc, mk. split; [apply elem_of_app; by left|done].
      * exists p, sc, m.1.1. split_and!; [apply elem_of_app; right; constructor|done| |done..].
        apply metric_keys_plotted. by exists m.
    + intros (proto & sc & mk & Hproto & Hsc & Hmk & Hnan & ->).
      apply elem_of_app in Hproto as [Hproto|Hp].
      * apply Hsub, Hws. by exists proto, sc, mk.
      * apply list_elem_of_singleton in Hp. subst proto.
        apply metric_keys_plotted in Hmk as (m & Hm & <-). by apply Hall.
Qed.

End PrepareFacts.

Lemma elem_of_keys `{Countable K} {V} (m : gmap K V) (k : K) :
  k ∈ (map_to_list m).*1 ↔ is_Some (m !! k).
Proof.
  rewrite list_elem_of_fmap. split.
  - intros ([k' v] & -> & Hkv). apply elem_of_map_to_list in Hkv. by exists v.
  - intros [v Hv]. exists (k, v). split; [done|]. by apply elem_of_map_to_list.
Qed.

(** What a run of the plotting phase that draws a figure went through. *)
Lemma plot_plotted data out fig :
  ProphetComparison.plot data = (out, ProphetComparison.Plotted fig) →
  ∃ p0 rest warnings,
    merge_sort (≤)%string (map_to_list data).*1 = p0 :: rest ∧
    ProphetComparison.protocols fig = p0 :: rest ∧
    ProphetComparison.scenarios fig = merge_sort Z.le (map_to_list (data !!! p0)).*1 ∧
    ProphetComparison.prepare data (p0 :: rest) (ProphetComparison.scenarios fig)
    = (ProphetComparison.plot_data fig, warnings) ∧
    ProphetComparison.axes fig
    = ProphetComparison.draw (p0 :: rest) (ProphetComparison.scenarios fig)
        (ProphetComparison.plot_data fig) ∧
    out = [String Py.LF ("Protocols found: " +:+ Py.repr_list (p0 :: rest));
           "Scenarios found: ["
             +:+ Py.join ", " (pretty <$> ProphetComparison.scenarios fig) +:+ "]"]
          ++ match warnings with
             | [] => []
             | _ => [String Py.LF "--- Data Warnings ---"] ++ warnings
                      ++ ["NaN values will be used in plots where data is missing.";
                          String.append "---------------------" (String Py.LF EmptyString)]
             end.
Proof.
  unfold ProphetComparison.plot. case_bool_decide; [done|].
  destruct (merge_sort _ (map_to_list data).*1) as [|p0 rest]; [done|].
  destruct ((map_to_list (data !!! p0)).*1) as [|sc0 scs] eqn:Hscs; [done|].
  destruct (ProphetComparison.prepare _ _ _) as [plot_data warnings] eqn:Hprep.
  intros Heq. exists p0, rest, warnings.
  assert (Hfig : fig = {| ProphetComparison.protocols := p0 :: rest;
                          ProphetComparison.scenarios := merge_sort Z.le (sc0 :: scs);
                          ProphetComparison.plot_data := plot_data;
                          ProphetComparison.axes :=
                            ProphetComparison.draw (p0 :: rest)
                              (merge_sort Z.le (sc0 :: scs)) plot_data |})
    by congruence.
  assert (Hout : out = match warnings with
                       | [] => _
                       | _ => _
                       end) by (symmetry; exact (f_equal fst Heq)).
  subst fig. cbn [ProphetComparison.protocols ProphetComparison.scenarios
                   ProphetComparison.plot_data ProphetComparison.axes].
  split_and!; [done|done|by rewrite Hscs|done|done|].
  subst out. destruct warnings; [by rewrite app_nil_r|done].
Qed.

Lemma main_plotted py_float fs glob_result out fig :
  ProphetComparison.main py_float fs glob_result = (out, ProphetComparison.Plotted fig) →
  ∃ out',
    ProphetComparison.plot (ProphetComparison.parse_all py_float fs glob_result).1
    = (out', ProphetComparison.Plotted fig) ∧
    out = (ProphetComparison.parse_all py_float fs glob_result).2 ++ out'.
Proof.
  unfold ProphetComparison.main. destruct glob_result as [|f l]; [done|].
  destruct (ProphetComparison.parse_all _ _ _) as [data printed]. simpl.
  destruct (ProphetComparison.plot data) as [out' result]. intros Heq.
  exists out'. split; congruence.
Qed.





(** ** Reshaping in the second comparison script *)

Section ReshapeFacts.

Import ProphetComparison2.

Implicit Types pd : plotting_t.

Lemma lookup2_append_point pd pt mk point pt' mk' :
  lookup2 (append_point pd pt mk point) pt' mk'
  = if decide (pt' = pt ∧ mk' = mk) then Some (default [] (lookup2 pd pt mk) ++ [point])
    else lookup2 pd pt' mk'.
Proof.
  unfold lookup2, append_point.
  destruct (decide (pt' = pt)) as [->|Hpt].
  2:{ rewrite lookup_total_insert_ne by done. rewrite decide_False; [done|]. by intros []. }
  rewrite lookup_total_insert_eq.
  destruct (decide (mk' = mk)) as [->|Hmk].
  - rewrite lookup_insert_eq, decide_True by done. by rewrite (lookup_total_alt (pd !!! pt)).
  - rewrite lookup_insert_ne by done. rewrite decide_False; [done|]. by intros [].
Qed.

Lemma lookup_append_point pd pt mk point pt' :
  is_Some (append_point pd pt mk point !! pt') ↔ pt' = pt ∨ is_Some (pd !! pt').
Proof.
  unfold append_point. destruct (decide (pt' = pt)) as [->|Hpt].
  - rewrite lookup_insert_eq. split; [by left|by eexists].
  - rewrite lookup_insert_ne by done. split; [by right|by intros [|]].
Qed.

(** The points of one item, added one metric after the other. *)
Lemma foldr_append_point pt sc (l : list (string * float)) pd :
  NoDup l.*1 →
  let pd' := foldr (uncurry (λ mk v pd, append_point pd pt mk (sc, v))) pd l in
  (∀ pt', is_Some (pd' !! pt') ↔ (pt' = pt ∧ l ≠ []) ∨ is_Some (pd !! pt')) ∧
  (∀ pt' mk, pt' ≠ pt → lookup2 pd' pt' mk = lookup2 pd pt' mk) ∧
  (∀ mk, mk ∉ l.*1 → lookup2 pd' pt mk = lookup2 pd pt mk) ∧
  (∀ mk v, (mk, v) ∈ l →
           lookup2 pd' pt mk = Some (default [] (lookup2 pd pt mk) ++ [(sc, v)])).
Proof.
  induction l as [|[mk0 v0] l IH]; intros Hnd; cbn zeta.
  { simpl. split_and!; [|done|done|].
    - intros pt'. split; [by right|]. by intros [[_ ?]|].
    - intros mk v H. by apply elem_of_nil in H. }
  apply NoDup_cons in Hnd as [Hmk0 Hnd].
  destruct (IH Hnd) as (Hdom & Hother & Hfresh & Hin). clear IH.
  cbn [foldr uncurry]. split_and!.
  - intros pt'. rewrite lookup_append_point, Hdom. split.
    + intros [->|[[-> _]|?]]; [by left|by left|by right].
    + intros [[-> _]|?]; [by left|]. right. by right.
  - intros pt' mk Hne. rewrite lookup2_append_point, decide_False by (by intros []).
    by apply Hother.
  - intros mk Hmk. apply not_elem_of_cons in Hmk as [Hne Hmk].
    rewrite lookup2_append_point, decide_False by (by intros []). by apply Hfresh.
  - intros mk v Hmkv. rewrite lookup2_append_point.
    apply elem_of_cons in Hmkv as [Heq|Hmkv].
    + injection Heq as -> ->. rewrite decide_True by done. by rewrite Hfresh.
    + rewrite decide_False.
      * by apply Hin.
      * intros [_ ->]. apply Hmk0. apply list_elem_of_fmap. by exists (mk0, v).
Qed.

(** What one item adds to [plotting_data]. *)
Lemma add_item_spec pd item :
  (∀ pt, is_Some (add_item pd item !! pt)
         ↔ (pt = prophet_type item ∧ metrics item ≠ ∅) ∨ is_Some (pd !! pt)) ∧
  (∀ pt mk,
     lookup2 (add_item pd item) pt mk
     = match (if decide (prophet_type item = pt)
              then (λ v, (scenario_number item, v)) <$> metrics item !! mk
              else None) with
       | Some point => Some (default [] (lookup2 pd pt mk) ++ [point])
       | None => lookup2 pd pt mk
       end).
Proof.
  unfold add_item. rewrite map_fold_foldr.
  destruct (foldr_append_point (prophet_type item) (scenario_number item)
              (map_to_list (metrics item)) pd (NoDup_fst_map_to_list _))
    as (Hdom & Hother & Hfresh & Hin).
  split.
  - intros pt. rewrite Hdom. by rewrite map_to_list_empty_iff.
  - intros pt mk. case_decide as Hpt; [subst pt|by apply Hother].
    destruct (metrics item !! mk) as [v|] eqn:Hv; simpl.
    + apply Hin. by apply elem_of_map_to_list.
    + apply Hfresh. intros Hmk. apply elem_of_keys in Hmk as [v Hv']. congruence.
Qed.

(** What the items add to [plotting_data], taken together. *)
Lemma collect_spec items pd :
  (∀ pt, is_Some (foldl add_item pd items !! pt)
         ↔ is_Some (pd !! pt)
           ∨ ∃ item, item ∈ items ∧ prophet_type item = pt ∧ metrics item ≠ ∅) ∧
  (∀ pt mk,
     lookup2 (foldl add_item pd items) pt mk
     = match points_of items pt mk with
       | [] => lookup2 pd pt mk
       | l => Some (default [] (lookup2 pd pt mk) ++ l)
       end).
Proof.
  revert pd. induction items as [|item items IH]; intros pd.
  { split; [|done]. intros pt. split; [by left|].
    intros [?|(item & H & _)]; [done|]. by apply elem_of_nil in H. }
  cbn [foldl]. destruct (IH (add_item pd item)) as [Hdom Hlook]. clear IH.
  destruct (add_item_spec pd item) as [Hdom1 Hlook1]. split.
  - intros pt. rewrite Hdom, Hdom1. split.
    + intros [[[-> Hne]|?]|(it & Hit & Hpt & Hne)].
      * right. exists item. split_and!; [by left|done..].
      * by left.
      * right. exists it. split_and!; [by right|done..].
    + intros [?|(it & Hit & Hpt & Hne)]; [left; by right|].
      apply elem_of_cons in Hit as [->|Hit].
      * left. left. by split.
      * right. by exists it.
  - intros pt mk. rewrite Hlook, Hlook1. unfold points_of. cbn [omap list_omap].
    fold (points_of items pt mk).
    destruct (if decide (prophet_type item = pt) then _ else None) as [point|]; [|done].
    simpl. destruct (points_of items pt mk) as [|q l]; [done|].
    by rewrite <-(assoc_L (++)).
Qed.

Lemma lookup2_fmap (f : list (Z * float) → list (Z * float)) pd pt mk :
  lookup2 ((λ by_metric : gmap string (list (Z * float)), f <$> by_metric) <$> pd) pt mk
  = f <$> lookup2 pd pt mk.
Proof.
  unfold lookup2. rewrite !lookup_total_alt, lookup_fmap.
  destruct (pd !! pt) as [m|]; simpl; [by rewrite lookup_fmap|reflexivity].
Qed.

Lemma reshape_spec items :
  (∀ pt, is_Some (reshape items !! pt)
         ↔ ∃ item, item ∈ items ∧ prophet_type item = pt ∧ metrics item ≠ ∅) ∧
  (∀ pt mk,
     lookup2 (reshape items) pt mk
     = match points_of items pt mk with
       | [] => None
       | l => Some (sort_by_key l)
       end).
Proof.
  unfold reshape. destruct (collect_spec items ∅) as [Hdom Hlook]. split.
  - intros pt. rewrite lookup_fmap, fmap_is_Some, Hdom, lookup_empty. split.
    + by intros [[? ?]|?].
    + by right.
  - intros pt mk. rewrite lookup2_fmap, Hlook.
    assert (lookup2 ∅ pt mk = None) as -> by reflexivity.
    by destruct (points_of items pt mk).
Qed.

(** Two [plotting_data] with the same prophet types and the same points
    are the same. *)
Lemma plotting_eq pd1 pd2 :
  (∀ pt, is_Some (pd1 !! pt) ↔ is_Some (pd2 !! pt)) →
  (∀ pt mk, lookup2 pd1 pt mk = lookup2 pd2 pt mk) →
  pd1 = pd2.
Proof.
  intros Hdom Hlook. apply map_eq. intros pt.
  specialize (Hdom pt). pose proof (Hlook pt) as Hpt. unfold lookup2 in Hpt.
  rewrite !lookup_total_alt in Hpt.
  destruct (pd1 !! pt) as [m1|], (pd2 !! pt) as [m2|]; simpl in *.
  - f_equal. by apply map_eq.
  - destruct Hdom as [Hdom _]. by destruct Hdom.
  - destruct Hdom as [_ Hdom]. by destruct Hdom.
  - done.
Qed.

End ReshapeFacts.

(** ** The stable sort on the scenario number *)

Section SortByKey.

Import ProphetComparison2.

Lemma insert_by_key_perm x l : insert_by_key x l ≡ₚ x :: l.
Proof.
  induction l as [|y l IH]; simpl; [done|].
  destruct (Z.leb_spec y.1 x.1); [|done]. by rewrite IH, Permutation_swap.
Qed.

Lemma insert_by_key_sorted x l :
  StronglySorted key_le l → StronglySorted key_le (insert_by_key x l).
Proof.
  induction 1 as [|y l Hl IH Hy]; simpl; [by repeat constructor|].
  destruct (Z.leb_spec y.1 x.1) as [Hle|Hlt].
  - constructor; [done|]. rewrite insert_by_key_perm. by constructor.
  - constructor; [by constructor|]. constructor; [unfold key_le; lia|].
    eapply Forall_impl; [exact Hy|]. unfold key_le. intros z. lia.
Qed.

Lemma sort_fold_perm acc l : foldl (λ acc x, insert_by_key x acc) acc l ≡ₚ acc ++ l.
Proof.
  revert acc. induction l as [|x l IH]; intros acc; simpl.
  - by rewrite app_nil_r.
  - rewrite IH, insert_by_key_perm. simpl. apply Permutation_middle.
Qed.

Lemma sort_fold_sorted acc l :
  StronglySorted key_le acc →
  StronglySorted key_le (foldl (λ acc x, insert_by_key x acc) acc l).
Proof.
  revert acc. induction l as [|x l IH]; intros acc Hacc; simpl; [done|].
  by apply IH, insert_by_key_sorted.
Qed.

Lemma sort_by_key_perm l : sort_by_key l ≡ₚ l.
Proof. unfold sort_by_key. by rewrite sort_fold_perm. Qed.

Lemma sort_by_key_sorted l : StronglySorted key_le (sort_by_key l).
Proof. apply sort_fold_sorted. constructor. Qed.

(** The scenario numbers of a sorted series ascend. *)
Lemma sort_by_key_ascending l : Sorted Z.le (sort_by_key l).*1.
Proof.
  apply StronglySorted_Sorted.
  apply (StronglySorted_fmap _ key_le Z.le); [done|]. apply sort_by_key_sorted.
Qed.

Lemma NoDup_fst_eq {A B} (l : list (A * B)) x y :
  NoDup l.*1 → x ∈ l → y ∈ l → x.1 = y.1 → x = y.
Proof.
  induction l as [|z l IH]; intros Hnd Hx Hy Heq; [by apply elem_of_nil in Hx|].
  cbn in Hnd. apply NoDup_cons in Hnd as [Hz Hnd].
  apply elem_of_cons in Hx as [->|Hx], Hy as [->|Hy]; [done| | |by apply IH].
  - destruct Hz. rewrite Heq. by apply list_elem_of_fmap_2.
  - destruct Hz. rewrite <-Heq. by apply list_elem_of_fmap_2.
Qed.

(** With distinct scenario numbers the sorted series depends on the points
    only, not on their order. *)
Lemma sort_by_key_unique l1 l2 :
  l1 ≡ₚ l2 → NoDup l1.*1 → sort_by_key l1 = sort_by_key l2.
Proof.
  intros Hperm Hnd.
  apply (StronglySorted_unique_strong key_le); [|apply sort_by_key_sorted..|].
  - intros x1 x2 Hx1 Hx2 H12 H21.
    rewrite sort_by_key_perm in Hx1. rewrite sort_by_key_perm, <-Hperm in Hx2.
    apply (NoDup_fst_eq l1); [done..|]. unfold key_le in *. lia.
  - by rewrite !sort_by_key_perm.
Qed.

(** The scenario numbers of a sorted series depend on the points only. *)
Lemma sort_by_key_keys l1 l2 :
  l1 ≡ₚ l2 → (sort_by_key l1).*1 = (sort_by_key l2).*1.
Proof.
  intros Hperm. apply (Sorted_unique Z.le); [apply sort_by_key_ascending..|].
  by rewrite !sort_by_key_perm, Hperm.
Qed.

End SortByKey.

(** ** Independence of the order of the files *)

Section OrderFacts.

Import ProphetComparison2.

Lemma points_of_perm items1 items2 pt mk :
  items1 ≡ₚ items2 → points_of items1 pt mk ≡ₚ points_of items2 pt mk.
Proof. intros H. unfold points_of. by rewrite H. Qed.

Lemma points_of_NoDup items pt mk :
  NoDup (item_key <$> items) → NoDup (points_of items pt mk).*1.
Proof.
  induction items as [|item items IH]; [constructor|].
  cbn [fmap list_fmap]. rewrite NoDup_cons. intros [Hnew Hnd].
  unfold points_of. cbn [omap list_omap]. fold (points_of items pt mk).
  case_decide as Hpt; [|by apply IH].
  destruct (metrics item !! mk) as [v|]; simpl; [|by apply IH].
  apply NoDup_cons. split; [|by apply IH].
  intros Hin. apply list_elem_of_fmap in Hin as ([sc v'] & Hsc & Hin). simpl in Hsc.
  apply list_elem_of_omap in Hin as (item' & Hitem' & Hpoint).
  case_decide as Hpt'; [|done].
  destruct (metrics item' !! mk); [|done]. simpl in Hpoint.
  apply Hnew. apply list_elem_of_fmap. exists item'. split; [|done].
  unfold item_key. f_equal; congruence.
Qed.

(** With distinct (prophet type, scenario) pairs the reshaped data depend
    on the items only, not on their order. *)
Lemma reshape_perm items1 items2 :
  items1 ≡ₚ items2 → NoDup (item_key <$> items1) → reshape items1 = reshape items2.
Proof.
  intros Hperm Hnd.
  destruct (reshape_spec items1) as [Hdom1 Hlook1].
  destruct (reshape_spec items2) as [Hdom2 Hlook2].
  apply plotting_eq.
  - intros pt. rewrite Hdom1, Hdom2. by setoid_rewrite Hperm.
  - intros pt mk. rewrite Hlook1, Hlook2.
    pose proof (points_of_perm _ _ pt mk Hperm) as Hpts.
    pose proof (points_of_NoDup _ pt mk Hnd) as Hnd'.
    pose proof (sort_by_key_unique _ _ Hpts Hnd') as Hsort.
    destruct (points_of items1 pt mk) as [|p1 l1], (points_of items2 pt mk) as [|p2 l2].
    + done.
    + by apply Permutation_nil_cons in Hpts.
    + symmetry in Hpts. by apply Permutation_nil_cons in Hpts.
    + by rewrite Hsort.
Qed.

Lemma plot_perm items1 items2 :
  items1 ≡ₚ items2 → NoDup (item_key <$> items1) → plot items1 = plot items2.
Proof.
  intros Hperm Hnd. pose proof (reshape_perm _ _ Hperm Hnd) as Hre.
  unfold plot. destruct items1 as [|a l1], items2 as [|b l2].
  - done.
  - by apply Permutation_nil_cons in Hperm.
  - symmetry in Hperm. by apply Permutation_nil_cons in Hperm.
  - by rewrite Hre.
Qed.

Lemma line_of_reshape items mk pt :
  line_of (reshape items) mk pt
  = match points_of items pt mk with
    | [] => None
    | l => Some {| label := pt; xs := (sort_by_key l).*1; ys := (sort_by_key l).*2 |}
    end.
Proof.
  unfold line_of. destruct (reshape_spec items) as [_ Hlook].
  specialize (Hlook pt mk). unfold lookup2 in Hlook. rewrite Hlook.
  destruct (points_of items pt mk) as [|p0 l0]; [done|].
  pose proof (sort_by_key_perm (p0 :: l0)) as Hperm.
  destruct (sort_by_key (p0 :: l0)) as [|p l]; [|done].
  by apply Permutation_nil_cons in Hperm.
Qed.

Lemma line_shape_perm items1 items2 mk pt :
  items1 ≡ₚ items2 →
  line_shape <$> line_of (reshape items1) mk pt
  = line_shape <$> line_of (reshape items2) mk pt.
Proof.
  intros Hperm. rewrite !line_of_reshape.
  pose proof (points_of_perm _ _ pt mk Hperm) as Hpts.
  pose proof (sort_by_key_keys _ _ Hpts) as Hkeys.
  destruct (points_of items1 pt mk) as [|p1 l1], (points_of items2 pt mk) as [|p2 l2].
  - done.
  - by apply Permutation_nil_cons in Hpts.
  - symmetry in Hpts. by apply Permutation_nil_cons in Hpts.
  - unfold line_shape. simpl. by rewrite Hkeys.
Qed.

Lemma lines_shape_ext (f g : string → option line) (present : list string) :
  (∀ pt, line_shape <$> f pt = line_shape <$> g pt) →
  line_shape <$> omap f present = line_shape <$> omap g present.
Proof.
  intros Hfg. induction present as [|pt present IH]; [done|].
  cbn [omap list_omap]. specialize (Hfg pt).
  destruct (f pt) as [a|], (g pt) as [b|]; try done.
  apply (inj Some) in Hfg. cbn [fmap list_fmap]. f_equal; [done|exact IH].
Qed.

(** A figure's shape is determined by the shapes of its lines. *)
Lemma plot_metric_shape pd1 pd2 present m :
  line_shape <$> omap (line_of pd1 m.1) present
  = line_shape <$> omap (line_of pd2 m.1) present →
  sum_map figure_shape id (plot_metric pd1 present m)
  = sum_map figure_shape id (plot_metric pd2 present m).
Proof.
  destruct m as [mk lbl]. unfold plot_metric. cbn [fst].
  intros Hls.
  assert (Hxs : xs <$> omap (line_of pd1 mk) present
                = xs <$> omap (line_of pd2 mk) present).
  { change xs with (snd ∘ line_shape). by rewrite !list_fmap_compose, Hls. }
  destruct (omap (line_of pd1 mk) present) as [|a l1],
           (omap (line_of pd2 mk) present) as [|b l2]; [done|done|done|].
  unfold figure_shape. cbn [sum_map metric title lines xticks]. by rewrite Hls, Hxs.
Qed.

(** What is shown when no figure is refused: every figure and every
    message, in the order of the metrics. *)
Lemma show_figures_completed rs out figures :
  show_figures rs = (out, figures, true) →
  figures = omap (λ r, match r with inl f => Some f | inr _ => None end) rs ∧
  out = omap (λ r, match r with inl _ => None | inr msg => Some msg end) rs ∧
  Forall (λ fig, ticks_accepted fig = true) figures.
Proof.
  revert out figures. induction rs as [|[fig|msg] rs IH]; intros out figures; cbn [show_figures].
  - intros [= <- <-]. by split_and!.
  - destruct (ticks_accepted fig) eqn:Hok; [|done].
    destruct (show_figures rs) as [[out' figures'] completed'].
    intros [= <- <- ->]. destruct (IH _ _ eq_refl) as (-> & -> & Hall).
    split_and!; [done..|]. by constructor.
  - destruct (show_figures rs) as [[out' figures'] completed'].
    intros [= <- <- ->]. destruct (IH _ _ eq_refl) as (-> & -> & Hall).
    by split_and!.
Qed.

(** What is printed and shown depends on the shapes of the figures only. *)
Lemma show_figures_shape rs1 rs2 :
  sum_map figure_shape id <$> rs1 = sum_map figure_shape id <$> rs2 →
  (show_figures rs1).1.1 = (show_figures rs2).1.1 ∧
  figure_shape <$> (show_figures rs1).1.2 = figure_shape <$> (show_figures rs2).1.2 ∧
  (show_figures rs1).2 = (show_figures rs2).2.
Proof.
  revert rs2. induction rs1 as [|r1 rs1 IH]; intros [|r2 rs2] H; try done.
  cbn [fmap list_fmap] in H. injection H as Hhead Htail.
  specialize (IH _ Htail).
  destruct r1 as [f1|m1], r2 as [f2|m2]; cbn [sum_map] in Hhead; try done;
    cbn [show_figures].
  - assert (Hshape : figure_shape f1 = figure_shape f2) by congruence.
    assert (Hticks : xticks f1 = xticks f2)
      by (unfold figure_shape in Hshape; congruence).
    unfold ticks_accepted. rewrite Hticks. fold (ticks_accepted f2).
    destruct (ticks_accepted f2); [|done].
    destruct (show_figures rs1) as [[o1 g1] c1], (show_figures rs2) as [[o2 g2] c2].
    cbn [fst snd fmap list_fmap] in *. destruct IH as (-> & -> & ->).
    by rewrite Hshape.
  - destruct (show_figures rs1) as [[o1 g1] c1], (show_figures rs2) as [[o2 g2] c2].
    cbn [fst snd id] in *. destruct IH as (-> & -> & ->). by simplify_eq.
Qed.

(** The prophet types present depend on the items only. *)
Lemma present_perm items1 items2 :
  items1 ≡ₚ items2 →
  merge_sort (≤)%string (map_to_list (reshape items1)).*1
  = merge_sort (≤)%string (map_to_list (reshape items2)).*1.
Proof.
  intros Hperm. apply sort_strings_perm.
  apply NoDup_Permutation; [apply NoDup_fst_map_to_list..|].
  intros pt. rewrite !elem_of_keys.
  destruct (reshape_spec items1) as [-> _], (reshape_spec items2) as [-> _].
  by setoid_rewrite Hperm.
Qed.

(** The shape of what is plotted depends on the items only. *)
Lemma plot_shape_perm items1 items2 :
  items1 ≡ₚ items2 → outcome_shape (plot items1).2 = outcome_shape (plot items2).2.
Proof.
  intros Hperm. pose proof (present_perm _ _ Hperm) as Hpresent.
  unfold plot. destruct items1 as [|a l1], items2 as [|b l2].
  - done.
  - by apply Permutation_nil_cons in Hperm.
  - symmetry in Hperm. by apply Permutation_nil_cons in Hperm.
  - rewrite Hpresent.
    destruct (merge_sort _ (map_to_list (reshape (b :: l2))).*1) as [|pt present]; [done|].
    cbv zeta.
    destruct (show_figures_shape
                (plot_metric (reshape (a :: l1)) (pt :: present) <$> METRICS_TO_PLOT)
                (plot_metric (reshape (b :: l2)) (pt :: present) <$> METRICS_TO_PLOT))
      as (Hout & Hfigs & Hdone).
    { rewrite <-!list_fmap_compose. apply list_fmap_ext. intros i m _. cbn [compose].
      apply plot_metric_shape, lines_shape_ext. intros pt'. by apply line_shape_perm. }
    destruct (show_figures _) as [[o1 g1] c1], (show_figures _) as [[o2 g2] c2].
    cbn [fst snd] in *. subst c2. destruct c1; cbn [snd outcome_shape]; by rewrite Hfigs.
Qed.

(** Whatever the order of the files, the prophet types are in ascending
    order, and so are the scenario numbers of every line and the ticks. *)
Lemma plot_ascending items out pd present figures :
  plot items = (out, Plotted pd present figures) →
  Sorted (≤)%string present ∧
  ∀ fig, fig ∈ figures →
    Sorted Z.le (xticks fig) ∧
    ∀ ln, ln ∈ lines fig → label ln ∈ present ∧ Sorted Z.le (xs ln).
Proof.
  unfold plot. destruct items as [|item0 items0]; [done|].
  set (items := item0 :: items0) in *.
  destruct (merge_sort _ (map_to_list (reshape items)).*1) as [|pt0 present0] eqn:Hpresent;
    [done|].
  cbv zeta. destruct (show_figures _) as [[out0 figures0] completed] eqn:Hshow.
  destruct completed; [|done]. intros Heq.
  assert (present = pt0 :: present0) as -> by congruence.
  assert (Hfigs : figures = omap (λ r, match r with inl f => Some f | inr _ => None end)
                    (plot_metric (reshape items) (pt0 :: present0) <$> METRICS_TO_PLOT)).
  { apply show_figures_completed in Hshow as (-> & _). congruence. }
  split.
  - rewrite <-Hpresent. apply Sorted_merge_sort, _.
  - intros fig Hfig. subst figures.
    apply list_elem_of_omap in Hfig as (r & Hr & Hfig). destruct r as [fig'|]; [|done].
    simplify_eq. apply list_elem_of_fmap in Hr as ([mk lbl] & Hplot & _).
    unfold plot_metric in Hplot.
    destruct (omap (line_of (reshape items) mk) (pt0 :: present0)) as [|ln0 lns] eqn:Hlines;
      [done|].
    simplify_eq. cbn [xticks lines]. split; [apply Sorted_merge_sort, _|].
    intros ln Hln. rewrite <-Hlines in Hln.
    apply list_elem_of_omap in Hln as (pt & Hpt & Hline).
    rewrite line_of_reshape in Hline.
    destruct (points_of items pt mk) as [|p l]; [done|].
    cbv zeta in Hline. apply (inj Some) in Hline. subst ln.
    cbn [label xs]. split; [done|]. apply sort_by_key_ascending.
Qed.

End OrderFacts.

Lemma parse_all_perm py_float fs glob_result1 glob_result2 :
  glob_result1 ≡ₚ glob_result2 →
  ProphetComparison.parse_all py_float fs glob_result1
  = ProphetComparison.parse_all py_float fs glob_result2.
Proof.
  intros H. unfold ProphetComparison.parse_all.
  by rewrite (sort_strings_perm _ _ H), (Permutation_length H).
Qed.

Lemma main_perm py_float fs glob_result1 glob_result2 :
  glob_result1 ≡ₚ glob_result2 →
  ProphetComparison.main py_float fs glob_result1
  = ProphetComparison.main py_float fs glob_result2.
Proof.
  intros H. pose proof (parse_all_perm py_float fs _ _ H) as Hparse.
  unfold ProphetComparison.main.
  destruct glob_result1 as [|a l1], glob_result2 as [|b l2].
  - done.
  - by apply Permutation_nil_cons in H.
  - symmetry in H. by apply Permutation_nil_cons in H.
  - by rewrite Hparse.
Qed.

(** C3, as stated, fails for the second script when two files of the list
    give the same prophet type and scenario: the sort on the scenario number
    keeps such points in the order of the files, so the plotted series
    differs between the two orders of the list. *)
Lemma file_order_changes_series :
  let run data_files :=
    (ProphetComparison2.main_with Examples.decimal_float Examples.report_fs "/d"
       data_files).2 in
  let a := "HaggleProphet100_MessageStatsReport.txt" in
  let b := "run2/HaggleProphet100_MessageStatsReport.txt" in
  [a; b] ≡ₚ [b; a] ∧
  first_value (run [a; b]) = Some 0.25%float ∧
  first_value (run [b; a]) = Some 0.125%float ∧
  run [a; b] ≠ run [b; a].
Proof.
  cbv zeta. split_and!; [apply Permutation_swap | reflexivity | reflexivity |].
  intros H. apply (f_equal first_value) in H. vm_compute in H.
  apply (inj Some) in H. float_discriminate H.
Qed.

(** C3 (amended): the first script gives the same output and figure for
    every order of the glob result, with the protocols and the scenario
    numbers ascending.  In the second script the prophet types, the
    scenario numbers of every line and the ticks are ascending, and they
    (the shape of the figures) are the same for every order of the file
    list; the plotted values too are the same for every order when no two
    parsed files have the same prophet type and scenario. *)
Theorem ordering_independent_of_file_order :
  (∀ (py_float : string → option float) (fs : string → Fs.file_state)
     (glob_result1 glob_result2 : list string),
     glob_result1 ≡ₚ glob_result2 →
     ProphetComparison.main py_float fs glob_result1
     = ProphetComparison.main py_float fs glob_result2) ∧
  (∀ (py_float : string → option float) (fs : string → Fs.file_state)
     (glob_result out : list string) (fig : ProphetComparison.figure),
     ProphetComparison.main py_float fs glob_result = (out, ProphetComparison.Plotted fig) →
     Sorted (≤)%string (ProphetComparison.protocols fig) ∧
     Sorted Z.le (ProphetComparison.scenarios fig)) ∧
  (∀ (py_float : string → option float) (fs : string → Fs.file_state)
     (script_dir : string) (data_files out : list string) pd present figures,
     ProphetComparison2.main_with py_float fs script_dir data_files
     = (out, ProphetComparison2.Plotted pd present figures) →
     Sorted (≤)%string present ∧
     ∀ fig, fig ∈ figures →
       Sorted Z.le (ProphetComparison2.xticks fig) ∧
       ∀ ln, ln ∈ ProphetComparison2.lines fig →
         ProphetComparison2.label ln ∈ present ∧ Sorted Z.le (ProphetComparison2.xs ln)) ∧
  (∀ (py_float : string → option float) (fs : string → Fs.file_state)
     (script_dir : string) (data_files1 data_files2 : list string),
     data_files1 ≡ₚ data_files2 →
     outcome_shape (ProphetComparison2.main_with py_float fs script_dir data_files1).2
     = outcome_shape (ProphetComparison2.main_with py_float fs script_dir data_files2).2 ∧
     (NoDup (item_key
               <$> (ProphetComparison2.locate_all py_float fs script_dir data_files1).1) →
      (ProphetComparison2.main_with py_float fs script_dir data_files1).2
      = (ProphetComparison2.main_with py_float fs script_dir data_files2).2)).
Proof.
  split_and!.
  - intros. by apply main_perm.
  - intros py_float fs glob_result out fig Hmain.
    destruct (main_plotted _ _ _ _ _ Hmain) as (out' & Hplot & _).
    destruct (plot_plotted _ _ _ Hplot) as (p0 & rest & warnings & Hsort & -> & -> & _).
    split; [rewrite <-Hsort|]; apply Sorted_merge_sort, _.
  - intros py_float fs script_dir data_files out pd present figures Hmain.
    unfold ProphetComparison2.main_with in Hmain.
    destruct (ProphetComparison2.locate_all _ _ _ _) as [items printed].
    destruct (ProphetComparison2.plot items) as [out' result] eqn:Hplot.
    apply (plot_ascending items out' pd). rewrite Hplot. congruence.
  - intros py_float fs script_dir data_files1 data_files2 Hperm.
    assert (Hitems :
      (ProphetComparison2.locate_all py_float fs script_dir data_files1).1
      ≡ₚ (ProphetComparison2.locate_all py_float fs script_dir data_files2).1).
    { rewrite !locate_all_items. by rewrite Hperm. }
    rewrite !main_with_outcome. split.
    + by apply plot_shape_perm.
    + intros Hnd. by rewrite (plot_perm _ _ Hitems Hnd).
Qed.

(** Two files in both orders, for each script. *)
Lemma ordering_independent_of_file_order_witness :
  ProphetComparison.main Examples.decimal_float Examples.report_fs
    ["./prophettuned_scenario3_MessageStatsReport.txt";
     "./prophetrandomtuned_scenario1_MessageStatsReport.txt"]
  = ProphetComparison.main Examples.decimal_float Examples.report_fs
      ["./prophetrandomtuned_scenario1_MessageStatsReport.txt";
       "./prophettuned_scenario3_MessageStatsReport.txt"] ∧
  NoDup (item_key
           <$> (ProphetComparison2.locate_all Examples.decimal_float Examples.report_fs "/d"
                  ["RealityProphet100_MessageStatsReport.txt";
                   "HaggleProphet100_MessageStatsReport.txt"]).1) ∧
  (ProphetComparison2.main_with Examples.decimal_float Examples.report_fs "/d"
     ["RealityProphet100_MessageStatsReport.txt";
      "HaggleProphet100_MessageStatsReport.txt"]).2
  = (ProphetComparison2.main_with Examples.decimal_float Examples.report_fs "/d"
       ["HaggleProphet100_MessageStatsReport.txt";
        "RealityProphet100_MessageStatsReport.txt"]).2.
Proof.
  assert (Hnd : NoDup (item_key
           <$> (ProphetComparison2.locate_all Examples.decimal_float Examples.report_fs "/d"
                  ["RealityProphet100_MessageStatsReport.txt";
                   "HaggleProphet100_MessageStatsReport.txt"]).1)) by compute_done.
  split; [|split; [exact Hnd|]].
  - apply (proj1 ordering_independent_of_file_order). apply Permutation_swap.
  - apply (proj2 (proj2 (proj2 ordering_independent_of_file_order))
             Examples.decimal_float Examples.report_fs "/d" _ _ (Permutation_swap _ _ _)).
    exact Hnd.
Defined.

(** * Further properties *)

(** ** Texts of digits and pieces of a split *)

Section DigitFacts.

Import Py.

#[local] Arguments String.append !_ _ / : assert.

Lemma isdigit_facts c :
  isdigit c = true →
  isspace c = false ∧ c ≠ "-"%char ∧ c ≠ "+"%char ∧ Ascii.eqb "@" c = false ∧
  0 ≤ digit_val c ≤ 9.
Proof.
  destruct c as [[] [] [] [] [] [] [] []]; vm_compute; intros; try discriminate;
    split_and!; done.
Qed.

Lemma span_digits_app d c r :
  all_digits d = true → isdigit c = false →
  span_digits (d +:+ String c r) = (d, String c r).
Proof.
  intros Hd Hc. induction d as [|x d IH]; simpl in *.
  - by rewrite Hc.
  - apply andb_prop in Hd as [-> Hd]. by rewrite (IH Hd).
Qed.

Lemma span_digits_sound s d r :
  span_digits s = (d, r) → s = d +:+ r ∧ all_digits d = true.
Proof.
  revert d r. induction s as [|c s IH]; intros d r; simpl.
  - by intros [= <- <-].
  - destruct (isdigit c) eqn:Hc.
    + destruct (span_digits s) as [d' r'] eqn:Hs. intros [= <- <-].
      destruct (IH _ _ eq_refl) as [-> Hd]. simpl. by rewrite Hc, Hd.
    + by intros [= <- <-].
Qed.

Lemma digits_to_Z_acc_nonneg acc d :
  0 ≤ acc → all_digits d = true → 0 ≤ digits_to_Z_acc acc d.
Proof.
  revert acc. induction d as [|c d IH]; intros acc Hacc Hd; simpl in *; [done|].
  apply andb_prop in Hd as [Hc Hd]. apply IH; [|done].
  apply isdigit_facts in Hc. lia.
Qed.

Lemma digits_to_Z_nonneg d : all_digits d = true → 0 ≤ digits_to_Z d.
Proof. by apply digits_to_Z_acc_nonneg. Qed.

Lemma digits_no_at d : all_digits d = true → has_char "@" d = false.
Proof.
  induction d as [|c d IH]; [done|]. cbn [has_char all_digits]. intros Hd.
  apply andb_prop in Hd as [Hc Hd]. apply isdigit_facts in Hc as (_ & _ & _ & -> & _).
  auto.
Qed.

Lemma strip_prefix_sound p s r : strip_prefix p s = Some r → s = p +:+ r.
Proof.
  revert s. induction p as [|a p IH]; intros [|b s]; simpl; try done.
  - by intros [= ->].
  - by intros [= ->].
  - destruct (Ascii.eqb_spec a b) as [->|]; [|done]. intros H. by rewrite (IH _ H).
Qed.

Lemma strip_prefix_app p r : strip_prefix p (p +:+ r) = Some r.
Proof.
  induction p as [|a p IH]; simpl; [by destruct r|]. by rewrite Ascii.eqb_refl.
Qed.

Lemma split_no_sep sep s : has_char sep s = false → split sep s = [s].
Proof.
  induction s as [|c s IH]; simpl; [done|].
  rewrite (Ascii.eqb_sym c sep). destruct (Ascii.eqb sep c); [done|].
  intros H. by rewrite (IH H).
Qed.

Lemma split_app sep a b :
  has_char sep a = false → split sep (a +:+ String sep b) = a :: split sep b.
Proof.
  induction a as [|c a IH]; simpl.
  - by rewrite Ascii.eqb_refl.
  - rewrite (Ascii.eqb_sym c sep). destruct (Ascii.eqb sep c); [done|].
    intros H. by rewrite (IH H).
Qed.

End DigitFacts.

(** ** Integer literals *)

Section IntFacts.

Import Py.

#[local] Arguments String.append !_ _ / : assert.

Lemma isdigit_int_facts c :
  isdigit c = true →
  int_space c = false ∧ Ascii.eqb c "-" = false ∧ Ascii.eqb c "+" = false ∧
  Ascii.eqb c "_" = false.
Proof.
  destruct c as [[] [] [] [] [] [] [] []]; vm_compute; intros; try discriminate;
    split_and!; done.
Qed.

Lemma int_lstrip_digits d : all_digits d = true → int_lstrip d = d.
Proof.
  destruct d as [|c d]; [done|]. simpl. intros Hd. apply andb_prop in Hd as [Hc _].
  apply isdigit_int_facts in Hc as [-> _]. done.
Qed.

Lemma int_rstrip_digits d : all_digits d = true → int_rstrip d = d.
Proof.
  induction d as [|c d IH]; [done|]. cbn [all_digits int_rstrip]. intros Hd.
  apply andb_prop in Hd as [Hc Hd]. rewrite (IH Hd).
  apply isdigit_int_facts in Hc as [-> _]. by destruct d.
Qed.

Lemma int_scan_digits acc n prev d :
  all_digits d = true → (d = "" → prev = false) →
  int_scan acc n prev d = Some (digits_to_Z_acc acc d, n + Z.of_nat (String.length d), "").
Proof.
  revert acc n prev. induction d as [|c d IH]; intros acc n prev Hd Hne; simpl in *.
  - rewrite Hne by done. do 3 f_equal. lia.
  - apply andb_prop in Hd as [-> Hd]. rewrite IH by done. do 3 f_equal. lia.
Qed.

(** [int] on a text of digits: the number they write, unless there are too
    many of them. *)
Lemma int_digit_text d :
  digit_text d →
  Py.int d
  = if int_max_str_digits <? Z.of_nat (String.length d)
    then inr (int_too_long (Z.of_nat (String.length d)))
    else inl (digits_to_Z d).
Proof.
  intros [Hne Hd]. unfold Py.int.
  rewrite (int_lstrip_digits d Hd), (int_rstrip_digits d Hd).
  destruct d as [|c d]; [done|].
  assert (Hc : isdigit c = true) by (simpl in Hd; by apply andb_prop in Hd as [? _]).
  apply isdigit_int_facts in Hc as (_ & Hm & Hp & Hu).
  unfold int_sign. rewrite Hm, Hp. unfold int_magnitude. rewrite Hu.
  rewrite (int_scan_digits 0 0 false (String c d)) by done.
  rewrite Z.add_0_l.
  destruct (Z.eqb_spec (Z.of_nat (String.length (String c d))) 0) as [H0|_];
    [simpl in H0; lia|].
  by destruct (int_max_str_digits <? _).
Qed.

(** The two texts of the [ValueError] of [int]. *)
Lemma int_error_forms s e :
  Py.int s = inr e →
  e = int_invalid s ∨ ∃ digits, int_max_str_digits < digits ∧ e = int_too_long digits.
Proof.
  unfold Py.int. destruct (int_sign _) as [negative r].
  destruct (int_magnitude s r) as [a|e'] eqn:Hm; [done|]. intros [= <-].
  unfold int_magnitude in Hm. destruct r as [|c r]; [left; congruence|].
  destruct (Ascii.eqb c "_"); [left; congruence|].
  destruct (int_scan 0 0 false (String c r)) as [[[acc digits] rest]|]; [|left; congruence].
  destruct (digits =? 0); [left; congruence|].
  destruct (Z.ltb_spec int_max_str_digits digits) as [Hlt|_].
  - right. exists digits. split; [done|congruence].
  - destruct rest; [done|left; congruence].
Qed.

End IntFacts.

(** ** Outcomes of the popularity script *)

Section PopularityOutcomes.

Import Popularity.

Variable read_csv : string → csv_result.
Variable to_numeric : list cell → series.
Variable savefig : string → option string.

Lemma time_points_length cols tps : time_points cols = inl tps → length tps = length cols.
Proof.
  revert tps. induction cols as [|c cols IH]; intros tps; simpl.
  - by intros [= <-].
  - destruct (time_point c); [|done]. destruct (time_points cols) as [zs|]; [|done].
    intros [= <-]. simpl. by rewrite (IH zs).
Qed.

Lemma time_points_ok cols : (∃ tps, time_points cols = inl tps) ↔ Forall header_ok cols.
Proof.
  induction cols as [|c cols IH]; simpl.
  - split; [constructor|by eexists].
  - split.
    + intros [tps H]. destruct (time_point c) as [z|] eqn:Hc; [|done].
      destruct (time_points cols) as [zs|]; [|done].
      constructor; [by exists z|]. apply IH. by eexists.
    + intros H. inversion H as [|?? [z Hz] Hrest]; subst.
      apply IH in Hrest as [tps Htps]. rewrite Hz, Htps. by eexists.
Qed.

Lemma time_points_first_error pre col post e :
  Forall header_ok pre → time_point col = inr e → time_points (pre ++ col :: post) = inr e.
Proof.
  intros Hpre Hcol. induction Hpre as [|c pre [z Hz] _ IH]; simpl.
  - by rewrite Hcol.
  - by rewrite Hz, IH.
Qed.

Lemma time_point_no_at col :
  Py.has_char "@" col = false → time_point col = inr "list index out of range".
Proof. intros H. unfold time_point. by rewrite split_no_sep. Qed.

Lemma time_point_at pfx t :
  Py.has_char "@" pfx = false → Py.has_char "@" t = false →
  time_point (pfx +:+ String "@" t) = Py.int t.
Proof. intros Hp Ht. unfold time_point. by rewrite split_app, (split_no_sep _ t). Qed.

Lemma time_point_at_more pfx t r :
  Py.has_char "@" pfx = false → Py.has_char "@" t = false →
  time_point (pfx +:+ String "@" (t +:+ String "@" r)) = Py.int t.
Proof. intros Hp Ht. unfold time_point. by rewrite !split_app. Qed.

Lemma forallb_lookup {A} (f : A → bool) (l : list A) :
  forallb f l = true ↔ ∀ i x, l !! i = Some x → f x = true.
Proof.
  induction l as [|y l IH]; simpl.
  - split; [by intros _ i x|done].
  - rewrite andb_true_iff, IH. split.
    + intros [Hy Hl] [|i] x; simpl; [by intros [= <-]|by apply Hl].
    + intros H. split; [by apply (H 0%nat)|]. intros i x. apply (H (S i)).
Qed.

Lemma forallb_false {A} (f : A → bool) (l : list A) :
  forallb f l = false ↔ ∃ i x, l !! i = Some x ∧ f x = false.
Proof.
  induction l as [|y l IH]; simpl.
  - split; [done|]. by intros (i & x & ? & _).
  - rewrite andb_false_iff, IH. split.
    + intros [Hy|(i & x & Hi & Hx)]; [by exists 0%nat, y|by exists (S i), x].
    + intros ([|i] & x & Hi & Hx); simpl in Hi; [left; congruence|right; by exists i, x].
Qed.

Lemma isnull_all_size s : isnull_all s = false → size s ≠ 0%nat.
Proof. by destruct s as [[|z l]|[|z l]]. Qed.

Lemma window_of_is_Some s :
  is_Some (window_of s)
  ↔ size s ≠ 0%nat ∧ ∀ i d, series_delta s i = Some d → F64.isfinite (fill0 d) = true.
Proof.
  unfold window_of, astype_int. destruct (first s) as [c0|] eqn:Hfirst.
  - assert (size s ≠ 0%nat) as Hsize by (apply first_is_Some; by eexists).
    cbv zeta. destruct (forallb _ _) eqn:Hf.
    + split; [intros _; split; [done|]|by eexists]. intros i d Hd.
      rewrite forallb_lookup in Hf. apply (Hf i). unfold fillna0.
      by rewrite list_lookup_fmap, patched_series_lookup, Hd.
    + split; [by intros [? ?]|]. intros [_ H].
      apply forallb_false in Hf as (i & x & Hi & Hx). unfold fillna0 in Hi.
      rewrite list_lookup_fmap, patched_series_lookup in Hi by done.
      destruct (series_delta s i) as [d|] eqn:Hd; [|done]. simpl in Hi.
      injection Hi as <-. rewrite (H i d Hd) in Hx. done.
  - split; [by intros [? ?]|]. intros [Hsize _]. apply first_is_Some in Hsize as [? ?].
    congruence.
Qed.

Lemma window_of_None s :
  size s ≠ 0%nat →
  window_of s = None
  ↔ ∃ i d, series_delta s i = Some d ∧ F64.isfinite (fill0 d) = false.
Proof.
  intros Hne. split.
  - intros Hnone. destruct (first s) as [c0|] eqn:Hfirst.
    2: { apply first_is_Some in Hne as [? ?]. congruence. }
    unfold window_of, astype_int in Hnone. rewrite Hfirst in Hnone. cbv zeta in Hnone.
    destruct (forallb _ _) eqn:Hf; [done|].
    apply forallb_false in Hf as (i & x & Hi & Hx). unfold fillna0 in Hi.
    rewrite list_lookup_fmap, patched_series_lookup in Hi by done.
    destruct (series_delta s i) as [d|] eqn:Hd; [|done]. simpl in Hi.
    injection Hi as <-. by exists i, d.
  - intros (i & d & Hd & Hx). destruct (window_of s) as [w|] eqn:Hw; [|done].
    assert (is_Some (window_of s)) as Hs by (by eexists).
    apply window_of_is_Some in Hs as [_ Hs]. rewrite (Hs i d Hd) in Hx. done.
Qed.

Lemma loc_length df node : length (loc df node) = occurrences node (index df).
Proof.
  unfold loc, occurrences, index. rewrite length_fmap.
  induction (body df) as [|[l r] b IH]; [done|].
  rewrite fmap_cons, !filter_cons. simpl.
  destruct (decide (label_is node l = true)); simpl; by rewrite IH.
Qed.

Lemma loc_single_in_index df node node_data :
  loc df node = [node_data] → in_index node df = true.
Proof. intros H. apply in_index_loc. by rewrite H. Qed.

(** Whether the division for the axis label overflows. *)
Lemma overflow_false cols tps :
  time_points cols = inl tps →
  default false (hours_overflow <$> interval_seconds tps) = false
  ↔ ∀ a, window_seconds cols = Some a → Z.abs a < hours_limit.
Proof.
  intros Htps. unfold window_seconds. rewrite Htps.
  destruct (interval_seconds tps) as [a|]; simpl; [|by split].
  unfold hours_overflow, hours_limit. split.
  - intros H a' [= <-]. by apply Z.leb_gt.
  - intros H. apply Z.leb_gt. by apply H.
Qed.

Lemma overflow_true cols tps :
  time_points cols = inl tps →
  default false (hours_overflow <$> interval_seconds tps) = true
  ↔ ∃ a, window_seconds cols = Some a ∧ hours_limit ≤ Z.abs a.
Proof.
  intros Htps. unfold window_seconds. rewrite Htps.
  destruct (interval_seconds tps) as [a|]; simpl.
  - unfold hours_overflow, hours_limit. split.
    + intros H. exists a. split; [done|]. by apply Z.leb_le.
    + intros (a' & [= <-] & H). by apply Z.leb_le.
  - split; [done|]. by intros (a & ? & _).
Qed.

(** What a call that returns a chart went through, and what it drew. *)
Lemma chart_inversion filename node out chart :
  plot_node_popularity read_csv to_numeric savefig filename node
    = (out, Returned (Some chart)) →
  ∃ df node_data tps heights,
    read_csv filename = Loaded df ∧ loc df node = [node_data] ∧
    time_points (columns df) = inl tps ∧
    isnull_all (to_numeric node_data) = false ∧
    window_of (to_numeric node_data) = Some heights ∧
    default false (hours_overflow <$> interval_seconds tps) = false ∧
    window_labels chart = (λ i : nat, pretty (i + 1)%nat) <$> seq 0 (length tps) ∧
    window_popularity chart = heights ∧
    output_filename chart = "popularity_plot_" +:+ node +:+ "_3report.png" ∧
    saved chart = bool_decide (savefig (output_filename chart) = None) ∧
    out = [match savefig (output_filename chart) with
           | None => "Plot saved as " +:+ output_filename chart
           | Some e => "Error saving plot to " +:+ output_filename chart +:+ ": " +:+ e
           end].
Proof.
  unfold plot_node_popularity. intros H.
  destruct (read_csv filename) as [| |df]; [done..|].
  destruct (in_index node df); simpl in H; [|done].
  destruct (loc df node) as [|node_data [|]] eqn:Hloc; [done| |done].
  destruct (time_points (columns df)) as [tps|] eqn:Htps; [|done].
  destruct (isnull_all _) eqn:Hnan; [done|].
  destruct (window_of _) as [heights|] eqn:Hw; [|done].
  destruct (default false _) eqn:Hov; [done|].
  exists df, node_data, tps, heights.
  destruct (savefig _) as [e|] eqn:Hs; injection H as <- <-; cbn [window_labels
    window_popularity output_filename saved]; rewrite Hs.
  - rewrite bool_decide_false by done. split_and!; done.
  - rewrite bool_decide_true by done. split_and!; done.
Qed.

Lemma chart_drawn filename node df node_data :
  read_csv filename = Loaded df → loc df node = [node_data] →
  Forall header_ok (columns df) →
  isnull_all (to_numeric node_data) = false →
  is_Some (window_of (to_numeric node_data)) →
  (∀ a, window_seconds (columns df) = Some a → Z.abs a < hours_limit) →
  ∃ out chart,
    plot_node_popularity read_csv to_numeric savefig filename node
    = (out, Returned (Some chart)).
Proof.
  intros Hload Hloc Hcols Hnan [heights Hw] Hov.
  apply time_points_ok in Hcols as [tps Htps].
  apply (overflow_false _ _ Htps) in Hov.
  unfold plot_node_popularity. rewrite Hload.
  rewrite (loc_single_in_index _ _ _ Hloc). simpl. rewrite Hloc, Htps, Hnan, Hw, Hov.
  destruct (savefig _); by eexists _, _.
Qed.

Lemma in_index_false df node : loc df node = [] → in_index node df = false.
Proof.
  intros H. destruct (in_index node df) eqn:Hin; [|done].
  apply in_index_loc in Hin. done.
Qed.

(** When an exception leaves a call, and which. *)
Lemma result_raised filename node exc :
  (plot_node_popularity read_csv to_numeric savefig filename node).2 = Raised exc
  ↔ ∃ df, read_csv filename = Loaded df ∧
      match loc df node with
      | [] => False
      | [node_data] =>
          ∃ tps, time_points (columns df) = inl tps ∧
            isnull_all (to_numeric node_data) = false ∧
            match window_of (to_numeric node_data) with
            | None => exc = "ValueError"
            | Some _ =>
                default false (hours_overflow <$> interval_seconds tps) = true ∧
                exc = "OverflowError"
            end
      | _ => exc = "TypeError"
      end.
Proof.
  unfold plot_node_popularity.
  destruct (read_csv filename) as [| |df] eqn:Hload;
    [split; [done|by intros (? & ? & _)]..|].
  destruct (loc df node) as [|node_data [|]] eqn:Hloc.
  - rewrite (in_index_false _ _ Hloc). simpl. split; [done|].
    intros (? & [= <-] & H). by rewrite Hloc in H.
  - rewrite (loc_single_in_index _ _ _ Hloc). simpl.
    destruct (time_points (columns df)) as [tps|] eqn:Htps.
    2: { split; [done|]. intros (? & [= <-] & H). rewrite Hloc in H.
         destruct H as (? & ? & _). congruence. }
    destruct (isnull_all _) eqn:Hnan.
    { split; [done|]. intros (? & [= <-] & H). rewrite Hloc in H.
      destruct H as (? & _ & ? & _). congruence. }
    destruct (window_of _) as [heights|] eqn:Hw.
    + destruct (default false _) eqn:Hov.
      * simpl. split.
        -- intros [= <-]. exists df. split; [done|]. rewrite Hloc. exists tps.
           rewrite Hw. by split_and!.
        -- intros (? & [= <-] & H). rewrite Hloc in H.
           destruct H as (? & _ & _ & H). rewrite Hw in H. by destruct H as [_ ->].
      * destruct (savefig _); simpl; (split; [done|]).
        all: intros (? & [= <-] & H); rewrite Hloc in H;
          destruct H as (tps' & Htps' & _ & H); rewrite Hw in H;
          destruct H as [H _]; congruence.
    + simpl. split.
      * intros [= <-]. exists df. split; [done|]. rewrite Hloc. exists tps.
        rewrite Hw. by split_and!.
      * intros (? & [= <-] & H). rewrite Hloc in H.
        destruct H as (? & _ & _ & H). rewrite Hw in H. by subst.
  - assert (in_index node df = true) as -> by (apply in_index_loc; by rewrite Hloc).
    simpl. split.
    + intros [= <-]. exists df. split; [done|]. by rewrite Hloc.
    + intros (? & [= <-] & H). rewrite Hloc in H. by subst.
Qed.

Lemma result_raised_silent filename node exc :
  (plot_node_popularity read_csv to_numeric savefig filename node).2 = Raised exc →
  (plot_node_popularity read_csv to_numeric savefig filename node).1 = [].
Proof.
  unfold plot_node_popularity.
  destruct (read_csv filename) as [| |df]; [done..|].
  destruct (in_index node df); simpl; [|done].
  destruct (loc df node) as [|node_data [|]]; [done| |done].
  destruct (time_points (columns df)) as [tps|]; [|done].
  destruct (isnull_all _); [done|].
  destruct (window_of _) as [heights|]; [|done].
  destruct (default false _); [done|]. by destruct (savefig _).
Qed.

End PopularityOutcomes.

(** X1: a call returns a chart (drawn, and handed to savefig) exactly when
    the file loads, exactly one label of the row index is the node id (a
    label that is a number is never the id, which is a str), every column
    header parses to a time point, the row's series holds a value that is
    not NaN, every delta of the series is finite once a NaN delta counts as
    zero, and the number of seconds that is divided by 3600 for the axis
    label is below 3600 * (2^1024 - 2^970) in magnitude. *)
Theorem chart_drawn_iff
    (read_csv : string → Popularity.csv_result)
    (to_numeric : list Popularity.cell → Popularity.series)
    (savefig : string → option string)
    (filename node : string) :
  (∃ out chart,
     Popularity.plot_node_popularity read_csv to_numeric savefig filename node
     = (out, Popularity.Returned (Some chart)))
  ↔ ∃ df node_data,
      read_csv filename = Popularity.Loaded df ∧
      Popularity.loc df node = [node_data] ∧
      Forall header_ok (Popularity.columns df) ∧
      let cumulative := to_numeric node_data in
      Popularity.isnull_all cumulative = false ∧
      (∀ i d, Popularity.series_delta cumulative i = Some d →
              F64.isfinite (Popularity.fill0 d) = true) ∧
      (∀ a, window_seconds (Popularity.columns df) = Some a →
            Z.abs a < 3600 * (2 ^ 1024 - 2 ^ 970)).
Proof.
  split.
  - intros (out & chart & H).
    apply chart_inversion in H
      as (df & node_data & tps & heights & Hload & Hloc & Htps & Hnan & Hw & Hov & _).
    exists df, node_data. cbv zeta. split_and!; [done..| |done| |].
    + apply time_points_ok. by exists tps.
    + apply window_of_is_Some. by exists heights.
    + by apply (overflow_false _ _ Htps).
  - intros (df & node_data & Hload & Hloc & Hcols & Hnum & Hfin & Hov).
    apply (chart_drawn _ _ _ _ _ df node_data); [done..| |done].
    apply window_of_is_Some. split; [|done]. by apply isnull_all_size.
Qed.

(** X2: the chart a call returns has one label per column of the file, the
    decimal numbers from 1 on, and one bar per value of the row's series;
    it is saved under popularity_plot_<node>_3report.png, and the one line
    printed tells whether saving worked. *)
Theorem chart_labels_and_file
    (read_csv : string → Popularity.csv_result)
    (to_numeric : list Popularity.cell → Popularity.series)
    (savefig : string → option string)
    (filename node : string) (out : list string) (chart : Popularity.bar_chart) :
  Popularity.plot_node_popularity read_csv to_numeric savefig filename node
    = (out, Popularity.Returned (Some chart)) →
  ∃ df node_data,
    read_csv filename = Popularity.Loaded df ∧
    Popularity.loc df node = [node_data] ∧
    Popularity.window_labels chart
    = (λ i : nat, pretty (i + 1)%nat) <$> seq 0 (length (Popularity.columns df)) ∧
    length (Popularity.window_popularity chart) = Popularity.size (to_numeric node_data) ∧
    Popularity.output_filename chart = "popularity_plot_" +:+ node +:+ "_3report.png" ∧
    (Popularity.saved chart = true ↔ savefig (Popularity.output_filename chart) = None) ∧
    out = [match savefig (Popularity.output_filename chart) with
           | None => "Plot saved as " +:+ Popularity.output_filename chart
           | Some e =>
               "Error saving plot to " +:+ Popularity.output_filename chart +:+ ": " +:+ e
           end].
Proof.
  intros H.
  apply chart_inversion in H
    as (df & node_data & tps & heights & Hload & Hloc & Htps & _ & Hw & _ & Hl & Hh & Hf
        & Hs & Ho).
  exists df, node_data. split_and!; [done..| | |done| |done].
  - by rewrite Hl, (time_points_length _ _ Htps).
  - by rewrite Hh, (window_of_length _ _ Hw).
  - rewrite Hs. apply bool_decide_eq_true.
Qed.

(** The chart of the row A1 of the example frame: three labels, three bars. *)
Lemma chart_labels_and_file_witness :
  Popularity.plot_node_popularity (Examples.read_frame Examples.fractional_frame)
    Examples.to_numeric Examples.savefig_ok "report.txt" "A1"
  = (["Plot saved as popularity_plot_A1_3report.png"],
     Popularity.Returned (Some MoreExamples.fractional_chart)) ∧
  ∃ df node_data,
    Examples.read_frame Examples.fractional_frame "report.txt" = Popularity.Loaded df ∧
    Popularity.loc df "A1" = [node_data] ∧
    Popularity.window_labels MoreExamples.fractional_chart
    = (λ i : nat, pretty (i + 1)%nat) <$> seq 0 (length (Popularity.columns df)) ∧
    length (Popularity.window_popularity MoreExamples.fractional_chart)
    = Popularity.size (Examples.to_numeric node_data) ∧
    Popularity.output_filename MoreExamples.fractional_chart
    = "popularity_plot_" +:+ "A1" +:+ "_3report.png" ∧
    (Popularity.saved MoreExamples.fractional_chart = true
     ↔ Examples.savefig_ok (Popularity.output_filename MoreExamples.fractional_chart)
       = None) ∧
    ["Plot saved as popularity_plot_A1_3report.png"]
    = [match Examples.savefig_ok (Popularity.output_filename MoreExamples.fractional_chart)
       with
       | None => "Plot saved as " +:+ Popularity.output_filename MoreExamples.fractional_chart
       | Some e =>
           "Error saving plot to "
             +:+ Popularity.output_filename MoreExamples.fractional_chart +:+ ": " +:+ e
       end].
Proof.
  assert (Hrun : Popularity.plot_node_popularity
                   (Examples.read_frame Examples.fractional_frame)
                   Examples.to_numeric Examples.savefig_ok "report.txt" "A1"
                 = (["Plot saved as popularity_plot_A1_3report.png"],
                    Popularity.Returned (Some MoreExamples.fractional_chart)))
    by (vm_compute; reflexivity).
  split; [exact Hrun|].
  exact (chart_labels_and_file _ _ _ _ _ _ _ Hrun).
Defined.

(** X3: an exception leaves a call in three situations only, and nothing
    has been printed then: a TypeError exactly when more than one label of
    the row index of the loaded file is the node id; a ValueError exactly
    when one label is the id, the headers parse, the row's series holds a
    value that is not NaN and some delta is infinite; an OverflowError
    exactly when one label is the id, the headers parse, the series holds a
    value that is not NaN, every delta is finite once NaN counts as zero,
    and the number of seconds divided by 3600 for the axis label is at
    least 3600 * (2^1024 - 2^970) in magnitude, as for the one header Pop@1
    followed by 312 zeros. *)
Theorem exceptions_raised
    (read_csv : string → Popularity.csv_result)
    (to_numeric : list Popularity.cell → Popularity.series)
    (savefig : string → option string)
    (filename node : string) :
  let result :=
    Popularity.plot_node_popularity read_csv to_numeric savefig filename node in
  (result.2 = Popularity.Raised "TypeError"
   ↔ ∃ df, read_csv filename = Popularity.Loaded df ∧
           (1 < occurrences node (Popularity.index df))%nat) ∧
  (result.2 = Popularity.Raised "ValueError"
   ↔ ∃ df node_data,
       read_csv filename = Popularity.Loaded df ∧
       Popularity.loc df node = [node_data] ∧
       Forall header_ok (Popularity.columns df) ∧
       let cumulative := to_numeric node_data in
       Popularity.isnull_all cumulative = false ∧
       ∃ i d, Popularity.series_delta cumulative i = Some d ∧
              F64.isfinite (Popularity.fill0 d) = false) ∧
  (result.2 = Popularity.Raised "OverflowError"
   ↔ ∃ df node_data,
       read_csv filename = Popularity.Loaded df ∧
       Popularity.loc df node = [node_data] ∧
       Forall header_ok (Popularity.columns df) ∧
       let cumulative := to_numeric node_data in
       Popularity.isnull_all cumulative = false ∧
       (∀ i d, Popularity.series_delta cumulative i = Some d →
               F64.isfinite (Popularity.fill0 d) = true) ∧
       ∃ a, window_seconds (Popularity.columns df) = Some a ∧
            3600 * (2 ^ 1024 - 2 ^ 970) ≤ Z.abs a) ∧
  (∀ exc, result.2 = Popularity.Raised exc →
          result.1 = [] ∧
          (exc = "TypeError" ∨ exc = "ValueError" ∨ exc = "OverflowError")) ∧
  Popularity.plot_node_popularity (Examples.read_frame MoreExamples.late_frame)
    Examples.to_numeric Examples.savefig_ok "report.txt" "A1"
  = ([], Popularity.Raised "OverflowError").
Proof.
  cbv zeta. split_and!; [| | | |vm_compute; reflexivity].
  - rewrite result_raised. split.
    + intros (df & Hload & H). exists df. split; [done|].
      rewrite <-loc_length. destruct (Popularity.loc df node) as [|nd [|nd' rest]].
      * done.
      * destruct H as (tps & _ & _ & H). destruct (Popularity.window_of _); [|done].
        by destruct H.
      * simpl. lia.
    + intros (df & Hload & Hocc). exists df. split; [done|].
      rewrite <-loc_length in Hocc.
      destruct (Popularity.loc df node) as [|nd [|nd' rest]]; simpl in Hocc; (done || lia).
  - rewrite result_raised. split.
    + intros (df & Hload & H).
      destruct (Popularity.loc df node) as [|node_data [|nd' rest]] eqn:Hloc; [done| |done].
      destruct H as (tps & Htps & Hnan & H).
      destruct (Popularity.window_of _) eqn:Hw; [by destruct H|].
      exists df, node_data. cbv zeta. split_and!; [done..| |done|].
      * apply time_points_ok. by exists tps.
      * apply window_of_None; [by apply isnull_all_size|done].
    + intros (df & node_data & Hload & Hloc & Hcols & Hnan & Hinf).
      exists df. split; [done|]. rewrite Hloc.
      apply time_points_ok in Hcols as [tps Htps]. exists tps.
      split; [done|]. split; [done|].
      apply window_of_None in Hinf as ->; [done|by apply isnull_all_size].
  - rewrite result_raised. split.
    + intros (df & Hload & H).
      destruct (Popularity.loc df node) as [|node_data [|nd' rest]] eqn:Hloc; [done| |done].
      destruct H as (tps & Htps & Hnan & H).
      destruct (Popularity.window_of _) as [heights|] eqn:Hw; [|done].
      destruct H as [Hov _].
      exists df, node_data. cbv zeta. split_and!; [done..| |done| |].
      * apply time_points_ok. by exists tps.
      * apply window_of_is_Some. by eexists.
      * by apply (overflow_true _ _ Htps).
    + intros (df & node_data & Hload & Hloc & Hcols & Hnan & Hfin & Hov).
      exists df. split; [done|]. rewrite Hloc.
      apply time_points_ok in Hcols as [tps Htps]. exists tps.
      split; [done|]. split; [done|].
      assert (is_Some (Popularity.window_of (to_numeric node_data))) as [heights ->].
      { apply window_of_is_Some. split; [by apply isnull_all_size|done]. }
      split; [|done]. by apply (overflow_true _ _ Htps).
  - intros exc Hexc. split; [by apply (result_raised_silent _ _ _ _ _ exc)|].
    apply result_raised in Hexc as (df & _ & H).
    destruct (Popularity.loc df node) as [|node_data [|nd' rest]]; [done| |by left].
    destruct H as (tps & _ & _ & H).
    destruct (Popularity.window_of _); [right; right; by destruct H|right; by left].
Qed.

(** X4: when the node's row is found and some column header does not
    parse, the call prints the header diagnostic with the exception text of
    the first such header and returns without a chart, whatever the row
    holds; a header without an at sign gives the text of the IndexError, a
    header with one the text of the ValueError of int for what follows the
    at sign: that the literal is invalid, with its repr up to 200
    characters, or that it has more than 4300 digits. *)
Theorem bad_header_reported
    (read_csv : string → Popularity.csv_result)
    (to_numeric : list Popularity.cell → Popularity.series)
    (savefig : string → option string)
    (filename node : string) (df : Popularity.DataFrame) (node_data : list Popularity.cell)
    (pre post : list string) (col e : string) :
  read_csv filename = Popularity.Loaded df →
  Popularity.loc df node = [node_data] →
  Popularity.columns df = pre ++ col :: post →
  Forall header_ok pre →
  Popularity.time_point col = inr e →
  Popularity.plot_node_popularity read_csv to_numeric savefig filename node
  = (["Error parsing column headers or data for node " +:+ node +:+ ": " +:+ e;
      "Ensure headers are like 'Pop@<number>' and data is numeric."],
     Popularity.Returned None) ∧
  (Py.has_char "@" col = false → e = "list index out of range") ∧
  (∀ pfx t, col = pfx +:+ "@" +:+ t →
            Py.has_char "@" pfx = false → Py.has_char "@" t = false →
            e = "invalid literal for int() with base 10: "
                  +:+ String.substring 0 200 (Py.repr t)
            ∨ ∃ digits,
                4300 < digits ∧
                e = "Exceeds the limit (4300 digits) for integer string conversion: "
                      +:+ "value has " +:+ pretty digits
                      +:+ " digits; use sys.set_int_max_str_digits() to increase the limit").
Proof.
  intros Hload Hloc Hcols Hpre Hcol. split_and!.
  - unfold Popularity.plot_node_popularity. rewrite Hload.
    rewrite (loc_single_in_index _ _ _ Hloc). simpl. rewrite Hloc, Hcols.
    by rewrite (time_points_first_error _ _ _ _ Hpre Hcol).
  - intros Hno. rewrite time_point_no_at in Hcol by done. congruence.
  - intros pfx t -> Hp Ht. change (pfx +:+ "@" +:+ t) with (pfx +:+ String "@" t) in Hcol.
    rewrite (time_point_at pfx t Hp Ht) in Hcol.
    apply int_error_forms in Hcol as [->|(digits & Hd & ->)]; [by left|right].
    exists digits. split; [done|]. reflexivity.
Qed.

(** The second header of the example frame has no at sign. *)
Lemma bad_header_reported_witness :
  Popularity.plot_node_popularity (Examples.read_frame MoreExamples.bad_header_frame)
    Examples.to_numeric Examples.savefig_ok "report.txt" "A1"
  = (["Error parsing column headers or data for node " +:+ "A1" +:+ ": "
        +:+ "list index out of range";
      "Ensure headers are like 'Pop@<number>' and data is numeric."],
     Popularity.Returned None) ∧
  (Py.has_char "@" "Popularity" = false
   → "list index out of range" = "list index out of range") ∧
  (∀ pfx t, "Popularity" = pfx +:+ "@" +:+ t →
            Py.has_char "@" pfx = false → Py.has_char "@" t = false →
            "list index out of range"
            = "invalid literal for int() with base 10: "
                +:+ String.substring 0 200 (Py.repr t)
            ∨ ∃ digits,
                4300 < digits ∧
                "list index out of range"
                = "Exceeds the limit (4300 digits) for integer string conversion: "
                    +:+ "value has " +:+ pretty digits
                    +:+ " digits; use sys.set_int_max_str_digits() to increase the limit").
Proof.
  assert (Hpre : Forall header_ok ["Pop@3600"])
    by (repeat constructor; exists 3600; reflexivity).
  exact (bad_header_reported (Examples.read_frame MoreExamples.bad_header_frame)
           Examples.to_numeric Examples.savefig_ok "report.txt" "A1"
           MoreExamples.bad_header_frame [Popularity.Int 10; Popularity.Int 15]
           ["Pop@3600"] [] "Popularity" "list index out of range"
           eq_refl eq_refl eq_refl Hpre eq_refl).
Defined.

(** X5: a column header made of any text without an at sign, an at sign and
    a non-empty run of at most 4300 of the decimal digits 0 to 9 parses to
    the number the digits write, which is not negative; the text before the
    at sign is not looked at, and neither is what follows a second at sign.
    With more than 4300 digits the header does not parse: int raises the
    ValueError that tells the number of digits. *)
Theorem header_time_point (pfx d : string) :
  Py.has_char "@" pfx = false → digit_text d →
  let digits := Z.of_nat (String.length d) in
  (digits ≤ 4300 →
   Popularity.time_point (pfx +:+ "@" +:+ d) = inl (Py.digits_to_Z d) ∧
   (∀ r, Popularity.time_point (pfx +:+ "@" +:+ d +:+ "@" +:+ r)
         = inl (Py.digits_to_Z d))) ∧
  (4300 < digits →
   Popularity.time_point (pfx +:+ "@" +:+ d)
   = inr ("Exceeds the limit (4300 digits) for integer string conversion: "
            +:+ "value has " +:+ pretty digits
            +:+ " digits; use sys.set_int_max_str_digits() to increase the limit")) ∧
  0 ≤ Py.digits_to_Z d.
Proof.
  intros Hp Hd. pose proof (int_digit_text d Hd) as Hint. destruct Hd as [Hne Hd].
  cbv zeta. unfold Py.int_max_str_digits in Hint. split_and!.
  - intros Hlen.
    destruct (Z.ltb_spec 4300 (Z.of_nat (String.length d))) as [?|_]; [lia|]. split.
    + change (pfx +:+ "@" +:+ d) with (pfx +:+ String "@" d).
      rewrite time_point_at by auto using digits_no_at. done.
    + intros r. change (pfx +:+ "@" +:+ d +:+ "@" +:+ r)
        with (pfx +:+ String "@" (d +:+ String "@" r)).
      rewrite time_point_at_more by auto using digits_no_at. done.
  - intros Hlen.
    destruct (Z.ltb_spec 4300 (Z.of_nat (String.length d))) as [_|?]; [|lia].
    change (pfx +:+ "@" +:+ d) with (pfx +:+ String "@" d).
    rewrite time_point_at by auto using digits_no_at. rewrite Hint. reflexivity.
  - by apply digits_to_Z_nonneg.
Qed.

(** The header of the first column of the report of the specification. *)
Lemma header_time_point_witness :
  Popularity.time_point ("Pop" +:+ "@" +:+ "3600") = inl (Py.digits_to_Z "3600") ∧
  (∀ r, Popularity.time_point ("Pop" +:+ "@" +:+ "3600" +:+ "@" +:+ r)
        = inl (Py.digits_to_Z "3600")) ∧
  0 ≤ Py.digits_to_Z "3600".
Proof.
  assert (Hd : digit_text "3600") by (split; [discriminate|reflexivity]).
  assert (Hlen : Z.of_nat (String.length "3600") ≤ 4300) by (vm_compute; discriminate).
  destruct (header_time_point "Pop" "3600" eq_refl Hd) as (Hshort & _ & Hnonneg).
  destruct (Hshort Hlen) as [Hone Hmore].
  split_and!; [exact Hone | exact Hmore | exact Hnonneg].
Defined.

(** X6: a row whose series holds nothing but NaN (a frame without data
    columns included) is refused: the call prints that the data could not
    be converted and returns without a chart, although the headers parse. *)
Theorem row_without_numbers
    (read_csv : string → Popularity.csv_result)
    (to_numeric : list Popularity.cell → Popularity.series)
    (savefig : string → option string)
    (filename node : string) (df : Popularity.DataFrame) (node_data : list Popularity.cell) :
  read_csv filename = Popularity.Loaded df →
  Popularity.loc df node = [node_data] →
  Forall header_ok (Popularity.columns df) →
  Popularity.isnull_all (to_numeric node_data) = true →
  Popularity.plot_node_popularity read_csv to_numeric savefig filename node
  = (["Error: Could not convert data to numeric for node " +:+ node +:+ "."],
     Popularity.Returned None).
Proof.
  intros Hload Hloc Hcols Hnan. apply time_points_ok in Hcols as [tps Htps].
  unfold Popularity.plot_node_popularity. rewrite Hload.
  rewrite (loc_single_in_index _ _ _ Hloc). simpl. by rewrite Hloc, Htps, Hnan.
Qed.

(** A row with a text that is no number and an empty field. *)
Lemma row_without_numbers_witness :
  Popularity.plot_node_popularity (Examples.read_frame MoreExamples.text_frame)
    Examples.to_numeric Examples.savefig_ok "report.txt" "A1"
  = (["Error: Could not convert data to numeric for node " +:+ "A1" +:+ "."],
     Popularity.Returned None).
Proof.
  assert (Hcols : Forall header_ok ["Pop@3600"; "Pop@7200"])
    by (repeat constructor; [exists 3600|exists 7200]; reflexivity).
  exact (row_without_numbers (Examples.read_frame MoreExamples.text_frame)
           Examples.to_numeric Examples.savefig_ok "report.txt" "A1"
           MoreExamples.text_frame [Popularity.Text "unknown"; Popularity.Num nan]
           eq_refl eq_refl Hcols eq_refl).
Defined.

(** X7: the tick locator is set only for more than 30 labels; its spacing
    is then the number of labels divided by 30, rounded down, which is at
    least 1 and lets between 30 and 59 spacings fit into the labels.  The
    tick labels are turned exactly when there are more than 15 labels. *)
Theorem tick_thinning_bounds (window_labels : list string) :
  let n := Z.of_nat (length window_labels) in
  match PopularityMain.tick_spacing window_labels with
  | Some k => 30 < n ∧ k = n / 30 ∧ 1 ≤ k ∧ 30 ≤ n / k ≤ 59
  | None => n ≤ 30
  end ∧
  (PopularityMain.ticks_rotated window_labels = true ↔ 15 < n).
Proof.
  cbv zeta. unfold PopularityMain.tick_spacing, PopularityMain.ticks_rotated,
    PopularityMain.max_ticks_display.
  set (n := Z.of_nat (length window_labels)).
  destruct (Z.ltb_spec 30 n) as [Hn|Hn].
  - split; [|split; [lia|done]].
    pose proof (Z.mul_div_le n 30 ltac:(lia)) as Hlo.
    pose proof (Z.mul_succ_div_gt n 30 ltac:(lia)) as Hhi.
    assert (1 ≤ n / 30) as Hk by (apply Z.div_le_lower_bound; lia).
    rewrite Z.max_r by done. split_and!; [done..| |].
    + apply Z.div_le_lower_bound; lia.
    + apply Z.lt_succ_r. apply Z.div_lt_upper_bound; lia.
  - split; [done|]. destruct (Z.ltb_spec 15 n); split; (done || lia).
Qed.

(** X8: on the command line the first argument is the node id and the
    second the file name; without them the node A28 and the file
    connection-Bubble_GlobalPopularity3Report.txt are used, each argument
    given is announced before the call, and arguments after the second
    are ignored. *)
Theorem command_line_arguments
    (read_csv : string → Popularity.csv_result)
    (to_numeric : list Popularity.cell → Popularity.series)
    (savefig : string → option string) :
  let run := PopularityMain.main read_csv to_numeric savefig in
  let call := Popularity.plot_node_popularity read_csv to_numeric savefig in
  (∀ argv, run argv = run (take 3 argv)) ∧
  (∀ prog,
     run [prog] = call "connection-Bubble_GlobalPopularity3Report.txt" "A28") ∧
  (∀ prog node,
     run [prog; node]
     = (("Using NodeID from command line: " +:+ node)
          :: (call "connection-Bubble_GlobalPopularity3Report.txt" node).1,
        (call "connection-Bubble_GlobalPopularity3Report.txt" node).2)) ∧
  (∀ prog node file,
     run [prog; node; file]
     = (("Using NodeID from command line: " +:+ node)
          :: ("Using filename from command line: " +:+ file) :: (call file node).1,
        (call file node).2)).
Proof.
  cbv zeta. unfold PopularityMain.main. split_and!.
  - by intros [|? [|? [|? ?]]].
  - intros prog. by destruct (Popularity.plot_node_popularity _ _ _ _ _).
  - intros prog node. by destruct (Popularity.plot_node_popularity _ _ _ _ _).
  - intros prog node file. by destruct (Popularity.plot_node_popularity _ _ _ _ _).
Qed.

(** ** File names of the first comparison script *)

Section FileNames1.

Import Py ProphetComparison.

#[local] Arguments String.append !_ _ / : assert.

Lemma match_alternative_iff name b g1 g2 :
  match_alternative name b = Some (g1, g2)
  ↔ g1 = name ∧ digit_text g2 ∧
    ∃ rest, b = name +:+ "_scenario" +:+ g2 +:+ "_" +:+ rest.
Proof.
  unfold match_alternative. split.
  - destruct (strip_prefix name b) as [r1|] eqn:H1; [|done]. cbn [mbind option_bind].
    destruct (strip_prefix "_scenario" r1) as [r2|] eqn:H2; [|done].
    cbn [mbind option_bind].
    destruct (span_digits r2) as [d r3] eqn:H3.
    destruct d as [|c d]; [done|]. destruct r3 as [|u r3]; [done|].
    destruct (Ascii.eqb_spec u "_") as [->|Hu].
    2: { destruct u as [[] [] [] [] [] [] [] []]; done. }
    intros [= <- <-]. apply strip_prefix_sound in H1 as ->.
    apply strip_prefix_sound in H2 as ->. apply span_digits_sound in H3 as [-> Hd].
    split; [done|]. split; [by split|]. by exists r3.
  - intros (-> & [Hne Hd] & rest & ->). rewrite strip_prefix_app. cbn [mbind option_bind].
    rewrite (strip_prefix_app "_scenario"). cbn [mbind option_bind].
    change ("_" +:+ rest) with (String "_" rest).
    rewrite (span_digits_app g2 "_" rest) by done.
    by destruct g2.
Qed.

Lemma entry_of_spec b p sc :
  entry_of b = Some (p, sc)
  ↔ ∃ name d rest,
      b = name +:+ "_scenario" +:+ d +:+ "_" +:+ rest ∧ digit_text d ∧
      sc = digits_to_Z d ∧
      ((name = "prophetrandomtuned" ∧ p = "Prophet Random")
       ∨ (name = "prophettuned" ∧ p = "Prophet")).
Proof.
  unfold entry_of, match_filename. split.
  - destruct (match_alternative "prophetrandomtuned" b) as [[g1 g2]|] eqn:H1.
    + apply match_alternative_iff in H1 as (-> & Hd & rest & ->). simpl.
      intros [= <- <-]. exists "prophetrandomtuned", g2, rest.
      split_and!; [reflexivity|done|done|by left].
    + destruct (match_alternative "prophettuned" b) as [[g1 g2]|] eqn:H2; [|done].
      apply match_alternative_iff in H2 as (-> & Hd & rest & ->). simpl.
      intros [= <- <-]. exists "prophettuned", g2, rest.
      split_and!; [reflexivity|done|done|by right].
  - intros (name & d & rest & -> & Hd & -> & [[-> ->]|[-> ->]]).
    + assert (match_alternative "prophetrandomtuned"
                ("prophetrandomtuned" +:+ "_scenario" +:+ d +:+ "_" +:+ rest)
              = Some ("prophetrandomtuned", d)) as ->; [|done].
      apply match_alternative_iff. split; [done|]. split; [done|]. by exists rest.
    + assert (match_alternative "prophetrandomtuned"
                ("prophettuned" +:+ "_scenario" +:+ d +:+ "_" +:+ rest) = None) as ->
        by done.
      assert (match_alternative "prophettuned"
                ("prophettuned" +:+ "_scenario" +:+ d +:+ "_" +:+ rest)
              = Some ("prophettuned", d)) as ->; [|done].
      apply match_alternative_iff. split; [done|]. split; [done|]. by exists rest.
Qed.

Lemma entry_of_facts b p sc : entry_of b = Some (p, sc) → p ∈ protocol_names ∧ 0 ≤ sc.
Proof.
  intros H. apply entry_of_spec in H as (name & d & rest & _ & [_ Hd] & -> & Hp).
  split; [|by apply digits_to_Z_nonneg].
  destruct Hp as [[_ ->]|[_ ->]]; compute_done.
Qed.

End FileNames1.

(** ** The shape of the parsed data of the first comparison script *)

Section Shape1.

Import Py ProphetComparison.

Variable py_float : string → option float.
Variable fs : string → Fs.file_state.

Lemma set_metric_lookup (data : data_t) p sc k v p' :
  set_metric data p sc k v !! p'
  = if decide (p' = p)
    then Some (<[sc := <[k := v]> ((data !!! p) !!! sc)]> (data !!! p))
    else data !! p'.
Proof.
  unfold set_metric. destruct (decide (p' = p)) as [->|].
  - by rewrite lookup_insert_eq.
  - by rewrite lookup_insert_ne.
Qed.

Lemma init_entry_lookup (data : data_t) p sc p' :
  init_entry data p sc !! p'
  = if decide (p' = p)
    then Some (match (data !!! p) !! sc with
               | Some _ => data !!! p
               | None => <[sc := ∅]> (data !!! p)
               end)
    else data !! p'.
Proof.
  unfold init_entry. destruct (data !! p) as [by_sc|] eqn:Hp.
  - rewrite lookup_total_alt, Hp. simpl. destruct (by_sc !! sc).
    + destruct (decide (p' = p)) as [->|]; [done|done].
    + destruct (decide (p' = p)) as [->|].
      * by rewrite lookup_insert_eq.
      * by rewrite lookup_insert_ne.
  - rewrite !lookup_total_alt, lookup_insert_eq, Hp. simpl. rewrite lookup_empty.
    destruct (decide (p' = p)) as [->|].
    + by rewrite lookup_insert_eq.
    + by rewrite !lookup_insert_ne.
Qed.

Lemma total_lookup_keyed (data : data_t) p sc m :
  well_keyed data → (data !!! p) !! sc = Some m →
  0 ≤ sc ∧ ∀ k, is_Some (m !! k) → k ∈ metric_keys.
Proof.
  intros Hwk. rewrite lookup_total_alt. destruct (data !! p) as [by_sc|] eqn:Hp; simpl.
  - intros Hsc. by apply (Hwk p by_sc Hp).
  - by rewrite lookup_empty.
Qed.

Lemma well_keyed_init_entry (data : data_t) p sc :
  well_keyed data → p ∈ protocol_names → 0 ≤ sc → well_keyed (init_entry data p sc).
Proof.
  intros Hwk Hp Hsc p' by_sc'. rewrite init_entry_lookup.
  destruct (decide (p' = p)) as [->|]; [|by apply Hwk].
  intros [= <-]. split; [done|].
  destruct ((data !!! p) !! sc) as [m|] eqn:Hm.
  - split; [intros Hemp; by rewrite Hemp, lookup_empty in Hm|].
    intros sc' m'. by apply total_lookup_keyed.
  - split; [apply insert_non_empty|]. intros sc' m'.
    destruct (decide (sc' = sc)) as [->|].
    + rewrite lookup_insert_eq. intros [= <-]. split; [done|].
      intros k [? Hk]. by rewrite lookup_empty in Hk.
    + rewrite lookup_insert_ne by done. by apply total_lookup_keyed.
Qed.

Lemma well_keyed_set_metric (data : data_t) p sc k v :
  well_keyed data → p ∈ protocol_names → 0 ≤ sc → k ∈ metric_keys →
  well_keyed (set_metric data p sc k v).
Proof.
  intros Hwk Hp Hsc Hk p' by_sc'. rewrite set_metric_lookup.
  destruct (decide (p' = p)) as [->|]; [|by apply Hwk].
  intros [= <-]. split; [done|]. split; [apply insert_non_empty|]. intros sc' m'.
  destruct (decide (sc' = sc)) as [->|].
  - rewrite lookup_insert_eq. intros [= <-]. split; [done|]. intros k'.
    destruct (decide (k' = k)) as [->|]; [done|]. rewrite lookup_insert_ne by done.
    rewrite (lookup_total_alt (data !!! p)).
    destruct ((data !!! p) !! sc) as [m|] eqn:Hm; simpl.
    + by apply (total_lookup_keyed data p sc m).
    + intros [? Hk']. by rewrite lookup_empty in Hk'.
  - rewrite lookup_insert_ne by done. by apply total_lookup_keyed.
Qed.

Lemma well_keyed_parse_line basename p sc data out raw :
  well_keyed data → p ∈ protocol_names → 0 ≤ sc →
  well_keyed (parse_line py_float basename p sc (data, out) raw).1.
Proof.
  intros Hwk Hp Hsc. unfold parse_line.
  destruct (has_char ":" (strip raw)); [|done].
  destruct (match_kv (strip raw)) as [[g1 g2]|]; [|done].
  case_bool_decide as Hk; [|done].
  destruct (py_float (strip g2)); by apply well_keyed_set_metric.
Qed.

Lemma well_keyed_parse_lines basename p sc lines data out :
  well_keyed data → p ∈ protocol_names → 0 ≤ sc →
  well_keyed (foldl (parse_line py_float basename p sc) (data, out) lines).1.
Proof.
  intros Hwk Hp Hsc. revert data out Hwk.
  induction lines as [|raw lines IH]; intros data out Hwk; cbn [foldl]; [done|].
  destruct (parse_line py_float basename p sc (data, out) raw) as [data' out'] eqn:Hl.
  apply IH. change data' with (data', out').1. rewrite <-Hl.
  by apply well_keyed_parse_line.
Qed.

Lemma well_keyed_process_file data out f :
  well_keyed data → well_keyed (process_file py_float fs (data, out) f).1.
Proof.
  intros Hwk. unfold process_file.
  destruct (entry_of (basename f)) as [[p sc]|] eqn:He; [|done].
  apply entry_of_facts in He as [Hp Hsc].
  pose proof (well_keyed_init_entry data p sc Hwk Hp Hsc) as Hwk'.
  destruct (fs f); [done|done| |done]. by apply well_keyed_parse_lines.
Qed.

Lemma well_keyed_process_files files data out :
  well_keyed data → well_keyed (foldl (process_file py_float fs) (data, out) files).1.
Proof.
  revert data out. induction files as [|f files IH]; intros data out Hwk; cbn [foldl]; [done|].
  destruct (process_file py_float fs (data, out) f) as [data' out'] eqn:Hf.
  apply IH. change data' with (data', out').1. rewrite <-Hf.
  by apply well_keyed_process_file.
Qed.

Lemma well_keyed_parse_all glob_result :
  well_keyed (parse_all py_float fs glob_result).1.
Proof.
  apply well_keyed_process_files. intros p by_sc. by rewrite lookup_empty.
Qed.

(** Protocols are never removed, and a recognised file adds its own. *)
Lemma parse_line_protocols basename p sc data out raw p' :
  is_Some (data !! p') →
  is_Some ((parse_line py_float basename p sc (data, out) raw).1 !! p').
Proof.
  intros Hp'. unfold parse_line.
  destruct (has_char ":" (strip raw)); [|done].
  destruct (match_kv (strip raw)) as [[g1 g2]|]; [|done].
  case_bool_decide as Hk; [|done].
  destruct (py_float (strip g2)); simpl; rewrite set_metric_lookup;
    by destruct (decide (p' = p)).
Qed.

Lemma parse_lines_protocols basename p sc lines data out p' :
  is_Some (data !! p') →
  is_Some ((foldl (parse_line py_float basename p sc) (data, out) lines).1 !! p').
Proof.
  revert data out. induction lines as [|raw lines IH]; intros data out Hp'; cbn [foldl]; [done|].
  destruct (parse_line py_float basename p sc (data, out) raw) as [data' out'] eqn:Hl.
  apply IH. change data' with (data', out').1. rewrite <-Hl.
  by apply parse_line_protocols.
Qed.

Lemma process_file_protocols data out f p' :
  is_Some (data !! p') ∨ (∃ sc, entry_of (basename f) = Some (p', sc)) →
  is_Some ((process_file py_float fs (data, out) f).1 !! p').
Proof.
  intros Hp'. unfold process_file.
  destruct (entry_of (basename f)) as [[p sc]|] eqn:He.
  - assert (is_Some (init_entry data p sc !! p')) as Hi.
    { rewrite init_entry_lookup. destruct (decide (p' = p)) as [->|Hne]; [done|].
      destruct Hp' as [?|[? [= ? ?]]]; [done|]. by subst. }
    destruct (fs f); [done|done| |done]. by apply parse_lines_protocols.
  - by destruct Hp' as [?|[? ?]].
Qed.

Lemma process_files_protocols files data out p' :
  is_Some (data !! p') ∨ (∃ f sc, f ∈ files ∧ entry_of (basename f) = Some (p', sc)) →
  is_Some ((foldl (process_file py_float fs) (data, out) files).1 !! p').
Proof.
  revert data out. induction files as [|f files IH]; intros data out Hp'; cbn [foldl].
  - destruct Hp' as [?|(? & ? & Hin & _)]; [done|]. by apply elem_of_nil in Hin.
  - destruct (process_file py_float fs (data, out) f) as [data' out'] eqn:Hf.
    apply IH. destruct Hp' as [Hp'|(f' & sc & Hin & He)].
    + left. change data' with (data', out').1. rewrite <-Hf.
      apply process_file_protocols. by left.
    + apply elem_of_cons in Hin as [->|Hin].
      * left. change data' with (data', out').1. rewrite <-Hf.
        apply process_file_protocols. right. by exists sc.
      * right. by exists f', sc.
Qed.

Lemma process_files_unrecognised files data out :
  Forall (λ f, entry_of (basename f) = None) files →
  (foldl (process_file py_float fs) (data, out) files).1 = data.
Proof.
  intros Hall. revert out. induction Hall as [|f files Hf _ IH]; intros out; cbn [foldl]; [done|].
  unfold process_file at 2. rewrite Hf. apply IH.
Qed.

Lemma plot_exits (data : data_t) :
  well_keyed data → (plot data).2 = Exited ↔ data = ∅.
Proof.
  intros Hwk. unfold plot. case_bool_decide as Hemp; [done|].
  split; [|done]. intros Hex. exfalso.
  destruct (merge_sort (≤)%string (map_to_list data).*1) as [|p0 rest] eqn:Hps.
  { apply Hemp. apply map_to_list_empty_iff. apply fmap_nil_inv with (f := fst).
    apply Permutation_nil_r. rewrite <-Hps. by rewrite merge_sort_Permutation. }
  assert (p0 ∈ (map_to_list data).*1) as Hp0.
  { rewrite <-(merge_sort_Permutation (≤)%string), Hps. by left. }
  apply elem_of_keys in Hp0 as [by_sc Hp0].
  rewrite lookup_total_alt, Hp0 in Hex. simpl in Hex.
  destruct (Hwk p0 by_sc Hp0) as (_ & Hne & _).
  destruct (map_to_list by_sc).*1 as [|sc0 scs] eqn:Hscs.
  { apply Hne. apply map_to_list_empty_iff. by apply fmap_nil_inv with (f := fst). }
  by destruct (prepare _ _ _).
Qed.

End Shape1.

(** X9: among the base names of files (at most 255 characters, all of
    code points below 256, where the decimal digits are 0 to 9), the first
    comparison script recognises exactly those that start with
    prophetrandomtuned or prophettuned followed by _scenario, a non-empty
    run of decimal digits and an underscore; the protocol is Prophet Random
    for the first name and Prophet for the second, and the scenario number
    is the number the digits write. *)
Theorem recognised_report_names (basename p : string) (sc : Z) :
  (String.length basename ≤ 255)%nat →
  ProphetComparison.entry_of basename = Some (p, sc)
  ↔ ∃ name d rest,
      basename = name +:+ "_scenario" +:+ d +:+ "_" +:+ rest ∧ digit_text d ∧
      sc = Py.digits_to_Z d ∧
      ((name = "prophetrandomtuned" ∧ p = "Prophet Random")
       ∨ (name = "prophettuned" ∧ p = "Prophet")).
Proof. intros _. apply entry_of_spec. Qed.

(** A report name of the repository. *)
Lemma recognised_report_names_witness :
  (String.length "prophettuned_scenario3_MessageStatsReport.txt" ≤ 255)%nat ∧
  ProphetComparison.entry_of "prophettuned_scenario3_MessageStatsReport.txt"
  = Some ("Prophet", 3) ∧
  ∃ name d rest,
    "prophettuned_scenario3_MessageStatsReport.txt"
    = name +:+ "_scenario" +:+ d +:+ "_" +:+ rest ∧ digit_text d ∧
    3 = Py.digits_to_Z d ∧
    ((name = "prophetrandomtuned" ∧ "Prophet" = "Prophet Random")
     ∨ (name = "prophettuned" ∧ "Prophet" = "Prophet")).
Proof.
  assert (Hlen : (String.length "prophettuned_scenario3_MessageStatsReport.txt" ≤ 255)%nat)
    by (vm_compute; lia).
  split; [exact Hlen|]. split; [reflexivity|].
  exact (proj1 (recognised_report_names
                  "prophettuned_scenario3_MessageStatsReport.txt" "Prophet" 3 Hlen)
           eq_refl).
Defined.

(** X10: whatever the files hold, the dictionary the first comparison
    script parses has protocols among Prophet and Prophet Random only, each
    with at least one scenario, no negative scenario number, and metric keys
    among the six retained ones only. *)
Theorem parsed_data_shape
    (py_float : string → option float) (fs : string → Fs.file_state)
    (glob_result : list string) :
  well_keyed (ProphetComparison.parse_all py_float fs glob_result).1.
Proof. apply well_keyed_parse_all. Qed.

(** X11: the first comparison script exits without a figure exactly when
    no file of the glob result has a recognised name; in particular the
    two later checks (no scenarios determined, no scenarios for the first
    protocol) never fire, and files that are recognised but unreadable or
    without metric lines still lead to a figure. *)
Theorem exits_iff_no_recognised_file
    (py_float : string → option float) (fs : string → Fs.file_state)
    (glob_result : list string) :
  (ProphetComparison.main py_float fs glob_result).2 = ProphetComparison.Exited
  ↔ Forall (λ f, ProphetComparison.entry_of (Py.basename f) = None) glob_result.
Proof.
  rewrite main_outcome.
  rewrite (plot_exits _ (well_keyed_parse_all py_float fs glob_result)).
  unfold ProphetComparison.parse_all.
  rewrite <-(merge_sort_Permutation (≤)%string glob_result) at 3.
  split.
  - intros Hemp. apply Forall_forall. intros f Hf.
    destruct (ProphetComparison.entry_of (Py.basename f)) as [[p sc]|] eqn:He; [|done].
    exfalso.
    assert (is_Some ((foldl (ProphetComparison.process_file py_float fs)
                        (∅, ["Found " +:+ pretty (length glob_result)
                               +:+ " report files to process:"])
                        (merge_sort (≤)%string glob_result)).1 !! p)) as [? Hp].
    { apply process_files_protocols. right. by exists f, sc. }
    by rewrite Hemp, lookup_empty in Hp.
  - intros Hall. by apply process_files_unrecognised.
Qed.

(** ** The figure of the first comparison script *)

Section Figure1.

Import ProphetComparison ProphetComparisonStyle.

Lemma lookup_total_inj (l : list string) (a b : nat) :
  NoDup l → (a < length l)%nat → (b < length l)%nat → l !!! a = l !!! b → a = b.
Proof.
  intros Hnd Ha Hb Heq. apply (NoDup_lookup l a b (l !!! a)); [done|..].
  - by apply list_lookup_lookup_total_lt.
  - rewrite Heq. by apply list_lookup_lookup_total_lt.
Qed.

Lemma line_style_eq (i j : nat) :
  line_style i = line_style j ↔ (i mod 12 = j mod 12)%nat.
Proof.
  unfold line_style.
  assert (NoDup markers) as Hm by compute_done.
  assert (NoDup linestyles) as Hl by compute_done.
  change (length markers) with 6%nat. change (length linestyles) with 4%nat.
  pose proof (Nat.mod_upper_bound i 6 ltac:(lia)).
  pose proof (Nat.mod_upper_bound j 6 ltac:(lia)).
  pose proof (Nat.mod_upper_bound i 4 ltac:(lia)).
  pose proof (Nat.mod_upper_bound j 4 ltac:(lia)).
  pose proof (Nat.mod_upper_bound i 12 ltac:(lia)).
  pose proof (Nat.mod_upper_bound j 12 ltac:(lia)).
  pose proof (Nat.div_mod_eq i 6). pose proof (Nat.div_mod_eq j 6).
  pose proof (Nat.div_mod_eq i 4). pose proof (Nat.div_mod_eq j 4).
  pose proof (Nat.div_mod_eq i 12). pose proof (Nat.div_mod_eq j 12).
  split.
  - intros Heq.
    assert (markers !!! (i mod 6)%nat = markers !!! (j mod 6)%nat) as Hmk by congruence.
    assert (linestyles !!! (i mod 4)%nat = linestyles !!! (j mod 4)%nat) as Hls
      by congruence.
    apply (lookup_total_inj markers) in Hmk; [|done..].
    apply (lookup_total_inj linestyles) in Hls; [|done..].
    lia.
  - intros H12.
    assert (i mod 6 = j mod 6)%nat as -> by lia.
    assert (i mod 4 = j mod 4)%nat as -> by lia. done.
Qed.

Lemma keys_NoDup `{Countable K} {V} (m : gmap K V) : NoDup (map_to_list m).*1.
Proof. apply NoDup_fst_map_to_list. Qed.

Lemma short_list (l : list string) :
  NoDup l → (∀ p, p ∈ l → p ∈ protocol_names) → (length l ≤ 2)%nat.
Proof.
  intros Hnd Hsub. change 2%nat with (length protocol_names).
  apply submseteq_length. by apply NoDup_submseteq.
Qed.

Lemma figure_layout py_float fs glob_result out fig :
  main py_float fs glob_result = (out, Plotted fig) →
  protocols fig ≠ [] ∧ NoDup (protocols fig) ∧
  (∀ p, p ∈ protocols fig → p ∈ protocol_names) ∧
  scenarios fig ≠ [] ∧ NoDup (scenarios fig) ∧
  (∀ sc, sc ∈ scenarios fig → 0 ≤ sc) ∧
  metric <$> axes fig = metric_keys ∧
  ∀ ax, ax ∈ axes fig →
    label <$> lines ax = protocols fig ∧
    ∀ ln, ln ∈ lines ax → length (ys ln) = length (xs ln).
Proof.
  intros Hmain. apply main_plotted in Hmain as (out' & Hplot & _).
  pose proof (well_keyed_parse_all py_float fs glob_result) as Hwk.
  set (data := (parse_all py_float fs glob_result).1) in *.
  pose proof (plot_exits data Hwk) as Hex. rewrite Hplot in Hex. simpl in Hex.
  apply plot_plotted in Hplot as (p0 & rest & warnings & Hps & Hprotos & Hscs & Hprep & Haxes & _).
  assert (∀ p, p ∈ protocols fig → is_Some (data !! p)) as Hkeys.
  { intros p Hp. apply elem_of_keys.
    by rewrite <-(merge_sort_Permutation (≤)%string), Hps, <-Hprotos. }
  destruct (Hkeys p0) as [by_sc Hp0]; [rewrite Hprotos; by left|].
  destruct (Hwk p0 by_sc Hp0) as (_ & Hne & Hsc).
  assert (data !!! p0 = by_sc) as Htot by (by rewrite lookup_total_alt, Hp0).
  rewrite Htot in Hscs.
  split_and!.
  - by rewrite Hprotos.
  - rewrite Hprotos, <-Hps, merge_sort_Permutation. apply keys_NoDup.
  - intros p Hp. destruct (Hkeys p Hp) as [? Hp']. by apply (Hwk p _ Hp').
  - intros Hnil. apply Hne. apply map_to_list_empty_iff.
    apply fmap_nil_inv with (f := fst). apply Permutation_nil_r.
    rewrite <-(merge_sort_Permutation Z.le), <-Hscs. by rewrite Hnil.
  - rewrite Hscs, merge_sort_Permutation. apply keys_NoDup.
  - intros sc. rewrite Hscs, merge_sort_Permutation. intros Hin.
    apply elem_of_keys in Hin as [m Hm]. by apply (Hsc sc m).
  - by rewrite Haxes.
  - intros ax Hax. rewrite Haxes in Hax. unfold draw in Hax.
    apply list_elem_of_fmap in Hax as ([[mk ?] ?] & -> & Hm). cbn [lines]. split.
    + rewrite <-list_fmap_compose.
      transitivity (id <$> protocols fig); [by rewrite Hprotos|apply list_fmap_id].
    + intros ln Hln. apply list_elem_of_fmap in Hln as (proto & -> & Hproto). cbn [ys xs].
      destruct (prepare_spec data (p0 :: rest) (scenarios fig))
        as (pd & ws & Hprep' & Hvals & _).
      rewrite Hprep in Hprep'. injection Hprep' as <- <-.
      assert (mk ∈ metric_keys) as Hmk.
      { apply metric_keys_plotted. by eexists (mk, _, _). }
      rewrite (lookup_total_alt (plot_data fig !!! proto)), (Hvals proto mk Hproto Hmk).
      simpl. unfold plotted_values. by rewrite length_fmap.
Qed.

End Figure1.

(** X12: a figure of the first comparison script has the six axes of the
    retained metrics, in their order; every axis has one line per protocol,
    labelled with the protocols in sorted order, and every line has as many
    y values as x values.  There are one or two protocols, named Prophet
    or Prophet Random, and at least one scenario; no scenario number occurs
    twice or is negative. *)
Theorem figure_layout_of_run
    (py_float : string → option float) (fs : string → Fs.file_state)
    (glob_result out : list string) (fig : ProphetComparison.figure) :
  ProphetComparison.main py_float fs glob_result = (out, ProphetComparison.Plotted fig) →
  ProphetComparison.metric <$> ProphetComparison.axes fig = metric_keys ∧
  (∀ ax, ax ∈ ProphetComparison.axes fig →
     ProphetComparison.label <$> ProphetComparison.lines ax
     = ProphetComparison.protocols fig ∧
     ∀ ln, ln ∈ ProphetComparison.lines ax →
           length (ProphetComparison.ys ln) = length (ProphetComparison.xs ln)) ∧
  (1 ≤ length (ProphetComparison.protocols fig) ≤ 2)%nat ∧
  NoDup (ProphetComparison.protocols fig) ∧
  (∀ p, p ∈ ProphetComparison.protocols fig → p ∈ protocol_names) ∧
  (1 ≤ length (ProphetComparison.scenarios fig))%nat ∧
  NoDup (ProphetComparison.scenarios fig) ∧
  (∀ sc, sc ∈ ProphetComparison.scenarios fig → 0 ≤ sc).
Proof.
  intros Hmain.
  apply figure_layout in Hmain as (Hp & Hpnd & Hpn & Hs & Hsnd & Hs0 & Hax & Hlines).
  pose proof (short_list _ Hpnd Hpn) as Hshort.
  split_and!; try done.
  - destruct (ProphetComparison.protocols fig); [done|simpl; lia].
  - destruct (ProphetComparison.scenarios fig); [done|simpl; lia].
Qed.

(** The figure of the example run: two protocols over the scenarios 1 and 3. *)
Lemma figure_layout_of_run_witness :
  ProphetComparison.main Examples.decimal_float Examples.report_fs Examples.comparison_glob
  = (Examples.comparison_run.1, ProphetComparison.Plotted Examples.comparison_figure) ∧
  ProphetComparison.protocols Examples.comparison_figure = ["Prophet"; "Prophet Random"] ∧
  ProphetComparison.metric <$> ProphetComparison.axes Examples.comparison_figure
  = metric_keys ∧
  (∀ ax, ax ∈ ProphetComparison.axes Examples.comparison_figure →
     ProphetComparison.label <$> ProphetComparison.lines ax
     = ProphetComparison.protocols Examples.comparison_figure ∧
     ∀ ln, ln ∈ ProphetComparison.lines ax →
           length (ProphetComparison.ys ln) = length (ProphetComparison.xs ln)) ∧
  (1 ≤ length (ProphetComparison.protocols Examples.comparison_figure) ≤ 2)%nat ∧
  NoDup (ProphetComparison.protocols Examples.comparison_figure) ∧
  (∀ p, p ∈ ProphetComparison.protocols Examples.comparison_figure → p ∈ protocol_names) ∧
  (1 ≤ length (ProphetComparison.scenarios Examples.comparison_figure))%nat ∧
  NoDup (ProphetComparison.scenarios Examples.comparison_figure) ∧
  (∀ sc, sc ∈ ProphetComparison.scenarios Examples.comparison_figure → 0 ≤ sc).
Proof.
  assert (Hrun : ProphetComparison.main Examples.decimal_float Examples.report_fs
                   Examples.comparison_glob
                 = (Examples.comparison_run.1,
                    ProphetComparison.Plotted Examples.comparison_figure))
    by (vm_compute; reflexivity).
  split; [exact Hrun|]. split; [vm_compute; reflexivity|].
  exact (figure_layout_of_run _ _ _ _ _ Hrun).
Defined.

(** X13: the marker and line style of the lines of an axis repeat with
    period 12 and not before: two positions get the same pair exactly when
    they are equal modulo 12.  As a run never has more than two protocols,
    the lines of an axis always differ in marker and line style. *)
Theorem line_styles_distinct :
  (∀ i j : nat,
     ProphetComparisonStyle.line_style i = ProphetComparisonStyle.line_style j
     ↔ (i mod 12 = j mod 12)%nat) ∧
  (∀ (py_float : string → option float) (fs : string → Fs.file_state)
     (glob_result out : list string) (fig : ProphetComparison.figure),
     ProphetComparison.main py_float fs glob_result = (out, ProphetComparison.Plotted fig) →
     (ProphetComparisonStyle.styled_lines (ProphetComparison.protocols fig)).*1
     = ProphetComparison.protocols fig ∧
     NoDup (ProphetComparisonStyle.styled_lines (ProphetComparison.protocols fig)).*2).
Proof.
  split; [apply line_style_eq|].
  intros py_float fs glob_result out fig Hmain.
  apply figure_layout in Hmain as (_ & Hpnd & Hpn & _).
  pose proof (short_list _ Hpnd Hpn) as Hshort.
  destruct (ProphetComparison.protocols fig) as [|a [|b [|c l]]]; simpl in Hshort;
    [split; [done|compute_done]..|lia].
Qed.

(** The two lines of the example run: circles on a solid line, squares on
    a dashed one. *)
Lemma line_styles_distinct_witness :
  ProphetComparisonStyle.styled_lines
    (ProphetComparison.protocols Examples.comparison_figure)
  = [("Prophet", ("o", "-")); ("Prophet Random", ("s", "--"))] ∧
  (ProphetComparisonStyle.styled_lines
     (ProphetComparison.protocols Examples.comparison_figure)).*1
  = ProphetComparison.protocols Examples.comparison_figure ∧
  NoDup (ProphetComparisonStyle.styled_lines
           (ProphetComparison.protocols Examples.comparison_figure)).*2.
Proof.
  assert (Hrun : ProphetComparison.main Examples.decimal_float Examples.report_fs
                   Examples.comparison_glob
                 = (Examples.comparison_run.1,
                    ProphetComparison.Plotted Examples.comparison_figure))
    by (vm_compute; reflexivity).
  split; [vm_compute; reflexivity|].
  exact (proj2 line_styles_distinct _ _ _ _ _ Hrun).
Defined.

(** ** Lines that set no metric, and the two line parsers side by side *)

Section Lines.

Import Py.

#[local] Arguments String.append !_ _ / : assert.

Variable py_float : string → option float.

Lemma split_once_sound sep s a b : split_once sep s = Some (a, b) → s = a +:+ String sep b.
Proof.
  revert a. induction s as [|c s IH]; intros a; simpl; [done|].
  destruct (Ascii.eqb_spec c sep) as [->|].
  - by intros [= <- <-].
  - destruct (split_once sep s) as [[a' b']|]; [|done]. intros [= <- <-].
    simpl. by rewrite (IH a' eq_refl).
Qed.

Lemma has_char_lstrip c s : has_char c s = false → has_char c (lstrip s) = false.
Proof.
  induction s as [|x s IH]; simpl; [done|].
  destruct (Ascii.eqb c x) eqn:Hx; [done|]. intros H.
  destruct (isspace x); [auto|]. simpl. by rewrite Hx.
Qed.

Lemma lstrip_idem s : lstrip (lstrip s) = lstrip s.
Proof.
  induction s as [|x s IH]; simpl; [done|].
  destruct (isspace x) eqn:Hx; [done|]. simpl. by rewrite Hx.
Qed.

Lemma parse_line1_none basename p sc st raw :
  assigned_key raw = None →
  ProphetComparison.parse_line py_float basename p sc st raw = st.
Proof.
  unfold assigned_key, ProphetComparison.parse_line, ProphetComparison.match_kv.
  destruct st as [data out]. intros Hk.
  destruct (has_char ":" (strip raw)); [|done].
  destruct (split_once ":" (strip raw)) as [[[|c g1] rest]|]; [done| |done].
  by case_bool_decide.
Qed.

Lemma parse_line2_none filename st raw :
  assigned_key raw = None →
  ProphetComparison2.parse_line py_float filename st raw = st.
Proof.
  unfold assigned_key, ProphetComparison2.parse_line.
  destruct st as [data out]. intros Hk.
  destruct (has_char ":" (strip raw)); [|done].
  destruct (split_once ":" (strip raw)) as [[g1 rest]|]; [|done].
  change (ProphetComparison2.METRICS_TO_PLOT.*1) with metric_keys.
  by case_bool_decide.
Qed.

Lemma parse_lines1_none basename p sc st lines :
  Forall (λ raw, assigned_key raw = None) lines →
  foldl (ProphetComparison.parse_line py_float basename p sc) st lines = st.
Proof.
  intros Hall. induction Hall as [|raw lines Hraw _ IH]; cbn [foldl]; [done|].
  by rewrite parse_line1_none.
Qed.

Lemma parse_lines2_none filename st lines :
  Forall (λ raw, assigned_key raw = None) lines →
  foldl (ProphetComparison2.parse_line py_float filename) st lines = st.
Proof.
  intros Hall. induction Hall as [|raw lines Hraw _ IH]; cbn [foldl]; [done|].
  by rewrite parse_line2_none.
Qed.

Lemma lookup3_metrics_at data p sc k : lookup3 data p sc k = metrics_at data p sc !! k.
Proof.
  unfold lookup3, metrics_at. destruct (data !! p) as [by_sc|]; simpl; [|done].
  by destruct (by_sc !! sc).
Qed.

(** On a line without an inner line feed both scripts store the same key
    and value. *)
Lemma parse_line_agree basename filename p sc data out (m : gmap string float) out2 raw :
  has_char LF (strip raw) = false →
  (∀ k, lookup3 data p sc k = m !! k) →
  ∀ k, lookup3 (ProphetComparison.parse_line py_float basename p sc (data, out) raw).1 p sc k
       = (ProphetComparison2.parse_line py_float filename (m, out2) raw).1 !! k.
Proof.
  intros Hlf Hrel k.
  unfold ProphetComparison.parse_line, ProphetComparison2.parse_line,
    ProphetComparison.match_kv.
  destruct (has_char ":" (strip raw)); [|by apply Hrel].
  destruct (split_once ":" (strip raw)) as [[g1 rest]|] eqn:Hs; [|by apply Hrel].
  change (ProphetComparison2.METRICS_TO_PLOT.*1) with metric_keys.
  destruct g1 as [|c g1].
  { rewrite bool_decide_false by compute_done. by apply Hrel. }
  apply split_once_sound in Hs. rewrite Hs, has_char_app in Hlf.
  apply orb_false_elim in Hlf as [_ Hlf]. cbn [has_char] in Hlf.
  destruct (Ascii.eqb LF ":") eqn:Hc; [done|].
  rewrite (until_newline_id (lstrip rest)) by by apply has_char_lstrip.
  assert (strip (lstrip rest) = strip rest) as -> by (unfold strip; by rewrite lstrip_idem).
  case_bool_decide as Hk; [|by apply Hrel].
  destruct (py_float (strip rest)); simpl; rewrite lookup3_set_metric.
  - destruct (decide (k = strip (String c g1))) as [->|Hne].
    + rewrite decide_True by done. by rewrite lookup_insert_eq.
    + rewrite decide_False by (by intros (_ & _ & ?)). rewrite lookup_insert_ne by done.
      apply Hrel.
  - destruct (decide (k = strip (String c g1))) as [->|Hne].
    + rewrite decide_True by done. by rewrite lookup_insert_eq.
    + rewrite decide_False by (by intros (_ & _ & ?)). rewrite lookup_insert_ne by done.
      apply Hrel.
Qed.

Lemma parse_lines_agree basename filename p sc lines data out (m : gmap string float) out2 :
  Forall (λ raw, has_char LF (strip raw) = false) lines →
  (∀ k, lookup3 data p sc k = m !! k) →
  ∀ k, lookup3 (foldl (ProphetComparison.parse_line py_float basename p sc)
                  (data, out) lines).1 p sc k
       = (foldl (ProphetComparison2.parse_line py_float filename) (m, out2) lines).1 !! k.
Proof.
  intros Hall. revert data out m out2.
  induction Hall as [|raw lines Hraw _ IH]; intros data out m out2 Hrel; cbn [foldl];
    [done|].
  pose proof (parse_line_agree basename filename p sc data out m out2 raw Hraw Hrel) as Hstep.
  destruct (ProphetComparison.parse_line py_float basename p sc (data, out) raw)
    as [data' out'].
  destruct (ProphetComparison2.parse_line py_float filename (m, out2) raw) as [m' out2'].
  by apply IH.
Qed.

End Lines.

Lemma init_entry_registers (data : gmap string (gmap Z (gmap string float))) p sc :
  is_Some ((ProphetComparison.init_entry data p sc !!! p) !! sc).
Proof.
  rewrite (lookup_total_alt (ProphetComparison.init_entry data p sc)), init_entry_lookup.
  rewrite decide_True by done. simpl.
  destruct ((data !!! p) !! sc) as [m|] eqn:Hm; [by rewrite Hm|].
  by rewrite lookup_insert_eq.
Qed.

(** X14: a readable report none of whose lines sets a retained metric
    is treated differently by the two comparison scripts.  The first prints
    nothing about it and still registers the file's protocol and scenario,
    with no metric; the second returns no record and prints that no relevant
    metrics were found.  Whether a line sets a metric is judged after
    stripping the blanks of Python, the no-break space among them: a line
    whose key delivery_prob is followed by a no-break space sets that
    metric. *)
Theorem report_without_metric_lines :
  (∀ (py_float : string → option float) (fs : string → Fs.file_state)
     (f p : string) (sc : Z) (lines : list string)
     (data : gmap string (gmap Z (gmap string float))) (out : list string),
     ProphetComparison.entry_of (Py.basename f) = Some (p, sc) →
     fs f = Fs.Lines lines →
     Forall (λ raw, assigned_key raw = None) lines →
     ProphetComparison.process_file py_float fs (data, out) f
     = (ProphetComparison.init_entry data p sc,
        out ++ ["  - Processing: " +:+ Py.basename f]) ∧
     is_Some ((ProphetComparison.init_entry data p sc !!! p) !! sc) ∧
     ∀ k, lookup3 (ProphetComparison.init_entry data p sc) p sc k = lookup3 data p sc k) ∧
  (∀ (py_float : string → option float) (fs : string → Fs.file_state)
     (filepath pt digits : string) (lines : list string),
     ProphetComparison2.prophet_type_of (Py.basename filepath) = inl pt →
     ProphetComparison2.match_scenario (Py.basename filepath) = Some digits →
     fs filepath = Fs.Lines lines →
     Forall (λ raw, assigned_key raw = None) lines →
     ProphetComparison2.parse_message_stats_file py_float fs filepath
     = (None, ["Warning: No relevant metrics found in " +:+ Py.basename filepath])) ∧
  assigned_key ("delivery_prob" +:+ String (Ascii.ascii_of_N 160) ": 0.5")
  = Some "delivery_prob".
Proof.
  split_and!; [| |reflexivity].
  - intros py_float fs f p sc lines data out He Hfs Hall. split_and!.
    + unfold ProphetComparison.process_file. rewrite He, Hfs.
      by rewrite parse_lines1_none.
    + apply init_entry_registers.
    + intros k. apply lookup3_init_entry.
  - intros py_float fs filepath pt digits lines Hpt Hsc Hfs Hall.
    unfold ProphetComparison2.parse_message_stats_file. rewrite Hpt, Hsc, Hfs.
    rewrite parse_lines2_none by done. by rewrite bool_decide_true.
Qed.

(** Two reports of the examples that hold the simulation time and the
    number of created messages only. *)
Lemma report_without_metric_lines_witness :
  (ProphetComparison.process_file Examples.decimal_float Examples.report_fs (∅, [])
     "./prophettuned_scenario7_MessageStatsReport.txt"
   = (ProphetComparison.init_entry ∅ "Prophet" 7,
      [] ++ ["  - Processing: "
               +:+ Py.basename "./prophettuned_scenario7_MessageStatsReport.txt"]) ∧
   is_Some ((ProphetComparison.init_entry ∅ "Prophet" 7 !!! "Prophet") !! 7) ∧
   ∀ k, lookup3 (ProphetComparison.init_entry ∅ "Prophet" 7) "Prophet" 7 k
        = lookup3 ∅ "Prophet" 7 k) ∧
  ProphetComparison2.parse_message_stats_file Examples.decimal_float Examples.report_fs
    "/d/HaggleProphet500_MessageStatsReport.txt"
  = (None, ["Warning: No relevant metrics found in "
              +:+ Py.basename "/d/HaggleProphet500_MessageStatsReport.txt"]).
Proof.
  assert (Hall : Forall (λ raw, assigned_key raw = None)
                   ["sim_time: 274883.0"; "created: 1426"])
    by (repeat constructor).
  split.
  - exact (proj1 report_without_metric_lines Examples.decimal_float Examples.report_fs
             "./prophettuned_scenario7_MessageStatsReport.txt" "Prophet" 7
             ["sim_time: 274883.0"; "created: 1426"] ∅ [] eq_refl eq_refl Hall).
  - exact (proj1 (proj2 report_without_metric_lines) Examples.decimal_float
             Examples.report_fs
             "/d/HaggleProphet500_MessageStatsReport.txt" "Haggle Prophet" "500"
             ["sim_time: 274883.0"; "created: 1426"] eq_refl eq_refl eq_refl Hall).
Defined.

(** X15: a report that exists but cannot be read.  The first comparison
    script prints the error with the words that the file is skipped, yet the
    file's protocol and scenario are registered (without changing any stored
    value), so the scenario can appear on the x-axis; the second script
    prints the error and adds no record.  When reading fails only after
    some lines, the first script does the same and uses none of the lines;
    the second script, which reads line by line, has by then printed the
    warnings of the lines it read, prints the error after them, and adds no
    record either. *)
Theorem unreadable_report :
  (∀ (py_float : string → option float) (fs : string → Fs.file_state)
     (f p e : string) (sc : Z)
     (data : gmap string (gmap Z (gmap string float))) (out : list string),
     ProphetComparison.entry_of (Py.basename f) = Some (p, sc) →
     fs f = Fs.Unreadable e →
     ProphetComparison.process_file py_float fs (data, out) f
     = (ProphetComparison.init_entry data p sc,
        (out ++ ["  - Processing: " +:+ Py.basename f])
          ++ ["    Error reading file " +:+ f +:+ ": " +:+ e +:+ ". Skipping this file."]) ∧
     is_Some ((ProphetComparison.init_entry data p sc !!! p) !! sc) ∧
     ∀ p' sc' k, lookup3 (ProphetComparison.init_entry data p sc) p' sc' k
                 = lookup3 data p' sc' k) ∧
  (∀ (py_float : string → option float) (fs : string → Fs.file_state)
     (script_dir file_entry pt digits e : string)
     (all_parsed_data : list ProphetComparison2.parsed) (out : list string),
     let filepath := ProphetComparison2.resolve script_dir file_entry in
     ProphetComparison2.prophet_type_of (Py.basename filepath) = inl pt →
     ProphetComparison2.match_scenario (Py.basename filepath) = Some digits →
     fs filepath = Fs.Unreadable e →
     ProphetComparison2.parse_message_stats_file py_float fs filepath
     = (None, ["Error parsing file " +:+ filepath +:+ ": " +:+ e]) ∧
     ProphetComparison2.locate_and_parse py_float fs script_dir
       (all_parsed_data, out) file_entry
     = (all_parsed_data,
        (out ++ ["Processing file: " +:+ filepath])
          ++ ["Error parsing file " +:+ filepath +:+ ": " +:+ e])) ∧
  (∀ (py_float : string → option float) (fs : string → Fs.file_state)
     (f p e : string) (sc : Z) (ls : list string)
     (data : gmap string (gmap Z (gmap string float))) (out : list string),
     ProphetComparison.entry_of (Py.basename f) = Some (p, sc) →
     fs f = Fs.Broken ls e →
     ProphetComparison.process_file py_float fs (data, out) f
     = (ProphetComparison.init_entry data p sc,
        (out ++ ["  - Processing: " +:+ Py.basename f])
          ++ ["    Error reading file " +:+ f +:+ ": " +:+ e +:+ ". Skipping this file."]) ∧
     ∀ p' sc' k, lookup3 (ProphetComparison.init_entry data p sc) p' sc' k
                 = lookup3 data p' sc' k) ∧
  (∀ (py_float : string → option float) (fs : string → Fs.file_state)
     (script_dir file_entry pt digits e : string) (ls : list string)
     (all_parsed_data : list ProphetComparison2.parsed) (out : list string),
     let filepath := ProphetComparison2.resolve script_dir file_entry in
     let warnings :=
       (foldl (ProphetComparison2.parse_line py_float (Py.basename filepath)) (∅, []) ls).2 in
     ProphetComparison2.prophet_type_of (Py.basename filepath) = inl pt →
     ProphetComparison2.match_scenario (Py.basename filepath) = Some digits →
     fs filepath = Fs.Broken ls e →
     ProphetComparison2.parse_message_stats_file py_float fs filepath
     = (None, warnings ++ ["Error parsing file " +:+ filepath +:+ ": " +:+ e]) ∧
     ProphetComparison2.locate_and_parse py_float fs script_dir
       (all_parsed_data, out) file_entry
     = (all_parsed_data,
        (out ++ ["Processing file: " +:+ filepath])
          ++ warnings ++ ["Error parsing file " +:+ filepath +:+ ": " +:+ e])).
Proof.
  split_and!.
  - intros py_float fs f p e sc data out He Hfs. split_and!.
    + unfold ProphetComparison.process_file. by rewrite He, Hfs.
    + apply init_entry_registers.
    + intros p' sc' k. apply lookup3_init_entry.
  - intros py_float fs script_dir file_entry pt digits e all_parsed_data out filepath
      Hpt Hsc Hfs.
    assert (ProphetComparison2.parse_message_stats_file py_float fs filepath
            = (None, ["Error parsing file " +:+ filepath +:+ ": " +:+ e])) as Hparse.
    { unfold ProphetComparison2.parse_message_stats_file. by rewrite Hpt, Hsc, Hfs. }
    split; [done|]. unfold ProphetComparison2.locate_and_parse.
    fold filepath. by rewrite Hfs, Hparse.
  - intros py_float fs f p e sc ls data out He Hfs. split.
    + unfold ProphetComparison.process_file. by rewrite He, Hfs.
    + intros p' sc' k. apply lookup3_init_entry.
  - intros py_float fs script_dir file_entry pt digits e ls all_parsed_data out filepath
      warnings Hpt Hsc Hfs.
    assert (ProphetComparison2.parse_message_stats_file py_float fs filepath
            = (None, warnings ++ ["Error parsing file " +:+ filepath +:+ ": " +:+ e]))
      as Hparse.
    { unfold ProphetComparison2.parse_message_stats_file. rewrite Hpt, Hsc, Hfs.
      unfold warnings. by destruct (foldl _ _ ls). }
    split; [done|]. unfold ProphetComparison2.locate_and_parse.
    fold filepath. by rewrite Hfs, Hparse.
Qed.

(** Two reports that are there but locked, and two that break off after a
    line with a value that is no number. *)
Lemma unreadable_report_witness :
  (ProphetComparison.process_file Examples.decimal_float MoreExamples.locked_fs (∅, [])
     "./prophettuned_scenario2_MessageStatsReport.txt"
   = (ProphetComparison.init_entry ∅ "Prophet" 2,
      ([] ++ ["  - Processing: "
                +:+ Py.basename "./prophettuned_scenario2_MessageStatsReport.txt"])
        ++ ["    Error reading file " +:+ "./prophettuned_scenario2_MessageStatsReport.txt"
              +:+ ": " +:+ "[Errno 13] Permission denied" +:+ ". Skipping this file."]) ∧
   is_Some ((ProphetComparison.init_entry ∅ "Prophet" 2 !!! "Prophet") !! 2) ∧
   ∀ p' sc' k, lookup3 (ProphetComparison.init_entry ∅ "Prophet" 2) p' sc' k
               = lookup3 ∅ p' sc' k) ∧
  (let filepath :=
     ProphetComparison2.resolve "/d" "HaggleProphet100_MessageStatsReport.txt" in
   ProphetComparison2.parse_message_stats_file Examples.decimal_float
     MoreExamples.locked_fs filepath
   = (None, ["Error parsing file " +:+ filepath +:+ ": " +:+ "[Errno 13] Permission denied"]) ∧
   ProphetComparison2.locate_and_parse Examples.decimal_float MoreExamples.locked_fs "/d"
     ([], []) "HaggleProphet100_MessageStatsReport.txt"
   = ([], ([] ++ ["Processing file: " +:+ filepath])
            ++ ["Error parsing file " +:+ filepath +:+ ": "
                  +:+ "[Errno 13] Permission denied"])) ∧
  (ProphetComparison.process_file Examples.decimal_float MoreExamples.locked_fs (∅, [])
     "./prophettuned_scenario4_MessageStatsReport.txt"
   = (ProphetComparison.init_entry ∅ "Prophet" 4,
      ([] ++ ["  - Processing: "
                +:+ Py.basename "./prophettuned_scenario4_MessageStatsReport.txt"])
        ++ ["    Error reading file " +:+ "./prophettuned_scenario4_MessageStatsReport.txt"
              +:+ ": " +:+ "[Errno 5] Input/output error" +:+ ". Skipping this file."]) ∧
   ∀ p' sc' k, lookup3 (ProphetComparison.init_entry ∅ "Prophet" 4) p' sc' k
               = lookup3 ∅ p' sc' k) ∧
  ProphetComparison2.parse_message_stats_file Examples.decimal_float MoreExamples.locked_fs
    "/d/HaggleProphet300_MessageStatsReport.txt"
  = (None,
     ["Warning: Could not convert value 'NaN%' for key 'latency_avg' in HaggleProphet300_MessageStatsReport.txt to float. Skipping.";
      "Error parsing file /d/HaggleProphet300_MessageStatsReport.txt: [Errno 5] Input/output error"]).
Proof.
  split; [|split; [|split]].
  - exact (proj1 unreadable_report Examples.decimal_float MoreExamples.locked_fs
             "./prophettuned_scenario2_MessageStatsReport.txt" "Prophet"
             "[Errno 13] Permission denied" 2 ∅ [] eq_refl eq_refl).
  - exact (proj1 (proj2 unreadable_report) Examples.decimal_float MoreExamples.locked_fs
             "/d" "HaggleProphet100_MessageStatsReport.txt" "Haggle Prophet" "100"
             "[Errno 13] Permission denied" [] [] eq_refl eq_refl eq_refl).
  - exact (proj1 (proj2 (proj2 unreadable_report)) Examples.decimal_float
             MoreExamples.locked_fs
             "./prophettuned_scenario4_MessageStatsReport.txt" "Prophet"
             "[Errno 5] Input/output error" 4 ["delivery_prob: 0.5"; "latency_avg: NaN%"]
             ∅ [] eq_refl eq_refl).
  - exact (proj1 (proj2 (proj2 (proj2 unreadable_report)) Examples.decimal_float
                    MoreExamples.locked_fs
                    "/d" "HaggleProphet300_MessageStatsReport.txt" "Haggle Prophet" "300"
                    "[Errno 5] Input/output error"
                    ["delivery_prob: 0.5"; "latency_avg: NaN%"] [] []
                    eq_refl eq_refl eq_refl)).
Defined.

(** X16: the line parsers of the two comparison scripts agree.  Over lines
    that hold no line feed after stripping (as the lines of a file do), the
    metrics the first script stores for the file's protocol and scenario
    are those the second script collects from the same lines, key by key. *)
Theorem line_parsers_agree
    (py_float : string → option float) (basename filename p : string) (sc : Z)
    (lines : list string) (data : gmap string (gmap Z (gmap string float)))
    (out out2 : list string) :
  Forall (λ raw, Py.has_char Py.LF (Py.strip raw) = false) lines →
  ∀ k,
    lookup3 (foldl (ProphetComparison.parse_line py_float basename p sc)
               (data, out) lines).1 p sc k
    = (foldl (ProphetComparison2.parse_line py_float filename)
         (metrics_at data p sc, out2) lines).1 !! k.
Proof.
  intros Hall. apply parse_lines_agree; [done|]. intros k. apply lookup3_metrics_at.
Qed.

(** Three lines of a report, read by both parsers: the delivery
    probability each of them holds afterwards. *)
Lemma line_parsers_agree_witness :
  lookup3 (foldl (ProphetComparison.parse_line Examples.decimal_float
                    "prophettuned_scenario1_MessageStatsReport.txt" "Prophet" 1)
             (∅, []) ["sim_time: 274883.0"; "delivery_prob: 0.5"; "latency_avg: 12"]).1
    "Prophet" 1 "delivery_prob"
  = (foldl (ProphetComparison2.parse_line Examples.decimal_float
              "HaggleProphet100_MessageStatsReport.txt")
       (metrics_at ∅ "Prophet" 1, [])
       ["sim_time: 274883.0"; "delivery_prob: 0.5"; "latency_avg: 12"]).1
      !! "delivery_prob".
Proof.
  assert (Hall : Forall (λ raw, Py.has_char Py.LF (Py.strip raw) = false)
                   ["sim_time: 274883.0"; "delivery_prob: 0.5"; "latency_avg: 12"])
    by (repeat constructor).
  exact (line_parsers_agree Examples.decimal_float
           "prophettuned_scenario1_MessageStatsReport.txt"
           "HaggleProphet100_MessageStatsReport.txt" "Prophet" 1 _ ∅ [] [] Hall
           "delivery_prob").
Defined.

(** ** File names of the second comparison script *)

Section FileNames2.

Import Py ProphetComparison2.

#[local] Arguments String.append !_ _ / : assert.

Lemma lower_app a b : lower (a +:+ b) = lower a +:+ lower b.
Proof. induction a as [|c a IH]; simpl; [done|]. by rewrite IH. Qed.

Lemma isdigit_lower c : isdigit c = true → lower_char c = c.
Proof. destruct c as [[] [] [] [] [] [] [] []]; vm_compute; intros; done. Qed.

Lemma lower_digits d : all_digits d = true → lower d = d.
Proof.
  induction d as [|c d IH]; simpl; [done|]. intros Hd.
  apply andb_prop in Hd as [Hc Hd]. by rewrite (isdigit_lower c Hc), (IH Hd).
Qed.

Lemma contains_cons sub c s :
  contains sub (String c s) = String.prefix sub (String c s) || contains sub s.
Proof.
  unfold contains. cbn [String.index]. destruct (String.prefix sub (String c s)); [done|].
  by destruct (String.index 0 sub s).
Qed.

Lemma contains_skip a sub c s :
  a ≠ c → contains (String a sub) (String c s) = contains (String a sub) s.
Proof.
  intros Hne. rewrite contains_cons. cbn [String.prefix].
  by destruct (ascii_dec a c).
Qed.

Lemma contains_digits a sub d s :
  isdigit a = false → all_digits d = true →
  contains (String a sub) (d +:+ s) = contains (String a sub) s.
Proof.
  intros Ha. induction d as [|c d IH]; simpl; [done|]. intros Hd.
  apply andb_prop in Hd as [Hc Hd]. rewrite contains_skip by congruence. auto.
Qed.

(** What follows the type words in a file name of the naming scheme. *)
Lemma contains_tail a sub d rest :
  isdigit a = false → a ≠ "_"%char → all_digits d = true →
  contains (String a sub) (d +:+ String "_" (lower rest))
  = contains (String a sub) (lower rest).
Proof.
  intros Ha Hu Hd. rewrite contains_digits by done. by rewrite contains_skip.
Qed.

Lemma scenario_alternative_digits name s d :
  scenario_alternative name s = Some d → digit_text d.
Proof.
  unfold scenario_alternative. destruct (strip_prefix_ci name s) as [r|]; [|done].
  cbn [mbind option_bind]. destruct (span_digits r) as [d' r'] eqn:Hs.
  apply span_digits_sound in Hs as [_ Hd].
  destruct d' as [|c d']; [done|]. destruct r' as [|u r']; [done|].
  destruct u as [[] [] [] [] [] [] [] []]; try done. by intros [= <-].
Qed.

Lemma match_scenario_digits filename d : match_scenario filename = Some d → digit_text d.
Proof.
  induction filename as [|c s IH]; cbn [match_scenario].
  - unfold scenario_at. destruct (scenario_alternative "randomprophet" "") eqn:H1.
    { intros [= <-]. by apply scenario_alternative_digits in H1. }
    destruct (scenario_alternative "prophet" "") eqn:H2; [|done].
    intros [= <-]. by apply scenario_alternative_digits in H2.
  - unfold scenario_at.
    destruct (scenario_alternative "randomprophet" (String c s)) eqn:H1.
    { intros [= <-]. by apply scenario_alternative_digits in H1. }
    destruct (scenario_alternative "prophet" (String c s)) eqn:H2; [|done].
    intros [= <-]. by apply scenario_alternative_digits in H2.
Qed.

Lemma prophet_type_of_types filename pt :
  prophet_type_of filename = inl pt → pt ∈ prophet_types.
Proof.
  unfold prophet_type_of.
  destruct (contains "haggle" _); [|destruct (contains "reality" _); [|done]];
    (destruct (contains "randomprophet" _); [|destruct (contains "prophet" _); [|done]]);
    intros [= <-]; compute_done.
Qed.

Lemma scenario_tail name d rest :
  digit_text d →
  strip_prefix_ci name (name +:+ d +:+ String "_" rest) = Some (d +:+ String "_" rest) →
  scenario_alternative name (name +:+ d +:+ String "_" rest) = Some d.
Proof.
  intros [Hne Hd] Hp. unfold scenario_alternative. rewrite Hp. cbn [mbind option_bind].
  rewrite span_digits_app by done. by destruct d.
Qed.

End FileNames2.

Section Names2.

Import Py ProphetComparison2.

#[local] Arguments String.append !_ _ / : assert.

Lemma named_type (t : string) (d rest : string) :
  all_digits d = true →
  lower (t +:+ d +:+ "_" +:+ rest) = lower t +:+ d +:+ String "_" (lower rest).
Proof.
  intros Hd. rewrite !lower_app. by rewrite (lower_digits d Hd).
Qed.

Lemma words_haggleprophet x :
  contains "haggle" ("haggleprophet" +:+ x) = true ∧
  contains "randomprophet" ("haggleprophet" +:+ x) = contains "randomprophet" x ∧
  contains "prophet" ("haggleprophet" +:+ x) = true.
Proof.
  unfold contains. split_and!; simpl; [done| |by destruct x].
  by destruct (String.index 0 "randomprophet" x).
Qed.

Lemma words_hagglerandomprophet x :
  contains "haggle" ("hagglerandomprophet" +:+ x) = true ∧
  contains "randomprophet" ("hagglerandomprophet" +:+ x) = true.
Proof. unfold contains. split_and!; simpl; [done|by destruct x]. Qed.

Lemma words_realityprophet x :
  contains "haggle" ("realityprophet" +:+ x) = contains "haggle" x ∧
  contains "reality" ("realityprophet" +:+ x) = true ∧
  contains "randomprophet" ("realityprophet" +:+ x) = contains "randomprophet" x ∧
  contains "prophet" ("realityprophet" +:+ x) = true.
Proof.
  unfold contains. split_and!; simpl; [|done| |by destruct x].
  - by destruct (String.index 0 "haggle" x).
  - by destruct (String.index 0 "randomprophet" x).
Qed.

Lemma words_realityrandomprophet x :
  contains "haggle" ("realityrandomprophet" +:+ x) = contains "haggle" x ∧
  contains "reality" ("realityrandomprophet" +:+ x) = true ∧
  contains "randomprophet" ("realityrandomprophet" +:+ x) = true.
Proof.
  unfold contains. split_and!; simpl; [|done|by destruct x].
  by destruct (String.index 0 "haggle" x).
Qed.

Lemma scenario_found (d rest : string) :
  digit_text d →
  match_scenario ("HaggleProphet" +:+ d +:+ "_" +:+ rest) = Some d ∧
  match_scenario ("HaggleRandomProphet" +:+ d +:+ "_" +:+ rest) = Some d ∧
  match_scenario ("RealityProphet" +:+ d +:+ "_" +:+ rest) = Some d ∧
  match_scenario ("RealityRandomProphet" +:+ d +:+ "_" +:+ rest) = Some d.
Proof.
  intros [Hne Hd].
  split_and!; simpl; unfold scenario_at, scenario_alternative; simpl;
    rewrite span_digits_app by done; by destruct d.
Qed.

Lemma type_found (d rest : string) :
  digit_text d →
  (contains "randomprophet" (lower rest) = false →
   prophet_type_of ("HaggleProphet" +:+ d +:+ "_" +:+ rest) = inl "Haggle Prophet") ∧
  prophet_type_of ("HaggleRandomProphet" +:+ d +:+ "_" +:+ rest)
  = inl "Haggle Random Prophet" ∧
  (contains "haggle" (lower rest) = false →
   contains "randomprophet" (lower rest) = false →
   prophet_type_of ("RealityProphet" +:+ d +:+ "_" +:+ rest) = inl "Reality Prophet") ∧
  (contains "haggle" (lower rest) = false →
   prophet_type_of ("RealityRandomProphet" +:+ d +:+ "_" +:+ rest)
   = inl "Reality Random Prophet").
Proof.
  intros [Hne Hd]. split_and!.
  - intros Hr. unfold prophet_type_of. rewrite named_type by done.
    change (lower "HaggleProphet") with "haggleprophet".
    destruct (words_haggleprophet (d +:+ String "_" (lower rest))) as (-> & -> & ->).
    by rewrite contains_tail, Hr.
  - unfold prophet_type_of. rewrite named_type by done.
    change (lower "HaggleRandomProphet") with "hagglerandomprophet".
    by destruct (words_hagglerandomprophet (d +:+ String "_" (lower rest))) as (-> & ->).
  - intros Hh Hr. unfold prophet_type_of. rewrite named_type by done.
    change (lower "RealityProphet") with "realityprophet".
    destruct (words_realityprophet (d +:+ String "_" (lower rest))) as (-> & -> & -> & ->).
    by rewrite !contains_tail, Hh, Hr.
  - intros Hh. unfold prophet_type_of. rewrite named_type by done.
    change (lower "RealityRandomProphet") with "realityrandomprophet".
    destruct (words_realityrandomprophet (d +:+ String "_" (lower rest))) as (-> & -> & ->).
    by rewrite !contains_tail, Hh.
Qed.

End Names2.

(** ** Records and figures of the second comparison script *)

Section Records2.

Import Py ProphetComparison2.

Variable py_float : string → option float.
Variable fs : string → Fs.file_state.

Lemma parse_line2_keys filename data out raw :
  (∀ k, is_Some (data !! k) → k ∈ metric_keys) →
  ∀ k, is_Some ((parse_line py_float filename (data, out) raw).1 !! k) → k ∈ metric_keys.
Proof.
  intros Hkeys k. unfold parse_line.
  destruct (has_char ":" (strip raw)); [|by apply Hkeys].
  destruct (split_once ":" (strip raw)) as [[g1 rest]|]; [|by apply Hkeys].
  change (METRICS_TO_PLOT.*1) with metric_keys.
  case_bool_decide as Hk; [|by apply Hkeys].
  destruct (py_float (strip rest)); simpl;
    (destruct (decide (k = strip g1)) as [->|]; [done|]);
    rewrite lookup_insert_ne by done; apply Hkeys.
Qed.

Lemma parse_lines2_keys filename lines data out :
  (∀ k, is_Some (data !! k) → k ∈ metric_keys) →
  ∀ k, is_Some ((foldl (parse_line py_float filename) (data, out) lines).1 !! k) →
       k ∈ metric_keys.
Proof.
  revert data out. induction lines as [|raw lines IH]; intros data out Hkeys;
    cbn [foldl]; [done|].
  pose proof (parse_line2_keys filename data out raw Hkeys) as Hstep.
  destruct (parse_line py_float filename (data, out) raw) as [data' out'].
  by apply IH.
Qed.

Lemma parsed_record filepath item out :
  parse_message_stats_file py_float fs filepath = (Some item, out) →
  prophet_type item ∈ prophet_types ∧ 0 ≤ scenario_number item ∧
  metrics item ≠ ∅ ∧ (∀ k, is_Some (metrics item !! k) → k ∈ metric_keys) ∧
  ∃ lines, fs filepath = Fs.Lines lines.
Proof.
  unfold parse_message_stats_file.
  destruct (prophet_type_of (basename filepath)) as [pt|] eqn:Hpt; [|done].
  destruct (match_scenario (basename filepath)) as [d|] eqn:Hd; [|done].
  destruct (fs filepath) as [| |lines|ls e]; [done..| |by destruct (foldl _ _ ls)].
  pose proof (parse_lines2_keys (basename filepath) lines ∅ []) as Hkeys.
  destruct (foldl _ _ lines) as [data out'].
  case_bool_decide as Hne; [done|]. intros [= <- <-]. simpl. split_and!.
  - by apply prophet_type_of_types in Hpt.
  - apply match_scenario_digits in Hd as [_ Hd]. by apply digits_to_Z_nonneg.
  - done.
  - apply Hkeys. intros k [? Hk]. by rewrite lookup_empty in Hk.
  - by exists lines.
Qed.

Lemma located_record script_dir data_files item :
  item ∈ (locate_all py_float fs script_dir data_files).1 →
  prophet_type item ∈ prophet_types ∧ 0 ≤ scenario_number item ∧
  metrics item ≠ ∅ ∧ (∀ k, is_Some (metrics item !! k) → k ∈ metric_keys).
Proof.
  rewrite locate_all_items. intros Hin. apply list_elem_of_omap in Hin as (e & _ & He).
  unfold parsed_item in He. destruct (Fs.exists_ _); [|done].
  destruct (parse_message_stats_file py_float fs (resolve script_dir e)) as [o out] eqn:Hp.
  simpl in He. subst o. apply parsed_record in Hp as (? & ? & ? & ? & _). done.
Qed.

End Records2.

Section Stable.

Import ProphetComparison2.

Lemma insert_by_key_split x l :
  StronglySorted key_le l →
  ∃ l1 l2, l = l1 ++ l2 ∧ insert_by_key x l = l1 ++ x :: l2 ∧
           Forall (λ y, x.1 < y.1) l2.
Proof.
  induction l as [|y l IH]; intros Hs; simpl.
  - by exists [], [].
  - apply StronglySorted_inv in Hs as [Hs Hy].
    destruct (Z.leb_spec y.1 x.1) as [Hle|Hlt].
    + destruct (IH Hs) as (l1 & l2 & -> & -> & Hl2). by exists (y :: l1), l2.
    + exists [], (y :: l). split_and!; [done..|]. constructor; [done|].
      eapply Forall_impl; [exact Hy|]. unfold key_le. intros z Hz. simpl in *. lia.
Qed.

Lemma at_scenario_app k l1 l2 :
  at_scenario k (l1 ++ l2) = at_scenario k l1 ++ at_scenario k l2.
Proof. apply filter_app. Qed.

Lemma at_scenario_above k l : Forall (λ y, k < y.1) l → at_scenario k l = [].
Proof.
  unfold at_scenario. induction 1 as [|y l Hy _ IH]; [done|].
  rewrite filter_cons. destruct (decide (y.1 = k)); [lia|done].
Qed.

Lemma at_scenario_insert k x l :
  StronglySorted key_le l →
  at_scenario k (insert_by_key x l) = at_scenario k l ++ at_scenario k [x].
Proof.
  intros Hs. destruct (insert_by_key_split x l Hs) as (l1 & l2 & -> & -> & Hl2).
  change (l1 ++ x :: l2) with (l1 ++ [x] ++ l2). rewrite !at_scenario_app.
  assert (at_scenario k [x] = if decide (x.1 = k) then [x] else []) as ->.
  { unfold at_scenario. rewrite filter_cons, filter_nil. by destruct (decide (x.1 = k)). }
  destruct (decide (x.1 = k)) as [<-|]; simpl.
  - rewrite (at_scenario_above _ l2 Hl2). by rewrite !app_nil_r.
  - by rewrite app_nil_r.
Qed.

Lemma at_scenario_fold k acc l :
  StronglySorted key_le acc →
  at_scenario k (foldl (λ acc x, insert_by_key x acc) acc l)
  = at_scenario k acc ++ at_scenario k l.
Proof.
  revert acc. induction l as [|x l IH]; intros acc Hs; cbn [foldl].
  - assert (at_scenario k [] = []) as -> by done. by rewrite app_nil_r.
  - rewrite IH by by apply insert_by_key_sorted. rewrite at_scenario_insert by done.
    change (x :: l) with ([x] ++ l). by rewrite at_scenario_app, app_assoc.
Qed.

Lemma sort_by_key_stable k l : at_scenario k (sort_by_key l) = at_scenario k l.
Proof.
  unfold sort_by_key. rewrite at_scenario_fold by constructor. done.
Qed.

End Stable.

Lemma elem_of_points_of (items : list ProphetComparison2.parsed) (pt mk : string) (sc : Z) :
  sc ∈ (points_of items pt mk).*1
  ↔ ∃ item, item ∈ items ∧ ProphetComparison2.prophet_type item = pt ∧
            ProphetComparison2.scenario_number item = sc ∧
            is_Some (ProphetComparison2.metrics item !! mk).
Proof.
  unfold points_of. rewrite list_elem_of_fmap. split.
  - intros ([sc' v] & -> & Hin). apply list_elem_of_omap in Hin as (item & Hitem & Hf).
    destruct (decide (ProphetComparison2.prophet_type item = pt)) as [Hpt|]; [|done].
    destruct (ProphetComparison2.metrics item !! mk) as [v'|] eqn:Hv; [|done].
    injection Hf as <- <-. exists item. by rewrite Hv.
  - intros (item & Hitem & Hpt & Hsc & [v Hv]). exists (sc, v). split; [done|].
    apply list_elem_of_omap. exists item. split; [done|].
    rewrite decide_True by done. by rewrite Hv, Hsc.
Qed.

Section Figures2.

Import ProphetComparison2.

Lemma plot_inversion items out pd present figures :
  plot items = (out, Plotted pd present figures) →
  items ≠ [] ∧ pd = reshape items ∧
  present = merge_sort (≤)%string (map_to_list pd).*1 ∧
  figures = omap (λ r, match r with inl f => Some f | inr _ => None end)
              (plot_metric pd present <$> METRICS_TO_PLOT) ∧
  out = omap (λ r, match r with inr msg => Some msg | inl _ => None end)
          (plot_metric pd present <$> METRICS_TO_PLOT) ++ ["Plotting complete."].
Proof.
  unfold plot. destruct items as [|item0 items0]; [done|].
  set (items := item0 :: items0) in *.
  destruct (merge_sort _ (map_to_list (reshape items)).*1) as [|pt0 present0] eqn:Hpresent;
    [done|].
  cbv zeta. destruct (show_figures _) as [[out0 figures0] completed] eqn:Hshow.
  destruct completed; [|done]. intros Heq.
  assert (pd = reshape items) as -> by congruence.
  assert (present = pt0 :: present0) as -> by congruence.
  apply show_figures_completed in Hshow as (Hfigs & Hout & _).
  split_and!; [done|done|done|congruence|congruence].
Qed.

Lemma plot_exits2 items :
  Forall (λ item, metrics item ≠ ∅) items → (plot items).2 = Exited ↔ items = [].
Proof.
  intros Hall. unfold plot. destruct items as [|item0 items0]; [done|].
  set (items := item0 :: items0) in *. split; [|done]. intros Hex. exfalso.
  destruct (merge_sort _ (map_to_list (reshape items)).*1) as [|pt0 present0] eqn:Hpresent;
    [|cbv zeta in Hex; by destruct (show_figures _) as [[? ?] []]].
  assert (prophet_type item0 ∈ (map_to_list (reshape items)).*1) as Hin.
  { apply elem_of_keys. apply reshape_spec. exists item0. split_and!; [by left|done|].
    by apply Forall_inv in Hall. }
  rewrite <-(merge_sort_Permutation (≤)%string), Hpresent in Hin.
  by apply elem_of_nil in Hin.
Qed.

Lemma plot_metric_figure pd present m fig :
  plot_metric pd present m = inl fig →
  metric fig = m.1 ∧ title fig = m.2 +:+ " Comparison" ∧
  lines fig = omap (line_of pd m.1) present ∧ lines fig ≠ [] ∧
  xticks fig = merge_sort Z.le (elements (list_to_set (C := gset Z) (mjoin (xs <$> lines fig)))).
Proof.
  unfold plot_metric. destruct m as [mk lbl].
  destruct (omap (line_of pd mk) present) as [|ln0 lns] eqn:Hl; [done|].
  intros Heq. apply (inj inl) in Heq. subst fig. cbn [metric title lines xticks fst snd].
  by rewrite Hl.
Qed.

Lemma plot_metric_message pd present m msg :
  plot_metric pd present m = inr msg →
  msg = "No data found for metric: " +:+ m.2 +:+ ". Skipping plot.".
Proof.
  unfold plot_metric. destruct m as [mk lbl].
  destruct (omap (line_of pd mk) present) as [|ln0 lns]; [|done]. by intros [= <-].
Qed.

Lemma line_of_points pd mk pt ln :
  line_of pd mk pt = Some ln →
  label ln = pt ∧ xs ln ≠ [] ∧ length (xs ln) = length (ys ln) ∧
  ∃ l, (pd !!! pt) !! mk = Some l ∧ xs ln = l.*1 ∧ ys ln = l.*2.
Proof.
  unfold line_of. destruct ((pd !!! pt) !! mk) as [[|p l]|] eqn:Hl; [done| |done].
  intros [= <-]. cbn [label xs ys]. split_and!; [done|done| |by eexists].
  change (length (p :: l).*1 = length (p :: l).*2). by rewrite !length_fmap.
Qed.

Lemma omap_sublist {A B} (f : A → option B) (g : B → A) (l : list A) :
  (∀ x y, f x = Some y → g y = x) → g <$> omap f l `sublist_of` l.
Proof.
  intros Hfg. induction l as [|x l IH]; [done|]. cbn [omap list_omap].
  destruct (f x) as [y|] eqn:Hx.
  - rewrite fmap_cons, (Hfg x y Hx). by apply sublist_skip.
  - by apply sublist_cons.
Qed.

Lemma main_with_inversion py_float fs script_dir data_files out result :
  main_with py_float fs script_dir data_files = (out, result) →
  ∃ out', plot (locate_all py_float fs script_dir data_files).1 = (out', result) ∧
          out = (locate_all py_float fs script_dir data_files).2 ++ out'.
Proof.
  unfold main_with. destruct (locate_all _ _ _ _) as [items out0]. cbn [fst snd].
  destruct (plot items) as [out' r]. intros [= <- <-]. by exists out'.
Qed.

(** The prophet types present are those of the records. *)
Lemma present_spec items pt :
  Forall (λ item, metrics item ≠ ∅) items →
  pt ∈ merge_sort (≤)%string (map_to_list (reshape items)).*1
  ↔ ∃ item, item ∈ items ∧ prophet_type item = pt.
Proof.
  intros Hall. rewrite merge_sort_Permutation, elem_of_keys, (proj1 (reshape_spec items)).
  split.
  - intros (item & ? & ? & _). by exists item.
  - intros (item & Hin & Hpt). exists item. split_and!; [done..|].
    rewrite Forall_forall in Hall. by apply Hall.
Qed.

Lemma line_xs items mk pt ln sc :
  line_of (reshape items) mk pt = Some ln →
  sc ∈ xs ln
  ↔ ∃ item, item ∈ items ∧ prophet_type item = pt ∧ scenario_number item = sc ∧
            is_Some (metrics item !! mk).
Proof.
  rewrite line_of_reshape. destruct (points_of items pt mk) as [|p l] eqn:Hp; [done|].
  cbv zeta. intros [= <-]. cbn [xs].
  rewrite (sort_by_key_perm (p :: l)), <-Hp. apply elem_of_points_of.
Qed.

Lemma line_exists items mk pt :
  is_Some (line_of (reshape items) mk pt)
  ↔ ∃ item, item ∈ items ∧ prophet_type item = pt ∧ is_Some (metrics item !! mk).
Proof.
  split.
  - intros [ln Hln]. pose proof (line_of_points _ _ _ _ Hln) as (_ & Hne & _).
    destruct (xs ln) as [|sc l] eqn:Hxs; [done|].
    assert (sc ∈ xs ln) as Hsc by (rewrite Hxs; by left).
    destruct (proj1 (line_xs _ _ _ _ _ Hln) Hsc) as (item & Hi & Hp & _ & Hmk).
    by exists item.
  - intros (item & Hin & Hpt & Hmk). rewrite line_of_reshape.
    assert (scenario_number item ∈ (points_of items pt mk).*1) as Hsc.
    { apply elem_of_points_of. by exists item. }
    destruct (points_of items pt mk) as [|p l]; [by apply elem_of_nil in Hsc|].
    by eexists.
Qed.

(** A metric has a figure exactly when some record holds it. *)
Lemma plot_metric_data items m :
  Forall (λ item, metrics item ≠ ∅) items →
  (∃ fig, plot_metric (reshape items)
            (merge_sort (≤)%string (map_to_list (reshape items)).*1) m = inl fig)
  ↔ holds_metric items m.1.
Proof.
  intros Hall. destruct m as [mk lbl]. unfold plot_metric, holds_metric. cbn [fst].
  rewrite Exists_exists.
  set (present := merge_sort _ _).
  destruct (omap (line_of (reshape items) mk) present) as [|ln0 lns] eqn:Hlines.
  - split; [by intros [? ?]|]. intros (item & Hin & Hmk). exfalso.
    assert (prophet_type item ∈ present) as Hpt by (apply present_spec; [done|by exists item]).
    assert (is_Some (line_of (reshape items) mk (prophet_type item))) as [ln Hln]
      by (apply line_exists; by exists item).
    assert (ln ∈ omap (line_of (reshape items) mk) present) as Hin'
      by (apply list_elem_of_omap; by exists (prophet_type item)).
    rewrite Hlines in Hin'. by apply elem_of_nil in Hin'.
  - split; [intros _|by eexists].
    assert (ln0 ∈ omap (line_of (reshape items) mk) present) as Hin
      by (rewrite Hlines; by left).
    apply list_elem_of_omap in Hin as (pt & _ & Hln).
    assert (is_Some (line_of (reshape items) mk pt)) as Hs by (by eexists).
    apply line_exists in Hs as (item & ? & _ & ?). by exists item.
Qed.

(** The ticks of a figure are the scenario numbers of the records that hold
    its metric. *)
Lemma figure_ticks items m fig sc :
  Forall (λ item, metrics item ≠ ∅) items →
  plot_metric (reshape items)
    (merge_sort (≤)%string (map_to_list (reshape items)).*1) m = inl fig →
  sc ∈ xticks fig
  ↔ ∃ item, item ∈ items ∧ scenario_number item = sc ∧ is_Some (metrics item !! m.1).
Proof.
  intros Hall Hm. apply plot_metric_figure in Hm as (_ & _ & Hlines & _ & Hticks).
  rewrite Hticks, merge_sort_Permutation, elem_of_elements, elem_of_list_to_set,
    list_elem_of_join. split.
  - intros (l & Hsc & Hl). apply list_elem_of_fmap in Hl as (ln & -> & Hln).
    rewrite Hlines in Hln. apply list_elem_of_omap in Hln as (pt & _ & Hline).
    destruct (proj1 (line_xs _ _ _ _ _ Hline) Hsc) as (item & Hi & _ & Hs & Hmk).
    by exists item.
  - intros (item & Hin & Hsc & Hmk).
    assert (prophet_type item ∈ merge_sort (≤)%string (map_to_list (reshape items)).*1)
      as Hpt by (apply present_spec; [done|by exists item]).
    assert (is_Some (line_of (reshape items) m.1 (prophet_type item))) as [ln Hln]
      by (apply line_exists; by exists item).
    exists (xs ln). split.
    + apply (line_xs _ _ _ _ _ Hln). by exists item.
    + apply list_elem_of_fmap. exists ln. split; [done|]. rewrite Hlines.
      apply list_elem_of_omap. by exists (prophet_type item).
Qed.

Lemma ticks_refused fig :
  ticks_accepted fig = false ↔ ∃ sc, sc ∈ xticks fig ∧ 2 ^ 64 ≤ sc.
Proof.
  unfold ticks_accepted. induction (xticks fig) as [|sc l IH]; cbn [forallb].
  - split; [done|]. intros (? & Hin & _). by apply elem_of_nil in Hin.
  - rewrite andb_false_iff, IH. split.
    + intros [Hsc|(sc' & ? & ?)].
      * exists sc. split; [by left|]. by apply Z.ltb_ge.
      * exists sc'. split; [by right|done].
    + intros (sc' & Hin & Hsc'). apply elem_of_cons in Hin as [->|Hin].
      * left. by apply Z.ltb_ge.
      * right. by exists sc'.
Qed.

(** The figures and messages of the metrics, read off the records. *)
Lemma results_split items ms :
  Forall (λ item, metrics item ≠ ∅) items →
  let rs := plot_metric (reshape items)
              (merge_sort (≤)%string (map_to_list (reshape items)).*1) <$> ms in
  metric <$> omap (λ r, match r with inl f => Some f | inr _ => None end) rs
  = filter (holds_metric items) ms.*1 ∧
  omap (λ r, match r with inl _ => None | inr msg => Some msg end) rs
  = no_data_message <$> filter (λ m, ¬ holds_metric items m.1) ms.
Proof.
  intros Hall. cbv zeta. induction ms as [|m ms [IH1 IH2]]; [done|].
  rewrite !fmap_cons. cbn [omap list_omap]. rewrite !filter_cons.
  pose proof (plot_metric_data items m Hall) as Hdata.
  destruct (plot_metric _ _ m) as [fig|msg] eqn:Hm.
  - assert (holds_metric items m.1) as Hh by (apply Hdata; by eexists).
    rewrite decide_True by done. rewrite decide_False by (by intros ?).
    apply plot_metric_figure in Hm as (Hmf & _). rewrite fmap_cons, Hmf, IH1. done.
  - assert (¬ holds_metric items m.1) as Hh.
    { intros Hh. apply Hdata in Hh as [? ?]. done. }
    rewrite decide_False by done. rewrite decide_True by done.
    apply plot_metric_message in Hm as ->. rewrite fmap_cons, IH2. done.
Qed.

(** What the script does with records: the first check alone can end it. *)
Lemma plot_records items :
  items ≠ [] → Forall (λ item, metrics item ≠ ∅) items →
  plot items
  = let '(out, figures, completed) :=
      show_figures (plot_metric (reshape items)
                      (merge_sort (≤)%string (map_to_list (reshape items)).*1)
                      <$> METRICS_TO_PLOT) in
    if completed then
      (out ++ ["Plotting complete."],
       Plotted (reshape items)
         (merge_sort (≤)%string (map_to_list (reshape items)).*1) figures)
    else (out, Raised figures).
Proof.
  intros Hne Hall. unfold plot. destruct items as [|item0 items0]; [done|].
  set (items := item0 :: items0) in *.
  destruct (merge_sort _ (map_to_list (reshape items)).*1) as [|pt0 present0] eqn:Hpresent;
    [|done].
  assert (prophet_type item0 ∈ merge_sort (≤)%string (map_to_list (reshape items)).*1)
    as Hin by (apply present_spec; [done|exists item0; split; [by left|done]]).
  rewrite Hpresent in Hin. by apply elem_of_nil in Hin.
Qed.

(** The first figure that is refused, and what was printed and shown
    before it. *)
Lemma show_figures_refused rs out figures :
  show_figures rs = (out, figures, false) →
  ∃ (n : nat) fig,
    rs !! n = Some (inl fig) ∧ ticks_accepted fig = false ∧
    show_figures (take n rs) = (out, figures, true).
Proof.
  revert out figures. induction rs as [|[fig|msg] rs IH]; intros out figures;
    cbn [show_figures]; [done| |].
  - destruct (ticks_accepted fig) eqn:Hok.
    + destruct (show_figures rs) as [[out' figures'] completed'].
      intros [= <- <- ->]. destruct (IH _ _ eq_refl) as (n & fig' & Hn & Hno & Hshow).
      exists (S n), fig'. split_and!; [done..|]. cbn [take show_figures].
      by rewrite Hok, Hshow.
    + intros [= <- <-]. by exists 0%nat, fig.
  - destruct (show_figures rs) as [[out' figures'] completed'].
    intros [= <- <- ->]. destruct (IH _ _ eq_refl) as (n & fig' & Hn & Hno & Hshow).
    exists (S n), fig'. split_and!; [done..|]. cbn [take show_figures]. by rewrite Hshow.
Qed.

(** An exception leaves the script exactly when a record has a scenario
    number of at least 2^64. *)
Lemma plot_raised items :
  Forall (λ item, metrics item ≠ ∅ ∧ ∀ k, is_Some (metrics item !! k) → k ∈ metric_keys)
         items →
  (∃ shown, (plot items).2 = Raised shown)
  ↔ ∃ item, item ∈ items ∧ 2 ^ 64 ≤ scenario_number item.
Proof.
  intros Hall.
  assert (Hne : Forall (λ item, metrics item ≠ ∅) items)
    by (eapply Forall_impl; [exact Hall|]; by intros ? [? _]).
  destruct items as [|item0 items0].
  { split; [by intros [? ?]|]. intros (? & Hin & _). by apply elem_of_nil in Hin. }
  set (items := item0 :: items0) in *.
  rewrite (plot_records items) by done.
  destruct (show_figures _) as [[out figures] completed] eqn:Hshow. split.
  - intros [shown Hraised]. destruct completed; [done|].
    apply show_figures_refused in Hshow as (n & fig & Hn & Hno & _).
    rewrite list_lookup_fmap in Hn.
    destruct (METRICS_TO_PLOT !! n) as [m|]; [|done]. injection Hn as Hm.
    apply ticks_refused in Hno as (sc & Hsc & Hbig).
    apply (figure_ticks items m fig sc Hne Hm) in Hsc as (item & Hin & <- & _).
    by exists item.
  - intros (item & Hin & Hbig). destruct completed; [|by eexists]. exfalso.
    apply show_figures_completed in Hshow as (-> & _ & Hok).
    rewrite Forall_forall in Hall. destruct (Hall item Hin) as [Hnonempty Hkeys].
    destruct (map_choose _ Hnonempty) as (k & v & Hk).
    assert (k ∈ metric_keys) as Hkin by (apply Hkeys; by eexists).
    assert (∃ m, m ∈ METRICS_TO_PLOT ∧ m.1 = k) as (m & Hm & <-).
    { change metric_keys with (METRICS_TO_PLOT.*1) in Hkin.
      apply list_elem_of_fmap in Hkin as (m & -> & ?). by exists m. }
    assert (holds_metric items m.1) as Hh
      by (apply Exists_exists; exists item; split; [done|by eexists]).
    apply (plot_metric_data items m Hne) in Hh as [fig Hfig].
    assert (scenario_number item ∈ xticks fig) as Htick.
    { apply (figure_ticks items m fig _ Hne Hfig). exists item. split_and!; [done..|].
      by eexists. }
    assert (ticks_accepted fig = false) as Hno
      by (apply ticks_refused; by exists (scenario_number item)).
    rewrite Forall_forall in Hok. rewrite (Hok fig) in Hno; [done|].
    apply list_elem_of_omap. exists (inl fig). split; [|done].
    apply list_elem_of_fmap. by exists m.
Qed.

End Figures2.

(** X17: the second comparison script recognises the names of its naming
    scheme: Haggle or Reality, then Prophet or RandomProphet, a non-empty
    run of decimal digits, an underscore and a rest.  The prophet type is
    read off the two words and the scenario digits are the run, provided the
    rest does not itself contain the word haggle (for a Reality name) or
    randomprophet (for a Prophet name), letter case ignored. *)
Theorem recognised_stats_names (d rest : string) :
  digit_text d →
  Py.contains "haggle" (Py.lower rest) = false →
  Py.contains "randomprophet" (Py.lower rest) = false →
  let parse name :=
    (ProphetComparison2.prophet_type_of name, ProphetComparison2.match_scenario name) in
  parse ("HaggleProphet" +:+ d +:+ "_" +:+ rest) = (inl "Haggle Prophet", Some d) ∧
  parse ("HaggleRandomProphet" +:+ d +:+ "_" +:+ rest)
  = (inl "Haggle Random Prophet", Some d) ∧
  parse ("RealityProphet" +:+ d +:+ "_" +:+ rest) = (inl "Reality Prophet", Some d) ∧
  parse ("RealityRandomProphet" +:+ d +:+ "_" +:+ rest)
  = (inl "Reality Random Prophet", Some d).
Proof.
  intros Hd Hh Hr. cbv zeta.
  destruct (type_found d rest Hd) as (H1 & H2 & H3 & H4).
  destruct (scenario_found d rest Hd) as (S1 & S2 & S3 & S4).
  by rewrite H1, H2, H3, H4, S1, S2, S3, S4.
Qed.

(** The names of the script's own file list for scenario 100. *)
Lemma recognised_stats_names_witness :
  let parse name :=
    (ProphetComparison2.prophet_type_of name, ProphetComparison2.match_scenario name) in
  parse ("HaggleProphet" +:+ "100" +:+ "_" +:+ "MessageStatsReport.txt")
  = (inl "Haggle Prophet", Some "100") ∧
  parse ("HaggleRandomProphet" +:+ "100" +:+ "_" +:+ "MessageStatsReport.txt")
  = (inl "Haggle Random Prophet", Some "100") ∧
  parse ("RealityProphet" +:+ "100" +:+ "_" +:+ "MessageStatsReport.txt")
  = (inl "Reality Prophet", Some "100") ∧
  parse ("RealityRandomProphet" +:+ "100" +:+ "_" +:+ "MessageStatsReport.txt")
  = (inl "Reality Random Prophet", Some "100").
Proof.
  assert (Hd : digit_text "100") by (split; [discriminate|reflexivity]).
  exact (recognised_stats_names "100" "MessageStatsReport.txt" Hd eq_refl eq_refl).
Defined.

(** X18: a record the parser of the second comparison script returns comes
    from a readable file, has one of the four prophet types, a scenario
    number that is not negative and at least one metric, and holds no key
    besides the six retained ones. *)
Theorem accepted_report_record
    (py_float : string → option float) (fs : string → Fs.file_state)
    (filepath : string) (item : ProphetComparison2.parsed) (out : list string) :
  ProphetComparison2.parse_message_stats_file py_float fs filepath = (Some item, out) →
  ProphetComparison2.prophet_type item ∈ prophet_types ∧
  0 ≤ ProphetComparison2.scenario_number item ∧
  ProphetComparison2.metrics item ≠ ∅ ∧
  (∀ k, is_Some (ProphetComparison2.metrics item !! k) → k ∈ metric_keys) ∧
  ∃ lines, fs filepath = Fs.Lines lines.
Proof. apply parsed_record. Qed.

(** The record of the first Haggle report of the examples. *)
Lemma accepted_report_record_witness :
  ProphetComparison2.parse_message_stats_file Examples.decimal_float Examples.report_fs
    "/d/HaggleProphet100_MessageStatsReport.txt"
  = (Some MoreExamples.haggle_item, []) ∧
  ProphetComparison2.prophet_type MoreExamples.haggle_item = "Haggle Prophet" ∧
  ProphetComparison2.scenario_number MoreExamples.haggle_item = 100 ∧
  ProphetComparison2.prophet_type MoreExamples.haggle_item ∈ prophet_types ∧
  0 ≤ ProphetComparison2.scenario_number MoreExamples.haggle_item ∧
  ProphetComparison2.metrics MoreExamples.haggle_item ≠ ∅ ∧
  (∀ k, is_Some (ProphetComparison2.metrics MoreExamples.haggle_item !! k)
        → k ∈ metric_keys) ∧
  ∃ lines, Examples.report_fs "/d/HaggleProphet100_MessageStatsReport.txt"
           = Fs.Lines lines.
Proof.
  assert (Hrun : ProphetComparison2.parse_message_stats_file Examples.decimal_float
                   Examples.report_fs "/d/HaggleProphet100_MessageStatsReport.txt"
                 = (Some MoreExamples.haggle_item, []))
    by (vm_compute; reflexivity).
  split; [exact Hrun|]. split; [vm_compute; reflexivity|].
  split; [vm_compute; reflexivity|].
  exact (accepted_report_record _ _ _ _ _ Hrun).
Defined.

(** X19: reshaping loses and invents nothing.  The series of a prophet
    type and a metric exists exactly when some record contributes a point;
    it is then a rearrangement of the contributed points, and points with the
    same scenario number keep the order of the records (the sort is stable). *)
Theorem reshape_keeps_points
    (items : list ProphetComparison2.parsed) (pt mk : string) :
  match lookup2 (ProphetComparison2.reshape items) pt mk with
  | Some series =>
      series ≠ [] ∧ series ≡ₚ points_of items pt mk ∧
      ∀ k, at_scenario k series = at_scenario k (points_of items pt mk)
  | None => points_of items pt mk = []
  end.
Proof.
  rewrite (proj2 (reshape_spec items)).
  destruct (points_of items pt mk) as [|p l] eqn:Hp; [done|].
  split_and!.
  - intros Hnil. pose proof (sort_by_key_perm (p :: l)) as Hperm.
    rewrite Hnil in Hperm. by apply Permutation_nil_cons in Hperm.
  - apply sort_by_key_perm.
  - intros k. apply sort_by_key_stable.
Qed.

Lemma no_records py_float fs script_dir data_files :
  (ProphetComparison2.locate_all py_float fs script_dir data_files).1 = []
  ↔ Forall (λ file_entry, parsed_item py_float fs script_dir file_entry = None) data_files.
Proof.
  rewrite locate_all_items. induction data_files as [|e l IH]; [done|].
  cbn [omap list_omap]. rewrite Forall_cons.
  destruct (parsed_item py_float fs script_dir e); [|by rewrite IH; intuition].
  split; [done|by intros [? _]].
Qed.

(** X22: how the second comparison script ends.  It exits without a figure
    exactly when no entry of the file list yields a record (the later check
    for prophet types never fires).  An exception of matplotlib leaves it
    exactly when some record has a scenario number of at least 2^64, as for
    the one report HaggleProphet18446744073709551616_MessageStatsReport.txt,
    where nothing is shown.  It shows its figures and prints that plotting
    is complete exactly when there is a record and every record has a
    scenario number below 2^64. *)
Theorem exits_iff_nothing_parsed
    (py_float : string → option float) (fs : string → Fs.file_state)
    (script_dir : string) (data_files : list string) :
  let result := (ProphetComparison2.main_with py_float fs script_dir data_files).2 in
  let records := (ProphetComparison2.locate_all py_float fs script_dir data_files).1 in
  (result = ProphetComparison2.Exited
   ↔ Forall (λ file_entry, parsed_item py_float fs script_dir file_entry = None)
            data_files) ∧
  ((∃ shown, result = ProphetComparison2.Raised shown)
   ↔ ∃ item, item ∈ records ∧ 2 ^ 64 ≤ ProphetComparison2.scenario_number item) ∧
  ((∃ pd present figures, result = ProphetComparison2.Plotted pd present figures)
   ↔ records ≠ [] ∧
     ∀ item, item ∈ records → ProphetComparison2.scenario_number item < 2 ^ 64) ∧
  ProphetComparison2.main_with Examples.decimal_float MoreExamples.far_fs "/d"
    MoreExamples.far_files
  = (["Script is running from: /d"; "Looking for data files...";
      "Processing file: /d/HaggleProphet18446744073709551616_MessageStatsReport.txt"],
     ProphetComparison2.Raised []).
Proof.
  cbv zeta. rewrite main_with_outcome.
  set (records := (ProphetComparison2.locate_all py_float fs script_dir data_files).1).
  assert (Hrec : Forall (λ item, ProphetComparison2.metrics item ≠ ∅ ∧
                           ∀ k, is_Some (ProphetComparison2.metrics item !! k)
                                → k ∈ metric_keys) records).
  { apply Forall_forall. intros item Hin.
    by apply located_record in Hin as (_ & _ & ? & ?). }
  assert (Hne : Forall (λ item, ProphetComparison2.metrics item ≠ ∅) records)
    by (eapply Forall_impl; [exact Hrec|]; by intros ? [? _]).
  pose proof (plot_exits2 records Hne) as Hexit.
  pose proof (plot_raised records Hrec) as Hraised.
  split_and!; [| exact Hraised | |vm_compute; reflexivity].
  - rewrite Hexit. apply no_records.
  - split.
    + intros (pd & present & figures & Hplot). split.
      * intros Hnil. apply Hexit in Hnil. congruence.
      * intros item Hin. destruct (Z.lt_ge_cases (ProphetComparison2.scenario_number item)
                                     (2 ^ 64)) as [?|Hbig]; [done|].
        destruct (proj2 Hraised (ex_intro _ item (conj Hin Hbig))) as [shown Hshown].
        congruence.
    + intros [Hnonempty Hsmall].
      destruct (ProphetComparison2.plot records).2 as [|pd present figures|shown] eqn:Hres.
      * destruct Hnonempty. by apply Hexit.
      * by eexists _, _, _.
      * destruct (proj1 Hraised (ex_intro _ shown eq_refl)) as (item & Hin & Hbig).
        specialize (Hsmall item Hin). lia.
Qed.

(** X20: in every figure of the second comparison script the ticks of the
    x-axis are, without repetition, exactly the scenario numbers at which
    some line of the figure has a point; and a line has a point at a
    scenario number exactly when a parsed record of the line's prophet type
    and that scenario number holds the figure's metric. *)
Theorem xticks_cover_the_lines
    (py_float : string → option float) (fs : string → Fs.file_state)
    (script_dir : string) (data_files out : list string)
    (pd : gmap string (gmap string (list (Z * float)))) (present : list string)
    (figures : list ProphetComparison2.figure) :
  ProphetComparison2.main_with py_float fs script_dir data_files
    = (out, ProphetComparison2.Plotted pd present figures) →
  ∀ fig, fig ∈ figures →
    NoDup (ProphetComparison2.xticks fig) ∧
    (∀ sc, sc ∈ ProphetComparison2.xticks fig
           ↔ ∃ ln, ln ∈ ProphetComparison2.lines fig ∧ sc ∈ ProphetComparison2.xs ln) ∧
    ∀ ln sc, ln ∈ ProphetComparison2.lines fig →
      (sc ∈ ProphetComparison2.xs ln
       ↔ ∃ item,
           item ∈ (ProphetComparison2.locate_all py_float fs script_dir data_files).1 ∧
           ProphetComparison2.prophet_type item = ProphetComparison2.label ln ∧
           ProphetComparison2.scenario_number item = sc ∧
           is_Some (ProphetComparison2.metrics item !! ProphetComparison2.metric fig)).
Proof.
  intros Hmain fig Hfig.
  apply main_with_inversion in Hmain as (out' & Hplot & _).
  apply plot_inversion in Hplot as (_ & -> & _ & -> & _).
  apply list_elem_of_omap in Hfig as (r & Hr & Hfig). destruct r as [fig'|]; [|done].
  injection Hfig as ->. apply list_elem_of_fmap in Hr as (m & Hm & _). symmetry in Hm.
  apply plot_metric_figure in Hm as (Hmetric & _ & Hlines & _ & Hticks).
  split_and!.
  - rewrite Hticks, merge_sort_Permutation. apply NoDup_elements.
  - intros sc. rewrite Hticks, merge_sort_Permutation, elem_of_elements,
      elem_of_list_to_set, list_elem_of_join. split.
    + intros (l & Hsc & Hl). apply list_elem_of_fmap in Hl as (ln & -> & Hln). by exists ln.
    + intros (ln & Hln & Hsc). exists (ProphetComparison2.xs ln). split; [done|].
      apply list_elem_of_fmap. by exists ln.
  - intros ln sc Hln. rewrite Hlines in Hln.
    apply list_elem_of_omap in Hln as (pt & _ & Hline).
    rewrite line_of_reshape in Hline. rewrite Hmetric.
    destruct (points_of _ pt m.1) as [|p l] eqn:Hp; [done|].
    cbv zeta in Hline. apply (inj Some) in Hline. subst ln.
    cbn [ProphetComparison2.label ProphetComparison2.xs].
    rewrite (sort_by_key_perm (p :: l)), <-Hp. apply elem_of_points_of.
Qed.

(** The figures of the example run over three reports. *)
Lemma xticks_cover_the_lines_witness :
  ProphetComparison2.main_with Examples.decimal_float Examples.report_fs "/d"
    MoreExamples.stats_files
  = (MoreExamples.stats_run.1,
     ProphetComparison2.Plotted MoreExamples.stats_plotting MoreExamples.stats_present
       MoreExamples.stats_figures) ∧
  ProphetComparison2.xticks <$> MoreExamples.stats_figures = [[100; 300]; [300]; [300]] ∧
  ∀ fig, fig ∈ MoreExamples.stats_figures →
    NoDup (ProphetComparison2.xticks fig) ∧
    (∀ sc, sc ∈ ProphetComparison2.xticks fig
           ↔ ∃ ln, ln ∈ ProphetComparison2.lines fig ∧ sc ∈ ProphetComparison2.xs ln) ∧
    ∀ ln sc, ln ∈ ProphetComparison2.lines fig →
      (sc ∈ ProphetComparison2.xs ln
       ↔ ∃ item,
           item ∈ (ProphetComparison2.locate_all Examples.decimal_float Examples.report_fs
                     "/d" MoreExamples.stats_files).1 ∧
           ProphetComparison2.prophet_type item = ProphetComparison2.label ln ∧
           ProphetComparison2.scenario_number item = sc ∧
           is_Some (ProphetComparison2.metrics item !! ProphetComparison2.metric fig)).
Proof.
  assert (Hrun : ProphetComparison2.main_with Examples.decimal_float Examples.report_fs "/d"
                   MoreExamples.stats_files
                 = (MoreExamples.stats_run.1,
                    ProphetComparison2.Plotted MoreExamples.stats_plotting
                      MoreExamples.stats_present MoreExamples.stats_figures))
    by (vm_compute; reflexivity).
  split; [exact Hrun|]. split; [vm_compute; reflexivity|].
  exact (xticks_cover_the_lines _ _ _ _ _ _ _ _ Hrun).
Defined.

(** X21: what the second comparison script prints and shows once the files
    are read, metric by metric in the order of the metric list.  Without a
    record it prints that no data was parsed and exits.  Otherwise a metric
    that some record holds gives a figure, and a metric that no record
    holds gives the line that no data was found for it, under its label.
    When every scenario number is below 2^64, the figures are those of the
    metrics held, in order, the lines printed are those of the other
    metrics, in order, and the last line says that plotting is complete; a
    figure carries the metric's label in its title and has at least one
    line; its lines follow the sorted prophet types, and every line has at
    least one point and as many x as y values.  When an exception leaves
    the script, this happens at the first metric held by a record whose
    scenario number is at least 2^64: the figures and lines of the metrics
    before it have been shown and printed, and no line about completion. *)
Theorem figure_or_message_per_metric
    (py_float : string → option float) (fs : string → Fs.file_state)
    (script_dir : string) (data_files out : list string)
    (result : ProphetComparison2.outcome) :
  ProphetComparison2.main_with py_float fs script_dir data_files = (out, result) →
  let records := (ProphetComparison2.locate_all py_float fs script_dir data_files).1 in
  let printed := (ProphetComparison2.locate_all py_float fs script_dir data_files).2 in
  match result with
  | ProphetComparison2.Exited =>
      records = [] ∧ out = printed ++ ["No data successfully parsed. Exiting."]
  | ProphetComparison2.Plotted pd present figures =>
      out = printed
              ++ (no_data_message
                    <$> filter (λ m, ¬ holds_metric records m.1)
                          ProphetComparison2.METRICS_TO_PLOT)
              ++ ["Plotting complete."] ∧
      ProphetComparison2.metric <$> figures = filter (holds_metric records) metric_keys ∧
      (∀ fig, fig ∈ figures →
         (∃ m, m ∈ ProphetComparison2.METRICS_TO_PLOT ∧
               ProphetComparison2.metric fig = m.1 ∧
               ProphetComparison2.title fig = m.2 +:+ " Comparison") ∧
         ProphetComparison2.lines fig ≠ [] ∧
         ProphetComparison2.label <$> ProphetComparison2.lines fig `sublist_of` present ∧
         ∀ ln, ln ∈ ProphetComparison2.lines fig →
           ProphetComparison2.xs ln ≠ [] ∧
           length (ProphetComparison2.xs ln) = length (ProphetComparison2.ys ln))
  | ProphetComparison2.Raised shown =>
      ∃ (n : nat) (m : string * string) (item : ProphetComparison2.parsed),
        ProphetComparison2.METRICS_TO_PLOT !! n = Some m ∧
        item ∈ records ∧ is_Some (ProphetComparison2.metrics item !! m.1) ∧
        2 ^ 64 ≤ ProphetComparison2.scenario_number item ∧
        out = printed
                ++ (no_data_message
                      <$> filter (λ m, ¬ holds_metric records m.1)
                            (take n ProphetComparison2.METRICS_TO_PLOT)) ∧
        ProphetComparison2.metric <$> shown
        = filter (holds_metric records) (take n metric_keys)
  end.
Proof.
  intros Hmain. cbv zeta.
  apply main_with_inversion in Hmain as (out' & Hplot & ->).
  set (records := (ProphetComparison2.locate_all py_float fs script_dir data_files).1) in *.
  assert (Hne : Forall (λ item, ProphetComparison2.metrics item ≠ ∅) records).
  { apply Forall_forall. intros item Hin.
    by apply located_record in Hin as (_ & _ & ? & _). }
  destruct (decide (records = [])) as [Hnil|Hnonempty].
  { rewrite Hnil in Hplot. injection Hplot as <- <-. by rewrite Hnil. }
  rewrite (plot_records records Hnonempty Hne) in Hplot.
  set (present := merge_sort (≤)%string
                    (map_to_list (ProphetComparison2.reshape records)).*1) in *.
  destruct (ProphetComparison2.show_figures _) as [[out0 figures0] completed] eqn:Hshow.
  destruct completed; injection Hplot as <- <-.
  - apply show_figures_completed in Hshow as (Hfigs & Hout & _).
    destruct (results_split records ProphetComparison2.METRICS_TO_PLOT Hne) as [Hf Hm].
    fold present in Hf, Hm. split_and!.
    + by rewrite Hout, Hm.
    + by rewrite Hfigs, Hf.
    + intros fig Hfig. rewrite Hfigs in Hfig.
      apply list_elem_of_omap in Hfig as (r & Hr & Hfig).
      destruct r as [fig'|]; [|done]. injection Hfig as ->.
      apply list_elem_of_fmap in Hr as (m & Hm' & Hin). symmetry in Hm'.
      apply plot_metric_figure in Hm' as (Hmetric & Htitle & Hlines & Hnel & _).
      split_and!; [by exists m|done| |].
      * rewrite Hlines. apply omap_sublist. intros pt ln Hln.
        by apply line_of_points in Hln as (? & _).
      * intros ln Hln. rewrite Hlines in Hln.
        apply list_elem_of_omap in Hln as (pt & _ & Hline).
        by apply line_of_points in Hline as (_ & ? & ? & _).
  - apply show_figures_refused in Hshow as (n & fig & Hn & Hno & Hshow).
    rewrite list_lookup_fmap in Hn.
    destruct (ProphetComparison2.METRICS_TO_PLOT !! n) as [m|] eqn:Hmn; [|done].
    injection Hn as Hm.
    apply ticks_refused in Hno as (sc & Hsc & Hbig).
    destruct (proj1 (figure_ticks records m fig sc Hne Hm) Hsc) as (item & Hin & <- & Hk).
    exists n, m, item. split_and!; [done..| |].
    + rewrite <-fmap_take in Hshow.
      apply show_figures_completed in Hshow as (_ & -> & _).
      destruct (results_split records (take n ProphetComparison2.METRICS_TO_PLOT) Hne)
        as [_ Hmsgs].
      fold present in Hmsgs. by rewrite Hmsgs.
    + rewrite <-fmap_take in Hshow.
      apply show_figures_completed in Hshow as (-> & _ & _).
      destruct (results_split records (take n ProphetComparison2.METRICS_TO_PLOT) Hne)
        as [Hfigs _].
      fold present in Hfigs. rewrite Hfigs, fmap_take. done.
Qed.

(** The example run over three reports: three figures, three messages. *)
Lemma figure_or_message_per_metric_witness :
  ProphetComparison2.main_with Examples.decimal_float Examples.report_fs "/d"
    MoreExamples.stats_files
  = (MoreExamples.stats_run.1,
     ProphetComparison2.Plotted MoreExamples.stats_plotting MoreExamples.stats_present
       MoreExamples.stats_figures) ∧
  ProphetComparison2.metric <$> MoreExamples.stats_figures
  = ["delivery_prob"; "overhead_ratio"; "latency_avg"] ∧
  let records :=
    (ProphetComparison2.locate_all Examples.decimal_float Examples.report_fs "/d"
       MoreExamples.stats_files).1 in
  let printed :=
    (ProphetComparison2.locate_all Examples.decimal_float Examples.report_fs "/d"
       MoreExamples.stats_files).2 in
  MoreExamples.stats_run.1
  = printed
      ++ (no_data_message
            <$> filter (λ m, ¬ holds_metric records m.1)
                  ProphetComparison2.METRICS_TO_PLOT)
      ++ ["Plotting complete."] ∧
  ProphetComparison2.metric <$> MoreExamples.stats_figures
  = filter (holds_metric records) metric_keys ∧
  (∀ fig, fig ∈ MoreExamples.stats_figures →
     (∃ m, m ∈ ProphetComparison2.METRICS_TO_PLOT ∧
           ProphetComparison2.metric fig = m.1 ∧
           ProphetComparison2.title fig = m.2 +:+ " Comparison") ∧
     ProphetComparison2.lines fig ≠ [] ∧
     ProphetComparison2.label <$> ProphetComparison2.lines fig
       `sublist_of` MoreExamples.stats_present ∧
     ∀ ln, ln ∈ ProphetComparison2.lines fig →
       ProphetComparison2.xs ln ≠ [] ∧
       length (ProphetComparison2.xs ln) = length (ProphetComparison2.ys ln)).
Proof.
  assert (Hrun : ProphetComparison2.main_with Examples.decimal_float Examples.report_fs "/d"
                   MoreExamples.stats_files
                 = (MoreExamples.stats_run.1,
                    ProphetComparison2.Plotted MoreExamples.stats_plotting
                      MoreExamples.stats_present MoreExamples.stats_figures))
    by (vm_compute; reflexivity).
  split; [exact Hrun|]. split; [vm_compute; reflexivity|].
  exact (figure_or_message_per_metric _ _ _ _ _ _ Hrun).
Defined.

(** ** Warnings of the first comparison script *)

Section Warnings1.

Import ProphetComparison.

Variable data : data_t.

Lemma add_value_NoDup proto mk st sc :
  NoDup st.2 → NoDup (add_value data proto mk st sc).2.
Proof.
  destruct st as [vals ws]. unfold add_value. cbn [snd]. intros Hnd.
  destruct (F64.isnan _); [|done]. case_bool_decide as Hin; [done|].
  apply NoDup_app. split_and!; [done| |apply NoDup_singleton].
  intros w Hw Hw'. apply list_elem_of_singleton in Hw'. by subst.
Qed.

Lemma add_values_NoDup proto mk scenarios st :
  NoDup st.2 → NoDup (foldl (add_value data proto mk) st scenarios).2.
Proof.
  revert st. induction scenarios as [|sc scs IH]; intros st Hnd; cbn [foldl]; [done|].
  by apply IH, add_value_NoDup.
Qed.

Lemma add_metric_NoDup proto scenarios st m :
  NoDup st.2 → NoDup (add_metric data proto scenarios st m).2.
Proof.
  destruct st as [pd ws]. destruct m as [[mk ?] ?]. unfold add_metric. cbn [snd].
  intros Hnd. pose proof (add_values_NoDup proto mk scenarios ([], ws) Hnd) as Hnd'.
  by destruct (foldl _ _ scenarios).
Qed.

Lemma add_metrics_NoDup proto scenarios ms st :
  NoDup st.2 → NoDup (foldl (add_metric data proto scenarios) st ms).2.
Proof.
  revert st. induction ms as [|m ms IH]; intros st Hnd; cbn [foldl]; [done|].
  by apply IH, add_metric_NoDup.
Qed.

Lemma add_protocol_NoDup scenarios st proto :
  NoDup st.2 → NoDup (add_protocol data scenarios st proto).2.
Proof.
  destruct st as [pd ws]. unfold add_protocol. intros Hnd. by apply add_metrics_NoDup.
Qed.

Lemma prepare_NoDup protocols scenarios : NoDup (prepare data protocols scenarios).2.
Proof.
  unfold prepare. generalize (∅ : gmap string (gmap string (list float))).
  assert (NoDup (@nil string)) as Hnil by constructor. revert Hnil.
  generalize (@nil string). induction protocols as [|p ps IH]; intros ws Hnd pd;
    cbn [foldl]; [done|].
  pose proof (add_protocol_NoDup scenarios (pd, ws) p Hnd) as Hnd'.
  destruct (add_protocol data scenarios (pd, ws) p) as [pd' ws']. by apply IH.
Qed.

End Warnings1.

(** X23: the first comparison script prints no missing-data warning twice:
    the warnings of a run are pairwise different, they are printed between
    the header and the footer of the warnings block, and without a warning
    the block is not printed at all. *)
Theorem warnings_printed_once
    (py_float : string → option float) (fs : string → Fs.file_state)
    (glob_result out : list string) (fig : ProphetComparison.figure) :
  ProphetComparison.main py_float fs glob_result = (out, ProphetComparison.Plotted fig) →
  ∃ warnings,
    ProphetComparison.prepare (ProphetComparison.parse_all py_float fs glob_result).1
      (ProphetComparison.protocols fig) (ProphetComparison.scenarios fig)
    = (ProphetComparison.plot_data fig, warnings) ∧
    NoDup warnings ∧
    out = (ProphetComparison.parse_all py_float fs glob_result).2
          ++ [String Py.LF ("Protocols found: "
                              +:+ Py.repr_list (ProphetComparison.protocols fig));
              "Scenarios found: ["
                +:+ Py.join ", " (pretty <$> ProphetComparison.scenarios fig) +:+ "]"]
          ++ match warnings with
             | [] => []
             | _ => [String Py.LF "--- Data Warnings ---"] ++ warnings
                      ++ ["NaN values will be used in plots where data is missing.";
                          String.append "---------------------" (String Py.LF EmptyString)]
             end.
Proof.
  intros Hmain. apply main_plotted in Hmain as (out' & Hplot & ->).
  apply plot_plotted in Hplot as (p0 & rest & warnings & _ & Hprotos & _ & Hprep & _ & ->).
  exists warnings. rewrite Hprotos. split_and!; [done| |done].
  pose proof (prepare_NoDup (ProphetComparison.parse_all py_float fs glob_result).1
                (p0 :: rest) (ProphetComparison.scenarios fig)) as Hnd.
  by rewrite Hprep in Hnd.
Qed.

(** The warnings of the example run, each printed once. *)
Lemma warnings_printed_once_witness :
  ProphetComparison.main Examples.decimal_float Examples.report_fs Examples.comparison_glob
  = (Examples.comparison_run.1, ProphetComparison.Plotted Examples.comparison_figure) ∧
  ∃ warnings,
    ProphetComparison.prepare
      (ProphetComparison.parse_all Examples.decimal_float Examples.report_fs
         Examples.comparison_glob).1
      (ProphetComparison.protocols Examples.comparison_figure)
      (ProphetComparison.scenarios Examples.comparison_figure)
    = (ProphetComparison.plot_data Examples.comparison_figure, warnings) ∧
    NoDup warnings ∧
    Examples.comparison_run.1
    = (ProphetComparison.parse_all Examples.decimal_float Examples.report_fs
         Examples.comparison_glob).2
          ++ [String Py.LF ("Protocols found: "
                              +:+ Py.repr_list
                                    (ProphetComparison.protocols Examples.comparison_figure));
              "Scenarios found: ["
                +:+ Py.join ", "
                      (pretty <$> ProphetComparison.scenarios Examples.comparison_figure)
                +:+ "]"]
          ++ match warnings with
             | [] => []
             | _ => [String Py.LF "--- Data Warnings ---"] ++ warnings
                      ++ ["NaN values will be used in plots where data is missing.";
                          String.append "---------------------" (String Py.LF EmptyString)]
             end.
Proof.
  assert (Hrun : ProphetComparison.main Examples.decimal_float Examples.report_fs
                   Examples.comparison_glob
                 = (Examples.comparison_run.1,
                    ProphetComparison.Plotted Examples.comparison_figure))
    by (vm_compute; reflexivity).
  split; [exact Hrun|].
  exact (warnings_printed_once _ _ _ _ _ Hrun).
Defined.

(** ** Letter case in the file names of the second comparison script *)

Section LetterCase.

Import Py ProphetComparison2.

Lemma lower_char_facts c :
  lower_char (lower_char c) = lower_char c ∧
  isdigit (lower_char c) = isdigit c ∧
  (isdigit c = true → lower_char c = c) ∧
  Ascii.eqb (lower_char c) "_" = Ascii.eqb c "_".
Proof.
  destruct c as [[] [] [] [] [] [] [] []]; vm_compute; split_and!; done.
Qed.

Lemma strip_prefix_ci_lower p s :
  strip_prefix_ci p (lower s) = lower <$> strip_prefix_ci p s.
Proof.
  revert s. induction p as [|a p IH]; intros [|b s]; simpl; try done.
  destruct (lower_char_facts b) as (-> & _). by destruct (Ascii.eqb a (lower_char b)).
Qed.

Lemma span_digits_lower s :
  span_digits (lower s) = ((span_digits s).1, lower (span_digits s).2).
Proof.
  induction s as [|c s IH]; simpl; [done|].
  destruct (lower_char_facts c) as (_ & -> & Hc & _).
  destruct (isdigit c) eqn:Hd; [|done].
  rewrite IH, (Hc eq_refl). by destruct (span_digits s).
Qed.

Lemma scenario_alternative_lower name s :
  scenario_alternative name (lower s) = scenario_alternative name s.
Proof.
  unfold scenario_alternative. rewrite strip_prefix_ci_lower.
  destruct (strip_prefix_ci name s) as [r|]; [|done]. cbn [fmap option_fmap option_map
    mbind option_bind]. rewrite span_digits_lower.
  destruct (span_digits r) as [d r']. cbn [fst snd].
  destruct d as [|x d]; [done|]. destruct r' as [|u r']; [done|]. cbn [lower].
  pose proof (lower_char_facts u) as (_ & _ & _ & Hu).
  destruct (Ascii.eqb_spec u "_") as [->|Hne]; [done|].
  destruct (Ascii.eqb_spec (lower_char u) "_") as [Heq|Hne']; [done|].
  assert (∀ v : ascii, v ≠ "_"%char →
            match v with
            | "_"%char => Some (String x d)
            | _ => None
            end = None) as Hnone.
  { intros v Hv. destruct v as [[] [] [] [] [] [] [] []]; done. }
  by rewrite !Hnone.
Qed.

Lemma match_scenario_lower s : match_scenario (lower s) = match_scenario s.
Proof.
  induction s as [|c s IH].
  - done.
  - change (lower (String c s)) with (String (lower_char c) (lower s)) at 1.
    cbn [match_scenario]. unfold scenario_at.
    change (String (lower_char c) (lower s)) with (lower (String c s)).
    rewrite !scenario_alternative_lower. by rewrite IH.
Qed.

End LetterCase.

(** X24: the second comparison script ignores letter case in file names:
    two names that are equal once lowered give the same scenario digits,
    and when one has a prophet type the other has the same. *)
Theorem letter_case_ignored (filename1 filename2 : string) :
  Py.lower filename1 = Py.lower filename2 →
  ProphetComparison2.match_scenario filename1 = ProphetComparison2.match_scenario filename2 ∧
  ∀ pt, ProphetComparison2.prophet_type_of filename1 = inl pt →
        ProphetComparison2.prophet_type_of filename2 = inl pt.
Proof.
  intros Hlow. split.
  - by rewrite <-(match_scenario_lower filename1), <-(match_scenario_lower filename2), Hlow.
  - intros pt. unfold ProphetComparison2.prophet_type_of. rewrite Hlow.
    destruct (Py.contains "haggle" _); [|destruct (Py.contains "reality" _); [|done]];
      (destruct (Py.contains "randomprophet" _);
       [|destruct (Py.contains "prophet" _); [|done]]); done.
Qed.

(** A name of the file list written in capitals. *)
Lemma letter_case_ignored_witness :
  ProphetComparison2.match_scenario "HAGGLERANDOMPROPHET300_MessageStatsReport.txt"
  = ProphetComparison2.match_scenario "HaggleRandomProphet300_messagestatsreport.TXT" ∧
  ∀ pt, ProphetComparison2.prophet_type_of "HAGGLERANDOMPROPHET300_MessageStatsReport.txt"
        = inl pt →
        ProphetComparison2.prophet_type_of "HaggleRandomProphet300_messagestatsreport.TXT"
        = inl pt.
Proof.
  exact (letter_case_ignored "HAGGLERANDOMPROPHET300_MessageStatsReport.txt"
           "HaggleRandomProphet300_messagestatsreport.TXT" eq_refl).
Defined.
